(** * Task manager client: a shallow embedding of the front-end stores,
      services and components, with the properties of its specification.

    The development follows the TypeScript sources:
    - [Js]                      the fragment of JavaScript semantics the code relies on
    - [TaskStore]               store/taskStore.ts (aliases, predicates, zustand store)
    - [ProgressStats], [ListView]  the derived counters and sort key of the two views
    - [ApiService], [AiApi]     services/api.ts and services/aiApi.ts (axios clients)
    - [WebSocketService]        services/websocket.ts
    - [ChatAssistant], [SubtaskSuggestionsModal]  the two AI components
    - [Backend]                 the [tasks] table of the migration, and the update
                                handler, which is not among the sources *)

From Stdlib Require Import String Ascii List ZArith Bool Lia.
From stdpp Require Import base option list strings gmap fin_maps pretty.
Import ListNotations.
Local Open Scope string_scope.
Local Open Scope Z_scope.

(** ** JavaScript values *)

Module Js.

(** What a property read on an object literal can produce where the code
    expects an [A]: a primitive of that type, or a member inherited from
    [Object.prototype] (a function, or the prototype object itself for
    [__proto__]).  [undefined] is [None] at the use site. *)
Inductive val (A : Type) : Type :=
| Prim (a : A)
| Inherited (key : string).
Arguments Prim {A} a.
Arguments Inherited {A} key.

(** The own and accessor properties of [Object.prototype]. *)
Definition object_prototype_keys : list string :=
  [ "constructor"; "__defineGetter__"; "__defineSetter__"; "hasOwnProperty";
    "__lookupGetter__"; "__lookupSetter__"; "isPrototypeOf";
    "propertyIsEnumerable"; "toString"; "valueOf"; "__proto__";
    "toLocaleString" ].

(** Own properties of an object literal, in source order. *)
Fixpoint own {A : Type} (literal : list (string * A)) (key : string) : option A :=
  match literal with
  | [] => None
  | (k, v) :: rest => if String.eqb key k then Some v else own rest key
  end.

(** [literal[key]]: own property first, then the prototype chain. *)
Definition get {A : Type} (literal : list (string * A)) (key : string) : option (val A) :=
  match own literal key with
  | Some v => Some (Prim v)
  | None =>
      if existsb (String.eqb key) object_prototype_keys
      then Some (Inherited key)
      else None
  end.

(** [ToString] of an inherited member, as the engine prints it. *)
Definition inherited_to_string (key : string) : string :=
  if String.eqb key "__proto__" then "[object Object]"
  else "function "
         ++ (if String.eqb key "constructor" then "Object" else key)
         ++ "() { [native code] }".

(** [ToPropertyKey] on the values that reach a string-keyed lookup. *)
Definition to_key (v : val string) : string :=
  match v with
  | Prim s => s
  | Inherited k => inherited_to_string k
  end.

(** Truthiness. *)
Definition truthy_string (s : string) : bool := negb (String.eqb s "").
Definition truthy_number (n : Z) : bool := negb (Z.eqb n 0).

Definition truthy {A : Type} (prim_truthy : A -> bool) (v : option (val A)) : bool :=
  match v with
  | Some (Prim a) => prim_truthy a
  | Some (Inherited _) => true
  | None => false
  end.

(** [a || b] where [a] is a lookup result. *)
Definition or_else {A : Type} (prim_truthy : A -> bool)
    (a : option (val A)) (b : val A) : val A :=
  match a with
  | Some v => if truthy prim_truthy a then v else b
  | None => b
  end.

(** [x === 'literal'] for a value that is expected to be a string. *)
Definition strict_eq (v : val string) (literal : string) : bool :=
  match v with
  | Prim s => String.eqb s literal
  | Inherited _ => false
  end.

(** [a || b] on an optional string ([undefined], [null] and [''] are falsy). *)
Definition or_string (a : option string) (b : string) : string :=
  match a with
  | Some s => if truthy_string s then s else b
  | None => b
  end.

(** How an awaited promise settles. *)
Inductive settled (A E : Type) : Type :=
| Resolved (a : A)
| Rejected (e : E).
Arguments Resolved {A E} a.
Arguments Rejected {A E} e.

(** How an [async] function or a handler finishes. *)
Inductive completion (A E : Type) : Type :=
| Returned (a : A)
| Thrown (e : E).
Arguments Returned {A E} a.
Arguments Thrown {A E} e.

End Js.

(** ** store/taskStore.ts: aliases and predicates *)

Module TaskStore.
Import Js.

Definition status_mapping : list (string * string) :=
  [ ("todo", "a_fazer");
    ("pending", "a_fazer");
    ("in_progress", "em_progresso");
    ("done", "concluida");
    ("cancelled", "cancelada") ].

Definition normalizeStatus (status : val string) : val string :=
  or_else truthy_string (get status_mapping (to_key status)) status.

Definition priority_mapping : list (string * string) :=
  [ ("low", "baixa");
    ("medium", "media");
    ("high", "alta");
    ("urgent", "urgente") ].

Definition normalizePriority (priority : val string) : val string :=
  or_else truthy_string (get priority_mapping (to_key priority)) priority.

Definition isStatusDone (status : val string) : bool :=
  strict_eq status "done" || strict_eq status "concluida".
Definition isStatusCancelled (status : val string) : bool :=
  strict_eq status "cancelled" || strict_eq status "cancelada".
Definition isStatusInProgress (status : val string) : bool :=
  strict_eq status "in_progress" || strict_eq status "em_progresso".
Definition isStatusTodo (status : val string) : bool :=
  strict_eq status "todo" || strict_eq status "a_fazer" || strict_eq status "pending".

Definition isPriorityHigh (priority : val string) : bool :=
  strict_eq priority "high" || strict_eq priority "alta".
Definition isPriorityUrgent (priority : val string) : bool :=
  strict_eq priority "urgent" || strict_eq priority "urgente".
Definition isPriorityMedium (priority : val string) : bool :=
  strict_eq priority "medium" || strict_eq priority "media".
Definition isPriorityLow (priority : val string) : bool :=
  strict_eq priority "low" || strict_eq priority "baixa".

(** [interface Task]; [metadata] and [gpt_response] are kept as their JSON text. *)
Record Task := {
  id : string;
  user_id : string;
  project_id : option string;
  parent_task_id : option string;
  title : string;
  description : option string;
  status : string;
  priority : string;
  due_date : option string;
  estimated_duration : option Z;
  actual_duration : option Z;
  completed_at : option string;
  tags : list string;
  metadata : string;
  natural_language_input : option string;
  gpt_response : option string;
  created_at : option string;
  updated_at : option string;
}.

(** The part of an axios error the stores read:
    [error.response?.status], [error.response?.data?.detail], [error.message]. *)
Record ApiError := {
  response_status : option Z;
  response_detail : option string;
  message : string;
}.

(** The state part of [TaskState]; the actions follow as functions. *)
Record TaskState := {
  tasks : list Task;
  total : Z;
  isLoading : bool;
  error : option string;
}.

Definition initial : TaskState :=
  {| tasks := []; total := 0; isLoading := false; error := None |}.

Record TasksResponse := {
  response_tasks : list Task;
  response_total : Z;
}.

Record FetchOptions := {
  opt_status : option string;
  opt_projectId : option string;
  opt_limit : option Z;
  opt_offset : option Z;
  opt_sortBy : option string;
  opt_sortOrder : option string;
  opt_q : option string;
}.

Definition no_options : FetchOptions :=
  {| opt_status := None; opt_projectId := None; opt_limit := None;
     opt_offset := None; opt_sortBy := None; opt_sortOrder := None;
     opt_q := None |}.

(** [{ ...options, limit: options?.limit || 100 }] *)
Definition fetchTasks_request (options : option FetchOptions) : FetchOptions :=
  let o := default no_options options in
  {| opt_status := opt_status o; opt_projectId := opt_projectId o;
     opt_limit :=
       Some (match opt_limit o with
             | Some n => if truthy_number n then n else 100
             | None => 100
             end);
     opt_offset := opt_offset o; opt_sortBy := opt_sortBy o;
     opt_sortOrder := opt_sortOrder o; opt_q := opt_q o |}.

(** [set({ isLoading: true, error: null })], the first statement of every action. *)
Definition set_loading (st : TaskState) : TaskState :=
  {| tasks := tasks st; total := total st; isLoading := true; error := None |}.

(** [set({ error: error.response?.data?.detail || fallback, isLoading: false })] *)
Definition set_failed (fallback : string) (e : ApiError) (st : TaskState) : TaskState :=
  {| tasks := tasks st; total := total st; isLoading := false;
     error := Some (or_string (response_detail e) fallback) |}.

(** [set((state) => ({ tasks: f(state.tasks), isLoading: false }))] *)
Definition set_tasks_loaded (f : list Task -> list Task) (st : TaskState) : TaskState :=
  {| tasks := f (tasks st); total := total st; isLoading := false; error := error st |}.

(** [set((state) => ({ tasks: f(state.tasks) }))] *)
Definition set_tasks (f : list Task -> list Task) (st : TaskState) : TaskState :=
  {| tasks := f (tasks st); total := total st; isLoading := isLoading st;
     error := error st |}.

(** Each action is split where it awaits: [_settled] is the code that runs
    once the promise of the API call has settled, on the store as it is then. *)

Definition fetchTasks_settled (st : TaskState)
    (response : settled TasksResponse ApiError) : TaskState * completion unit ApiError :=
  match response with
  | Resolved r =>
      ({| tasks := response_tasks r; total := response_total r;
          isLoading := false; error := error st |}, Returned tt)
  | Rejected e => (set_failed "Failed to fetch tasks" e st, Returned tt)
  end.

Definition fetchTasks (st : TaskState) (response : settled TasksResponse ApiError) :=
  fetchTasks_settled (set_loading st) response.

Definition createTask_settled (st : TaskState)
    (response : settled Task ApiError) : TaskState * completion Task ApiError :=
  match response with
  | Resolved task => (set_tasks_loaded (fun ts => (ts ++ [task])%list) st, Returned task)
  | Rejected e => (set_failed "Failed to create task" e st, Thrown e)
  end.

Definition createTask (st : TaskState) (response : settled Task ApiError) :=
  createTask_settled (set_loading st) response.

Definition createTaskStructured_settled (st : TaskState)
    (response : settled Task ApiError) : TaskState * completion Task ApiError :=
  match response with
  | Resolved task => (set_tasks_loaded (fun ts => (ts ++ [task])%list) st, Returned task)
  | Rejected e => (set_failed "Failed to create task" e st, Thrown e)
  end.

Definition createTaskStructured (st : TaskState) (response : settled Task ApiError) :=
  createTaskStructured_settled (set_loading st) response.

Definition updateTask_settled (taskId : string) (st : TaskState)
    (response : settled Task ApiError) : TaskState * completion unit ApiError :=
  match response with
  | Resolved updatedTask =>
      (set_tasks_loaded
         (List.map (fun task => if String.eqb (id task) taskId then updatedTask else task))
         st, Returned tt)
  | Rejected e => (set_failed "Failed to update task" e st, Thrown e)
  end.

Definition updateTask (taskId : string) (st : TaskState)
    (response : settled Task ApiError) :=
  updateTask_settled taskId (set_loading st) response.

Definition deleteTask_settled (taskId : string) (st : TaskState)
    (response : settled unit ApiError) : TaskState * completion unit ApiError :=
  match response with
  | Resolved _ =>
      (set_tasks_loaded
         (List.filter (fun task => negb (String.eqb (id task) taskId))) st, Returned tt)
  | Rejected e => (set_failed "Failed to delete task" e st, Thrown e)
  end.

Definition deleteTask (taskId : string) (st : TaskState)
    (response : settled unit ApiError) :=
  deleteTask_settled taskId (set_loading st) response.

(** The three callbacks that [setupWebSocket] registers. *)
Definition on_task_created (task : Task) (st : TaskState) : TaskState :=
  set_tasks (fun ts => (ts ++ [task])%list) st.

Definition on_task_updated (task : Task) (st : TaskState) : TaskState :=
  set_tasks (List.map (fun t => if String.eqb (id t) (id task) then task else t)) st.

Definition on_task_deleted (data : Task) (st : TaskState) : TaskState :=
  set_tasks (List.filter (fun t => negb (String.eqb (id t) (id data)))) st.

End TaskStore.

(** ** Dates

    [new Date(s)] is taken from the environment: [parse s] is the epoch
    time in milliseconds, [None] for an invalid date (every comparison with
    it is false). *)

Module Clock.

Record t := {
  parse : string -> option Z;
  now : Z;              (* [new Date()] *)
  midnight : Z;         (* [new Date().setHours(0, 0, 0, 0)] *)
}.

(** [new Date(s) < bound] *)
Definition before (c : t) (s : string) (bound : Z) : bool :=
  match parse c s with
  | Some ms => Z.ltb ms bound
  | None => false
  end.

End Clock.

(** ** components/ProgressStats.tsx: the counters of [stats] *)

Module ProgressStats.
Import Js TaskStore.

Definition count (p : Task -> bool) (tasks : list Task) : Z :=
  Z.of_nat (length (List.filter p tasks)).

Definition open_task (t : Task) : bool :=
  negb (String.eqb (status t) "done") && negb (String.eqb (status t) "cancelled").

Definition total (tasks : list Task) : Z := Z.of_nat (length tasks).
Definition completed (tasks : list Task) : Z :=
  count (fun t => String.eqb (status t) "done") tasks.
Definition inProgress (tasks : list Task) : Z :=
  count (fun t => String.eqb (status t) "in_progress") tasks.
Definition todo (tasks : list Task) : Z :=
  count (fun t => String.eqb (status t) "todo") tasks.
Definition cancelled (tasks : list Task) : Z :=
  count (fun t => String.eqb (status t) "cancelled") tasks.

Definition urgent (tasks : list Task) : Z :=
  count (fun t => String.eqb (priority t) "urgent" && open_task t) tasks.
Definition high (tasks : list Task) : Z :=
  count (fun t => String.eqb (priority t) "high" && open_task t) tasks.
Definition medium (tasks : list Task) : Z :=
  count (fun t => String.eqb (priority t) "medium" && open_task t) tasks.
Definition low (tasks : list Task) : Z :=
  count (fun t => String.eqb (priority t) "low" && open_task t) tasks.

Definition overdue (clock : Clock.t) (tasks : list Task) : Z :=
  count (fun t =>
           match due_date t with
           | Some d => truthy_string d && Clock.before clock d (Clock.now clock)
                       && open_task t
           | None => false
           end) tasks.

End ProgressStats.

(** ** components/ListView.tsx: sort key, priority filter and header counters *)

Module ListView.
Import Js TaskStore.

Definition priority_map : list (string * Z) :=
  [ ("urgent", 4); ("high", 3); ("medium", 2); ("low", 1) ].

Definition priorityValue (priority : string) : val Z :=
  or_else truthy_number (get priority_map priority) (Prim 0).

(** The [matchesPriority] part of the filter callback. *)
Definition matchesPriority (priorityFilter : string) (task : Task) : bool :=
  if String.eqb priorityFilter "urgent" then isPriorityUrgent (Prim (priority task))
  else if String.eqb priorityFilter "high" then isPriorityHigh (Prim (priority task))
  else if String.eqb priorityFilter "medium" then isPriorityMedium (Prim (priority task))
  else if String.eqb priorityFilter "low" then isPriorityLow (Prim (priority task))
  else true.

Definition isOverdue (clock : Clock.t) (dueDate : option string) : bool :=
  match dueDate with
  | Some d => truthy_string d && Clock.before clock d (Clock.midnight clock)
  | None => false
  end.

Definition count (p : Task -> bool) (tasks : list Task) : Z :=
  Z.of_nat (length (List.filter p tasks)).

Definition overdueCount (clock : Clock.t) (tasks : list Task) : Z :=
  count (fun t => isOverdue clock (due_date t)
                  && negb (isStatusDone (Prim (status t)))
                  && negb (isStatusCancelled (Prim (status t)))) tasks.

Definition highPriorityCount (tasks : list Task) : Z :=
  count (fun t => (isPriorityHigh (Prim (priority t)) || isPriorityUrgent (Prim (priority t)))
                  && negb (isStatusDone (Prim (status t)))
                  && negb (isStatusCancelled (Prim (status t)))) tasks.

(** The [count] fields of the four status tabs. *)
Definition todoCount (tasks : list Task) : Z :=
  count (fun t => isStatusTodo (Prim (status t))) tasks.
Definition inProgressCount (tasks : list Task) : Z :=
  count (fun t => isStatusInProgress (Prim (status t))) tasks.
Definition doneCount (tasks : list Task) : Z :=
  count (fun t => isStatusDone (Prim (status t))) tasks.
Definition cancelledCount (tasks : list Task) : Z :=
  count (fun t => isStatusCancelled (Prim (status t))) tasks.

Definition itemsPerPage : Z := 8.

(** [array.slice(start, end)], negative indices counting from the end. *)
Definition slice {A : Type} (start finish : Z) (l : list A) : list A :=
  let len := Z.of_nat (length l) in
  let k := if Z.ltb start 0 then Z.max (len + start) 0 else Z.min start len in
  let final := if Z.ltb finish 0 then Z.max (len + finish) 0 else Z.min finish len in
  firstn (Z.to_nat (final - k)) (skipn (Z.to_nat k) l).

(** The tasks rendered on page [currentPage]. *)
Definition page (currentPage : Z) (filteredTasks : list Task) : list Task :=
  slice ((currentPage - 1) * itemsPerPage) (currentPage * itemsPerPage) filteredTasks.

(** [Math.ceil(filteredTasks.length / itemsPerPage)] *)
Definition totalPages (filteredTasks : list Task) : Z :=
  - ((- Z.of_nat (length filteredTasks)) / itemsPerPage).

(** The pager is rendered only for more than one page of tasks. *)
Definition pager_shown (filteredTasks : list Task) : bool :=
  Z.ltb itemsPerPage (Z.of_nat (length filteredTasks)).

Definition previousPage (p : Z) : Z := Z.max 1 (p - 1).

Definition nextPage (filteredTasks : list Task) (p : Z) : Z :=
  Z.min (totalPages filteredTasks) (p + 1).

End ListView.

(** ** The browser and the network, as the two axios clients see them *)

Module Http.

(** An axios request config; [_retry] is the flag the response
    interceptor adds to it. *)
Record Config := {
  method : string;
  url : string;
  authorization : option string;     (* [headers.Authorization] *)
  _retry : bool;
}.

(** [response.data], with the two fields the refresh flow destructures. *)
Record Data := {
  access_token : option string;
  refresh_token : option string;
  body : string;
}.

(** What the network answers to one request.  axios resolves on a 2xx
    status and rejects otherwise; [NoResponse] is a network error. *)
Inductive Reply :=
| Reply2xx (data : Data)
| ReplyStatus (status : Z) (detail : option string)
| NoResponse.

Record AxiosError := {
  config : Config;
  status : option Z;                 (* [error.response?.status] *)
  detail : option string;            (* [error.response?.data?.detail] *)
}.

Inductive Sent :=
| SentRequest (c : Config)
| SentRefresh (refresh_token : string).

Record Browser := {
  localStorage : gmap string string;
  location : string;                 (* [window.location.href] *)
  sent : list Sent;                  (* requests put on the wire, oldest first *)
}.

Inductive Outcome :=
| Fulfilled (data : Data)
| Failed (e : AxiosError)
| Pending.                           (* no answer arrived *)

Definition send (s : Sent) (b : Browser) : Browser :=
  {| localStorage := localStorage b; location := location b;
     sent := (sent b ++ [s])%list |}.

(** [localStorage.getItem(key)] followed by a truthiness test. *)
Definition getItem_truthy (b : Browser) (key : string) : option string :=
  match localStorage b !! key with
  | Some v => if Js.truthy_string v then Some v else None
  | None => None
  end.

(** [localStorage.setItem(key, value)]: [undefined] is stored as its string. *)
Definition setItem (key : string) (value : option string) (b : Browser) : Browser :=
  {| localStorage := <[ key := default "undefined" value ]> (localStorage b);
     location := location b; sent := sent b |}.

Definition removeItem (key : string) (b : Browser) : Browser :=
  {| localStorage := delete key (localStorage b);
     location := location b; sent := sent b |}.

Definition navigate (href : string) (b : Browser) : Browser :=
  {| localStorage := localStorage b; location := href; sent := sent b |}.

Definition bearer (token : option string) : string :=
  "Bearer " ++ default "undefined" token.

(** The request interceptor, identical in both clients. *)
Definition request_interceptor (b : Browser) (c : Config) : Config :=
  match getItem_truthy b "access_token" with
  | Some token =>
      {| method := method c; url := url c;
         authorization := Some (bearer (Some token)); _retry := _retry c |}
  | None => c
  end.

Definition error_of (c : Config) (r : Reply) : AxiosError :=
  match r with
  | ReplyStatus st d => {| config := c; status := Some st; detail := d |}
  | _ => {| config := c; status := None; detail := None |}
  end.

(** [error.response?.status === code] *)
Definition status_is (code : Z) (e : AxiosError) : bool :=
  match status e with
  | Some st => Z.eqb st code
  | None => false
  end.

Definition mark_retry (c : Config) : Config :=
  {| method := method c; url := url c; authorization := authorization c;
     _retry := true |}.

Definition with_authorization (a : string) (c : Config) : Config :=
  {| method := method c; url := url c; authorization := Some a;
     _retry := _retry c |}.

(** How often the request itself (not the refresh) went on the wire. *)
Definition attempts (b : Browser) : nat :=
  length (List.filter (fun s => match s with SentRequest _ => true | _ => false end)
                      (sent b)).

End Http.

(** ** services/api.ts: [ApiService], the client with the refresh flow *)

Module ApiService.
Import Http.

(** [this.api(config)]: request interceptor, the wire, response
    interceptor.  [replies] are the answers of the network to the
    successive requests, in the order they are made. *)
Fixpoint api (replies : list Reply) (b : Browser) (c : Config) : Outcome * Browser :=
  let c := request_interceptor b c in
  let b := send (SentRequest c) b in
  match replies with
  | [] => (Pending, b)
  | Reply2xx data :: _ => (Fulfilled data, b)
  | r :: replies =>
      let error := error_of c r in
      if status_is 401 error && negb (_retry c) then
        let originalRequest := mark_retry c in
        let error := error_of originalRequest r in
        match getItem_truthy b "refresh_token" with
        | Some refreshToken =>
            let b := send (SentRefresh refreshToken) b in
            match replies with
            | [] => (Pending, b)
            | Reply2xx data :: replies =>
                let b := setItem "access_token" (access_token data) b in
                let b := setItem "refresh_token" (refresh_token data) b in
                let originalRequest :=
                  with_authorization (bearer (access_token data)) originalRequest in
                api replies b originalRequest
            | refreshReply :: _ =>
                let refreshError :=
                  error_of {| method := "post"; url := "/api/auth/refresh";
                              authorization := None; _retry := false |}
                           refreshReply in
                let b := removeItem "access_token" b in
                let b := removeItem "refresh_token" b in
                let b := navigate "/login" b in
                (Failed refreshError, b)
            end
        | None => (Failed error, b)
        end
      else (Failed error, b)
  end.

Definition updateTask_config (taskId : string) : Config :=
  {| method := "put"; url := "/tasks/" ++ taskId; authorization := None;
     _retry := false |}.

Definition getTasks_config : Config :=
  {| method := "get"; url := "/tasks"; authorization := None; _retry := false |}.

Definition login_config : Config :=
  {| method := "post"; url := "/auth/login"; authorization := None; _retry := false |}.

Definition me_config : Config :=
  {| method := "get"; url := "/auth/me"; authorization := None; _retry := false |}.

(** [login(email, password)]: the call, then both tokens of the answer
    into the storage. *)
Definition login (replies : list Reply) (b : Browser) : Outcome * Browser :=
  let '(outcome, b) := api replies b login_config in
  match outcome with
  | Fulfilled data =>
      (outcome, setItem "refresh_token" (refresh_token data)
                        (setItem "access_token" (access_token data) b))
  | _ => (outcome, b)
  end.

Definition logout (b : Browser) : Browser :=
  removeItem "refresh_token" (removeItem "access_token" b).

(** The replies that are left once a call has put its requests on the
    wire: every request that was sent took the next reply. *)
Definition remaining (replies : list Reply) (before after : Browser) : list Reply :=
  skipn (length (sent after) - length (sent before)) replies.

(** A query parameter of [getTasks]. *)
Inductive Param :=
| PString (s : string)
| PNumber (n : Z).

(** [if (value) params[key] = value] *)
Definition param_if_truthy (key : string) (value : option string)
    (params : gmap string Param) : gmap string Param :=
  match value with
  | Some s => if Js.truthy_string s then <[ key := PString s ]> params else params
  | None => params
  end.

(** [if (value !== undefined) params[key] = value] *)
Definition param_if_defined (key : string) (value : option Z)
    (params : gmap string Param) : gmap string Param :=
  match value with
  | Some n => <[ key := PNumber n ]> params
  | None => params
  end.

(** The [params] object that [getTasks(options)] builds. *)
Definition getTasks_params (options : option TaskStore.FetchOptions)
    : gmap string Param :=
  let o := default TaskStore.no_options options in
  param_if_truthy "q" (TaskStore.opt_q o)
    (param_if_truthy "sort_order" (TaskStore.opt_sortOrder o)
       (param_if_truthy "sort_by" (TaskStore.opt_sortBy o)
          (param_if_defined "offset" (TaskStore.opt_offset o)
             (param_if_defined "limit" (TaskStore.opt_limit o)
                (param_if_truthy "project_id" (TaskStore.opt_projectId o)
                   (param_if_truthy "status" (TaskStore.opt_status o) ∅)))))).

(** No string parameter of the query is the empty string. *)
Definition no_empty_string (params : gmap string Param) : Prop :=
  forall k s, params !! k = Some (PString s) -> s <> "".

End ApiService.

(** ** services/aiApi.ts: [apiClient], request interceptor only *)

Module AiApi.
Import Http.

Definition apiClient (replies : list Reply) (b : Browser) (c : Config) : Outcome * Browser :=
  let c := request_interceptor b c in
  let b := send (SentRequest c) b in
  match replies with
  | [] => (Pending, b)
  | Reply2xx data :: _ => (Fulfilled data, b)
  | r :: _ => (Failed (error_of c r), b)
  end.

Definition executeChatAction_config : Config :=
  {| method := "post"; url := "/ai/chat/action"; authorization := None;
     _retry := false |}.

End AiApi.

(** ** services/websocket.ts together with the runtime that drives it

    The service is a singleton whose handlers are closures over the token
    they were created with; sockets and timers therefore live in tables of
    the runtime, and the service holds references into them. *)

Module WebSocketService.
Import TaskStore.

Inductive ReadyState := CONNECTING | OPEN | CLOSING | CLOSED.

Record Socket := {
  socket_url : string;
  socket_token : string;             (* the [token] its handlers close over *)
  readyState : ReadyState;
}.

(** A registered listener: one of the store's closures. *)
Definition Callback : Type := Task -> TaskState -> TaskState.

Record Message := {
  event : string;
  data : Task;
}.

Record Service := {
  ws : option nat;                   (* index in [sockets] *)
  reconnectTimer : option positive;  (* a timer handle; handles are truthy *)
  listeners : gmap string (list Callback);
}.

Definition reconnectInterval : Z := 5000.
Definition WS_URL : string := "ws://localhost:8000".

Record Timeout := {
  delay : Z;
  reconnect_token : string;          (* the [token] the timer callback closes over *)
}.

Record World := {
  service : Service;
  sockets : list Socket;
  timers : gmap positive Timeout;    (* pending timeouts *)
  next_timer : positive;
  console : list string;
  store : TaskState;
  requests : list Http.Config;       (* REST calls started by the store *)
}.

Definition initial_service : Service :=
  {| ws := None; reconnectTimer := None; listeners := ∅ |}.

Definition initial_world : World :=
  {| service := initial_service; sockets := []; timers := ∅; next_timer := 1%positive;
     console := []; store := TaskStore.initial; requests := [] |}.

Definition set_service (s : Service) (w : World) : World :=
  {| service := s; sockets := sockets w; timers := timers w;
     next_timer := next_timer w; console := console w; store := store w;
     requests := requests w |}.

Definition set_store (st : TaskState) (w : World) : World :=
  {| service := service w; sockets := sockets w; timers := timers w;
     next_timer := next_timer w; console := console w; store := st;
     requests := requests w |}.

Definition log (line : string) (w : World) : World :=
  {| service := service w; sockets := sockets w; timers := timers w;
     next_timer := next_timer w; console := (console w ++ [line])%list;
     store := store w; requests := requests w |}.

Definition set_readyState (i : nat) (r : ReadyState) (w : World) : World :=
  {| service := service w;
     sockets := alter (fun s => {| socket_url := socket_url s;
                                   socket_token := socket_token s;
                                   readyState := r |}) i (sockets w);
     timers := timers w; next_timer := next_timer w; console := console w;
     store := store w; requests := requests w |}.

(** [clearTimeout(handle)] *)
Definition clearTimeout (h : positive) (w : World) : World :=
  {| service := service w; sockets := sockets w; timers := delete h (timers w);
     next_timer := next_timer w; console := console w; store := store w;
     requests := requests w |}.

(** [setTimeout(callback, delay)], returning the new handle. *)
Definition setTimeout (t : Timeout) (w : World) : positive * World :=
  (next_timer w,
   {| service := service w; sockets := sockets w;
      timers := <[ next_timer w := t ]> (timers w);
      next_timer := Pos.succ (next_timer w); console := console w;
      store := store w; requests := requests w |}).

Definition set_reconnectTimer (h : option positive) (w : World) : World :=
  set_service {| ws := ws (service w); reconnectTimer := h;
                 listeners := listeners (service w) |} w.

(** [this.ws?.readyState === WebSocket.OPEN] *)
Definition ws_is_open (w : World) : bool :=
  match ws (service w) with
  | Some i => match sockets w !! i with
              | Some s => match readyState s with OPEN => true | _ => false end
              | None => false
              end
  | None => false
  end.

Definition connect (token : string) (w : World) : World :=
  if ws_is_open w then w
  else
    let i := length (sockets w) in
    let s := {| socket_url := WS_URL ++ "/ws?token=" ++ token;
                socket_token := token; readyState := CONNECTING |} in
    {| service := {| ws := Some i; reconnectTimer := reconnectTimer (service w);
                     listeners := listeners (service w) |};
       sockets := (sockets w ++ [s])%list; timers := timers w;
       next_timer := next_timer w; console := console w; store := store w;
       requests := requests w |}.

Definition onopen (w : World) : World :=
  let w := log "WebSocket connected" w in
  match reconnectTimer (service w) with
  | Some h => set_reconnectTimer None (clearTimeout h w)
  | None => w
  end.

(** [JSON.parse] may throw: [None] is a frame that does not parse.  The
    wildcard listeners (under the key [*]) receive the whole message
    instead of its data; nothing in the application registers one, and the
    model leaves that second dispatch out. *)
Definition onmessage (frame : option Message) (w : World) : World :=
  match frame with
  | Some message =>
      match listeners (service w) !! event message with
      | Some callbacks =>
          set_store (fold_left (fun st callback => callback (data message) st)
                               callbacks (store w)) w
      | None => w
      end
  | None => log "Error parsing WebSocket message:" w
  end.

Definition onerror (w : World) : World := log "WebSocket error:" w.

Definition scheduleReconnect (token : string) (w : World) : World :=
  match reconnectTimer (service w) with
  | Some _ => w
  | None =>
      let '(h, w) := setTimeout {| delay := reconnectInterval;
                                   reconnect_token := token |} w in
      set_reconnectTimer (Some h) w
  end.

Definition onclose (token : string) (w : World) : World :=
  scheduleReconnect token (log "WebSocket disconnected" w).

(** The callback given to [setTimeout] in [scheduleReconnect]. *)
Definition reconnect_callback (token : string) (w : World) : World :=
  connect token (log "Attempting to reconnect WebSocket..." w).

Definition disconnect (w : World) : World :=
  let w := match reconnectTimer (service w) with
           | Some h => set_reconnectTimer None (clearTimeout h w)
           | None => w
           end in
  let w := match ws (service w) with
           | Some i =>
               set_service {| ws := None; reconnectTimer := reconnectTimer (service w);
                              listeners := listeners (service w) |}
                           (set_readyState i CLOSING w)
           | None => w
           end in
  set_service {| ws := ws (service w); reconnectTimer := reconnectTimer (service w);
                 listeners := ∅ |} w.

(** [on(event, callback)]: every call passes a fresh closure, so the set
    of callbacks grows by one. *)
Definition on (ev : string) (callback : Callback) (w : World) : World :=
  set_service {| ws := ws (service w); reconnectTimer := reconnectTimer (service w);
                 listeners := <[ ev := (default [] (listeners (service w) !! ev)
                                          ++ [callback])%list ]>
                                (listeners (service w)) |} w.

(** [useTaskStore.setupWebSocket] *)
Definition setupWebSocket (w : World) : World :=
  on "task_deleted" on_task_deleted
    (on "task_updated" on_task_updated
       (on "task_created" on_task_created w)).

(** What happens to the client, in the order the event loop delivers it. *)
Inductive Event :=
| AuthConnect (token : string)       (* authStore: [websocketService.connect(token)] *)
| AppAuthenticated                   (* App effect: [setupWebSocket(); fetchTasks({})] *)
| TasksFetched (response : Js.settled TasksResponse ApiError)
| SocketOpened (i : nat)
| SocketClosed (i : nat)
| SocketError (i : nat)
| SocketMessage (i : nat) (frame : option Message)
| TimerFired (h : positive)
| Logout.                            (* authStore: [websocketService.disconnect()] *)

Definition start_fetchTasks (w : World) : World :=
  {| service := service w; sockets := sockets w; timers := timers w;
     next_timer := next_timer w; console := console w;
     store := set_loading (store w);
     requests := (requests w ++ [ApiService.getTasks_config])%list |}.

Definition step (w : World) (e : Event) : World :=
  match e with
  | AuthConnect token => connect token w
  | AppAuthenticated => start_fetchTasks (setupWebSocket w)
  | TasksFetched response => set_store (fst (fetchTasks_settled (store w) response)) w
  | SocketOpened i =>
      match sockets w !! i with
      | Some _ => onopen (set_readyState i OPEN w)
      | None => w
      end
  | SocketClosed i =>
      match sockets w !! i with
      | Some s => onclose (socket_token s) (set_readyState i CLOSED w)
      | None => w
      end
  | SocketError i =>
      match sockets w !! i with
      | Some _ => onerror w
      | None => w
      end
  | SocketMessage i frame =>
      match sockets w !! i with
      | Some _ => onmessage frame w
      | None => w
      end
  | TimerFired h =>
      (* a timeout that fires leaves the table of pending ones *)
      match timers w !! h with
      | Some t => reconnect_callback (reconnect_token t) (clearTimeout h w)
      | None => w
      end
  | Logout => disconnect w
  end.

Definition run (w : World) (events : list Event) : World := fold_left step events w.

(** Every pending timeout is the one whose handle the service holds, and
    it waits for the reconnect interval. *)
Definition pending_is_recorded (w : World) : Prop :=
  forall h t, timers w !! h = Some t ->
              reconnectTimer (service w) = Some h /\ delay t = reconnectInterval.

End WebSocketService.

(** ** components/ChatAssistant.tsx: [executeAction] *)

Module ChatAssistant.
Import Js TaskStore.

Record ActionButton := {
  label : string;
  action : string;
  data : option (gmap string string);    (* [any]: a JSON object, or null *)
}.

Inductive Role := user | assistant.

Record Message := {
  role : Role;
  content : string;
  timestamp : string;
  message_action : option string;
  requires_confirmation : option bool;
  action_buttons : list ActionButton;
}.

Record ChatActionRequest := {
  request_action : string;
  task_id : option string;
  task_data : option (gmap string string);
}.

Record ChatActionResponse := {
  success : bool;
  response_message : string;
  task : option Task;
}.

(** The component state, the window, and the tasks held by the server,
    which the component reaches through [aiApi.executeChatAction] only. *)
Record World := {
  messages : list Message;
  loading : bool;
  dispatched : list string;              (* [window.dispatchEvent] *)
  calls : list ChatActionRequest;        (* POST /ai/chat/action *)
  server_tasks : list Task;
}.

(** The endpoint behind [aiApi.executeChatAction]: any function of the
    request and the stored tasks. *)
Definition Endpoint : Type :=
  ChatActionRequest -> list Task -> settled ChatActionResponse ApiError * list Task.

(** An assistant message with only the three fields the handler writes. *)
Definition reply (text now : string) : Message :=
  {| role := assistant; content := text; timestamp := now;
     message_action := None; requires_confirmation := None; action_buttons := [] |}.

Definition push (m : Message) (w : World) : World :=
  {| messages := (messages w ++ [m])%list; loading := loading w;
     dispatched := dispatched w; calls := calls w; server_tasks := server_tasks w |}.

Definition setLoading (l : bool) (w : World) : World :=
  {| messages := messages w; loading := l; dispatched := dispatched w;
     calls := calls w; server_tasks := server_tasks w |}.

Definition dispatchEvent (name : string) (w : World) : World :=
  {| messages := messages w; loading := loading w;
     dispatched := (dispatched w ++ [name])%list; calls := calls w;
     server_tasks := server_tasks w |}.

Definition executeChatAction (endpoint : Endpoint) (request : ChatActionRequest)
    (w : World) : settled ChatActionResponse ApiError * World :=
  let '(response, stored) := endpoint request (server_tasks w) in
  (response,
   {| messages := messages w; loading := loading w; dispatched := dispatched w;
      calls := (calls w ++ [request])%list; server_tasks := stored |}).

(** [now] is [new Date().toISOString()] at the time the message is built. *)
Definition executeAction (endpoint : Endpoint) (now : string)
    (actionButton : ActionButton) (w : World) : World :=
  if String.eqb (action actionButton) "cancel" then
    push (reply "❌ Ação cancelada." now) w
  else
    let w := setLoading true w in
    let request :=
      {| request_action := action actionButton;
         task_id := data actionButton ≫= (fun d => d !! "task_id");
         task_data := data actionButton |} in
    let '(response, w) := executeChatAction endpoint request w in
    let w :=
      match response with
      | Resolved r =>
          dispatchEvent "tasksUpdated" (push (reply (response_message r) now) w)
      | Rejected e =>
          push (reply ("❌ Erro ao executar ação: "
                         ++ or_string (response_detail e) (message e)) now) w
      end in
    setLoading false w.

(** The text of the assistant message that [sendMessage] shows when the
    chat call is rejected. *)
Definition sendMessage_errorText (e : ApiError) : string :=
  if truthy_string (default "" (response_detail e)) then default "" (response_detail e)
  else if bool_decide (response_status e = Some 401)
  then "Sessão expirada. Por favor, faça login novamente."
  else if bool_decide (response_status e = Some 400)
  then or_string (response_detail e)
                 "Requisição inválida. Verifique suas configurações."
  else if truthy_string (message e) then "Erro: " ++ message e
  else "Desculpe, ocorreu um erro ao processar sua mensagem.".

End ChatAssistant.

(** ** components/SubtaskSuggestionsModal.tsx *)

Module SubtaskSuggestionsModal.
Import Js TaskStore.

Record SubtaskSuggestion := {
  suggestion_title : string;
  suggestion_description : string;
  suggestion_estimated_duration : Z;
}.

(** What [aiApi.suggestSubtasks] resolves to. *)
Record Suggested := {
  subtasks : list SubtaskSuggestion;
  provider : string;
}.

(** The hooks of the component.  [selectedSubtasks] is a JavaScript [Set]
    of indices: no duplicates, insertion order. *)
Record State := {
  suggestions : list SubtaskSuggestion;
  selectedSubtasks : list nat;
  isLoading : bool;
  isCreating : bool;
  error : option string;
}.

Definition mounted : State :=
  {| suggestions := []; selectedSubtasks := []; isLoading := true;
     isCreating := false; error := None |}.

(** The modal next to what it could reach: the task store and the wire. *)
Record World := {
  modal : State;
  store : TaskState;
  calls : list Http.Config;
}.

Definition suggest_config : Http.Config :=
  {| Http.method := "post"; Http.url := "/ai/subtasks/suggest";
     Http.authorization := None; Http._retry := false |}.

Definition load_failed : string :=
  "Não foi possível gerar sugestões de subtarefas. Tente novamente.".

Definition loadSuggestions (result : settled Suggested ApiError) (w : World)
    : World * completion unit ApiError :=
  let st := modal w in
  (* setIsLoading(true); setError(null) *)
  let st := {| suggestions := suggestions st; selectedSubtasks := selectedSubtasks st;
               isLoading := true; isCreating := isCreating st; error := None |} in
  let st :=
    match result with
    | Resolved r =>
        {| suggestions := subtasks r;
           selectedSubtasks := seq 0 (length (subtasks r));
           isLoading := isLoading st; isCreating := isCreating st; error := error st |}
    | Rejected _ =>
        {| suggestions := suggestions st; selectedSubtasks := selectedSubtasks st;
           isLoading := isLoading st; isCreating := isCreating st;
           error := Some load_failed |}
    end in
  (* finally: setIsLoading(false) *)
  let st := {| suggestions := suggestions st; selectedSubtasks := selectedSubtasks st;
               isLoading := false; isCreating := isCreating st; error := error st |} in
  ({| modal := st; store := store w; calls := (calls w ++ [suggest_config])%list |},
   Returned tt).

Definition toggleSubtask (index : nat) (st : State) : State :=
  {| suggestions := suggestions st;
     selectedSubtasks :=
       if existsb (Nat.eqb index) (selectedSubtasks st)
       then List.filter (fun i => negb (Nat.eqb index i)) (selectedSubtasks st)
       else (selectedSubtasks st ++ [index])%list;
     isLoading := isLoading st; isCreating := isCreating st; error := error st |}.

(** The body of the modal, by the branch of the conditional that renders. *)
Inductive View :=
| Spinner
| ErrorPanel (text : string)
| NoSuggestions
| SuggestionList (items : list SubtaskSuggestion).

Definition render (st : State) : View :=
  if isLoading st then Spinner
  else match error st with
       | Some text =>
           if truthy_string text then ErrorPanel text
           else if Nat.eqb (length (suggestions st)) 0 then NoSuggestions
                else SuggestionList (suggestions st)
       | None =>
           if Nat.eqb (length (suggestions st)) 0 then NoSuggestions
           else SuggestionList (suggestions st)
       end.


(** The body of one [api.createSubtask(taskId, ...)] call. *)
Record SubtaskBody := {
  parent : string;
  body_title : string;
  body_description : string;
  body_estimated_duration : Z;
  body_status : string;
  body_priority : string;
}.

Inductive PropCall := OnClose | OnSubtasksCreated.

Definition create_failed : string := "Erro ao criar subtarefas. Tente novamente.".

(** The requests that the [map] over the selection starts, in order, and
    whether it ran to the end: reading a field of a suggestion that is not
    there throws, after the calls before it have been made. *)
Fixpoint start_requests (taskId : string) (suggestions : list SubtaskSuggestion)
    (selected : list nat) : list SubtaskBody * bool :=
  match selected with
  | [] => ([], true)
  | index :: rest =>
      match suggestions !! index with
      | Some subtask =>
          let '(started, finished) := start_requests taskId suggestions rest in
          ({| parent := taskId;
              body_title := suggestion_title subtask;
              body_description := suggestion_description subtask;
              body_estimated_duration := suggestion_estimated_duration subtask;
              body_status := "todo"; body_priority := "medium" |} :: started,
           finished)
      | None => ([], false)
      end
  end.

(** [handleCreateSubtasks]; [created] is how [Promise.all] of the calls
    settles.  The result is the state, the calls made and the props called. *)
Definition handleCreateSubtasks (taskId : string) (created : settled unit ApiError)
    (st : State) : State * list SubtaskBody * list PropCall :=
  if Nat.eqb (length (selectedSubtasks st)) 0 then (st, [], [OnClose])
  else
    let '(started, finished) :=
      start_requests taskId (suggestions st) (selectedSubtasks st) in
    let succeeded :=
      finished && match created with Resolved _ => true | Rejected _ => false end in
    ({| suggestions := suggestions st; selectedSubtasks := selectedSubtasks st;
        isLoading := isLoading st; isCreating := false;
        error := if succeeded then error st else Some create_failed |},
     started,
     if succeeded then [OnSubtasksCreated; OnClose] else []).

(** Every selected index is the index of a suggestion, and none is
    selected twice. *)
Definition well_selected (st : State) : Prop :=
  NoDup (selectedSubtasks st)
  /\ forall i, In i (selectedSubtasks st) -> (i < length (suggestions st))%nat.

End SubtaskSuggestionsModal.

(** ** The [tasks] table and the update handler of the server *)

Module Backend.
Import Js TaskStore.

(** The body of [PUT /api/tasks/{id}]: every field is optional. *)
Record TaskUpdate := {
  new_title : option string;
  new_description : option string;
  new_status : option string;
  new_priority : option string;
  new_due_date : option string;
}.

(** The two [CHECK] constraints of [CREATE TABLE tasks]: the values that
    the columns [status] and [priority] admit.  The priority column lists
    both vocabularies, the status column the English one only. *)
Definition status_check (s : string) : bool :=
  existsb (String.eqb s) ["pending"; "todo"; "in_progress"; "done"; "cancelled"].

Definition priority_check (p : string) : bool :=
  existsb (String.eqb p)
    ["baixa"; "media"; "alta"; "urgente"; "low"; "medium"; "high"; "urgent"].

(** A row that the table can hold, as far as these two columns go. *)
Definition row_check (t : Task) : bool :=
  status_check (status t) && priority_check (priority t).

(** Modelled from the spec: the server-side handler of [updateTask(id, partial)]
    is not among the sources (only the table it writes and the client that
    calls it are).  "Partial update": a field that the body carries replaces
    the stored one.  "Changing status to the done equivalence class sets
    completion timestamp; the reverse (leaving done) should clear it": a
    body whose status differs from the stored one stamps [now] when the new
    status is in the done class, and clears the timestamp when the stored
    one was in the class and the new one is not. *)
Definition apply_update (now : string) (u : TaskUpdate) (t : Task) : Task :=
  {| id := id t; user_id := user_id t; project_id := project_id t;
     parent_task_id := parent_task_id t;
     title := default (title t) (new_title u);
     description := match new_description u with
                    | Some d => Some d
                    | None => description t
                    end;
     status := default (status t) (new_status u);
     priority := default (priority t) (new_priority u);
     due_date := match new_due_date u with
                 | Some d => Some d
                 | None => due_date t
                 end;
     estimated_duration := estimated_duration t;
     actual_duration := actual_duration t;
     completed_at :=
       match new_status u with
       | Some s =>
           if String.eqb s (status t) then completed_at t
           else if isStatusDone (Prim s) then Some now
           else if isStatusDone (Prim (status t)) then None
           else completed_at t
       | None => completed_at t
       end;
     tags := tags t; metadata := metadata t;
     natural_language_input := natural_language_input t;
     gpt_response := gpt_response t; created_at := created_at t;
     updated_at := Some now |}.

Definition not_found : ApiError :=
  {| response_status := Some 404; response_detail := Some "Task not found";
     message := "Request failed with status code 404" |}.

(** Why the handler answers an update of an existing task with an error:
    the body is not valid, or the table refuses the new row. *)
Inductive Refusal := InvalidBody | CheckViolation.

Section Handler.

(** Modelled from the spec: "validation errors (missing title, malformed
    dates)" are answered per request.  Which bodies the handler refuses,
    and the response that reports each refusal, are not among the
    sources: both are left open. *)
Variable refused : TaskUpdate -> bool.
Variable report : Refusal -> ApiError.

(** Modelled from the spec: the handler as a single-row write to the
    [tasks] table, keyed by [id], that answers with the updated task.  The
    write goes through only if the new row passes the checks of the table;
    otherwise the table keeps the row it had. *)
Definition updateTask (now : string) (taskId : string) (u : TaskUpdate)
    (table : gmap string Task) : settled Task ApiError * gmap string Task :=
  if refused u then (Rejected (report InvalidBody), table)
  else
    match table !! taskId with
    | Some t =>
        let t' := apply_update now u t in
        if row_check t' then (Resolved t', <[ taskId := t' ]> table)
        else (Rejected (report CheckViolation), table)
    | None => (Rejected not_found, table)
    end.


End Handler.

End Backend.

(** ** components/KanbanView.tsx: the columns and the end of a drag *)

Module KanbanView.
Import Js TaskStore.

Record Columns := {
  todo : list Task;
  in_progress : list Task;
  done : list Task;
}.

(** The effect that recomputes the columns from the tasks. *)
Definition columns_of (tasks : list Task) : Columns :=
  {| todo := List.filter (fun t => isStatusTodo (Prim (status t))) tasks;
     in_progress := List.filter (fun t => isStatusInProgress (Prim (status t))) tasks;
     done := List.filter (fun t => isStatusDone (Prim (status t))) tasks |}.

(** [Object.entries(columns)] *)
Definition entries (columns : Columns) : list (string * list Task) :=
  [ ("todo", todo columns); ("in_progress", in_progress columns);
    ("done", done columns) ].

(** The status that a drop on [overId] stands for: a column, or the column
    of the card that was dropped on. *)
Definition newStatus (columns : Columns) (overId : string) : option string :=
  if String.eqb overId "todo" || String.eqb overId "in_progress"
     || String.eqb overId "done"
  then Some overId
  else fst <$> List.find (fun entry => existsb (fun t => String.eqb (id t) overId)
                                               (snd entry))
                         (entries columns).

(** [handleDragEnd]: the [updateTask(taskId, { status })] call it makes, if any. *)
Definition handleDragEnd (tasks : list Task) (columns : Columns)
    (activeId : string) (over : option string) : option (string * string) :=
  match over with
  | None => None
  | Some overId =>
      match newStatus columns overId with
      | Some target =>
          if truthy_string target then
            match List.find (fun t => String.eqb (id t) activeId) tasks with
            | Some currentTask =>
                if String.eqb (status currentTask) target then None
                else Some (activeId, target)
            | None => None
            end
          else None
      | None => None
      end
  end.

End KanbanView.

(** ** components/TaskCard.tsx: the two badges *)

Module TaskCard.
Import Js TaskStore.

Record Badge := {
  bg : string;
  text : string;
  border : option string;
  label : string;
}.

Definition getPriorityConfig (priority : string) : Badge :=
  if isPriorityLow (Prim priority) then
    {| bg := "bg-success-50 dark:bg-success-900/20";
       text := "text-success-700 dark:text-success-300";
       border := Some "border-success-200 dark:border-success-800";
       label := "Baixa" |}
  else if isPriorityMedium (Prim priority) then
    {| bg := "bg-primary-50 dark:bg-primary-900/20";
       text := "text-primary-700 dark:text-primary-300";
       border := Some "border-primary-200 dark:border-primary-800";
       label := "Média" |}
  else if isPriorityHigh (Prim priority) then
    {| bg := "bg-warning-50 dark:bg-warning-900/20";
       text := "text-warning-700 dark:text-warning-300";
       border := Some "border-warning-200 dark:border-warning-800";
       label := "Alta" |}
  else if isPriorityUrgent (Prim priority) then
    {| bg := "bg-danger-50 dark:bg-danger-900/20";
       text := "text-danger-700 dark:text-danger-300";
       border := Some "border-danger-200 dark:border-danger-800";
       label := "Urgente" |}
  else
    {| bg := "bg-gray-50 dark:bg-gray-900/20";
       text := "text-gray-700 dark:text-gray-300";
       border := Some "border-gray-200 dark:border-gray-800";
       label := priority |}.

Definition getStatusConfig (status : string) : Badge :=
  if isStatusTodo (Prim status) then
    {| bg := "bg-gray-100 dark:bg-gray-700";
       text := "text-gray-700 dark:text-gray-300";
       border := None; label := "A Fazer" |}
  else if isStatusInProgress (Prim status) then
    {| bg := "bg-warning-100 dark:bg-warning-900/20";
       text := "text-warning-700 dark:text-warning-300";
       border := None; label := "Em Progresso" |}
  else if isStatusDone (Prim status) then
    {| bg := "bg-success-100 dark:bg-success-900/20";
       text := "text-success-700 dark:text-success-300";
       border := None; label := "Concluída" |}
  else if isStatusCancelled (Prim status) then
    {| bg := "bg-danger-100 dark:bg-danger-900/20";
       text := "text-danger-700 dark:text-danger-300";
       border := None; label := "Cancelada" |}
  else
    {| bg := "bg-gray-100 dark:bg-gray-700";
       text := "text-gray-700 dark:text-gray-300";
       border := None; label := status |}.

End TaskCard.

(** ** components/FocusMode.tsx: the timer and the task in focus *)

Module FocusMode.
Import Js TaskStore.

Inductive Mode := work | rest.     (* ['work' | 'break'] *)

Record Pomodoro := {
  pomodoroMinutes : Z;
  pomodoroSeconds : Z;
  isPomodoroRunning : bool;
  pomodoroMode : Mode;
}.

Definition mounted : Pomodoro :=
  {| pomodoroMinutes := 25; pomodoroSeconds := 0; isPomodoroRunning := false;
     pomodoroMode := work |}.

(** One run of the interval callback; the flag says whether the sound is
    played.  While the timer is not running no interval exists. *)
Definition tick (p : Pomodoro) : Pomodoro * bool :=
  if isPomodoroRunning p then
    if Z.eqb (pomodoroSeconds p) 0 then
      if Z.eqb (pomodoroMinutes p) 0 then
        ({| pomodoroMinutes := match pomodoroMode p with work => 5 | rest => 25 end;
            pomodoroSeconds := pomodoroSeconds p;
            isPomodoroRunning := false;
            pomodoroMode := match pomodoroMode p with work => rest | rest => work end |},
         true)
      else
        ({| pomodoroMinutes := pomodoroMinutes p - 1; pomodoroSeconds := 59;
            isPomodoroRunning := isPomodoroRunning p; pomodoroMode := pomodoroMode p |},
         false)
    else
      ({| pomodoroMinutes := pomodoroMinutes p; pomodoroSeconds := pomodoroSeconds p - 1;
          isPomodoroRunning := isPomodoroRunning p; pomodoroMode := pomodoroMode p |},
       false)
  else (p, false).

(** [n] seconds of the interval. *)
Fixpoint ticks (n : nat) (p : Pomodoro) : Pomodoro :=
  match n with
  | O => p
  | S n => ticks n (fst (tick p))
  end.

Definition togglePomodoro (p : Pomodoro) : Pomodoro :=
  {| pomodoroMinutes := pomodoroMinutes p; pomodoroSeconds := pomodoroSeconds p;
     isPomodoroRunning := negb (isPomodoroRunning p); pomodoroMode := pomodoroMode p |}.

Definition resetPomodoro (p : Pomodoro) : Pomodoro :=
  {| pomodoroMinutes := match pomodoroMode p with work => 25 | rest => 5 end;
     pomodoroSeconds := 0; isPomodoroRunning := false; pomodoroMode := pomodoroMode p |}.

Definition focusTasks (tasks : list Task) : list Task :=
  List.filter (fun t => negb (String.eqb (status t) "done")
                        && negb (String.eqb (status t) "cancelled")) tasks.

(** [focusTasks[currentTaskIndex]] *)
Definition currentTask (tasks : list Task) (currentTaskIndex : Z) : option Task :=
  if Z.ltb currentTaskIndex 0 then None
  else focusTasks tasks !! Z.to_nat currentTaskIndex.

Definition handleNextTask (tasks : list Task) (currentTaskIndex : Z) : Z :=
  if Z.ltb currentTaskIndex (Z.of_nat (length (focusTasks tasks)) - 1)
  then currentTaskIndex + 1 else currentTaskIndex.

Definition handlePreviousTask (currentTaskIndex : Z) : Z :=
  if Z.ltb 0 currentTaskIndex then currentTaskIndex - 1 else currentTaskIndex.

(** [handleCompleteTask]: the handler was created by the render that saw
    [st] and [currentTaskIndex], and still compares and sets the index from
    those after the store has been updated. *)
Definition handleCompleteTask (st : TaskState) (currentTaskIndex : Z)
    (response : settled Task ApiError)
    : TaskState * Z * completion unit ApiError :=
  match currentTask (tasks st) currentTaskIndex with
  | Some current =>
      match updateTask (id current) st response with
      | (st', Returned _) =>
          (st', handleNextTask (tasks st) currentTaskIndex, Returned tt)
      | (st', Thrown e) => (st', currentTaskIndex, Thrown e)
      end
  | None => (st, currentTaskIndex, Returned tt)
  end.

End FocusMode.

(** ** store/authStore.ts *)

Module AuthStore.
Import Js TaskStore Http.

Record AuthState := {
  user : option string;              (* the user of [/auth/me], as its JSON text *)
  isAuthenticated : bool;
  isLoading : bool;
  error : option string;
}.

Definition initial : AuthState :=
  {| user := None; isAuthenticated := false; isLoading := false; error := None |}.

(** The message that the [catch] of [login] puts in the store. *)
Definition login_errorMessage (e : ApiError) : string :=
  if bool_decide (response_status e = Some 401)
  then "Email ou senha incorretos. Verifique suas credenciais."
  else if bool_decide (response_status e = Some 422)
  then "Dados inválidos. Verifique o formato do email e senha."
  else if bool_decide (response_status e = Some 429)
  then "Muitas tentativas de login. Aguarde alguns minutos."
  else if truthy_string (default "" (response_detail e))
  then default "" (response_detail e)
  else if String.eqb (message e) "Network Error"
  then "Erro de conexão. Verifique sua internet e tente novamente."
  else "Falha ao fazer login. Tente novamente.".

(** [checkAuth], with the replies of the network to the calls it makes.
    The last component is the token given to [websocketService.connect].
    A call that is never answered leaves the store as it was. *)
Definition checkAuth (replies : list Reply) (b : Browser) (st : AuthState)
    : AuthState * Browser * option string :=
  match getItem_truthy b "access_token" with
  | None =>
      ({| user := None; isAuthenticated := false; isLoading := isLoading st;
          error := error st |}, b, None)
  | Some token =>
      match ApiService.api replies b ApiService.me_config with
      | (Fulfilled data, b) =>
          ({| user := Some (body data); isAuthenticated := true;
              isLoading := isLoading st; error := error st |}, b, Some token)
      | (Failed _, b) =>
          ({| user := None; isAuthenticated := false; isLoading := isLoading st;
              error := error st |}, ApiService.logout b, None)
      | (Pending, b) => (st, b, None)
      end
  end.

End AuthStore.

(** ** Loops that await *)

Module Await.
Import Js.

(** [for (const x of xs) { await call(x) }] inside a [try]: the calls are
    made one after the other, and the first rejection ends the loop.
    [answer k] is how the call with number [k] settles; the result is the
    calls that were made and the rejection that ended the loop, if any. *)
Fixpoint for_await {A E : Type} (answer : nat -> settled unit E) (k : nat)
    (xs : list A) : list A * option E :=
  match xs with
  | [] => ([], None)
  | x :: xs =>
      match answer k with
      | Resolved _ =>
          let '(made, rejection) := for_await answer (S k) xs in
          (x :: made, rejection)
      | Rejected e => ([x], Some e)
      end
  end.

End Await.

(** ** components/TaskCreateModal.tsx: [handleGetAISuggestions] *)

Module TaskCreateModal.
Import Js TaskStore.

Inductive Effect :=
| ShowInfo (text : string)
| ShowSuccess (text : string)
| ShowError (text : string)
| CreateSubtask (taskId title description : string) (estimated_duration : Z)
| OnCreated (taskId : string)
| OnClose.

(** The call that the loop makes for one suggestion. *)
Definition is_create (effect : Effect) : bool :=
  match effect with
  | CreateSubtask _ _ _ _ => true
  | _ => false
  end.

Definition subtask_call (createdTaskId : string)
    (subtask : SubtaskSuggestionsModal.SubtaskSuggestion) : Effect :=
  CreateSubtask createdTaskId
    (SubtaskSuggestionsModal.suggestion_title subtask)
    (SubtaskSuggestionsModal.suggestion_description subtask)
    (if truthy_number (SubtaskSuggestionsModal.suggestion_estimated_duration subtask)
     then SubtaskSuggestionsModal.suggestion_estimated_duration subtask else 30).

(** [handleGetAISuggestions]: what the user and the server see of it, in
    order, and the loading flag at the end.  [suggested] is how
    [aiApi.suggestSubtasks] settles and [answer k] how the [k]-th
    [createSubtask] does. *)
Definition handleGetAISuggestions (createdTaskId : option string)
    (suggested : settled SubtaskSuggestionsModal.Suggested ApiError)
    (answer : nat -> settled unit ApiError) (loadingAISuggestions : bool)
    : list Effect * bool :=
  match createdTaskId with
  | None => ([], loadingAISuggestions)
  | Some taskId =>
      let failed e :=
        ShowError (or_string (response_detail e) "Falha ao obter sugestões de IA") in
      (ShowInfo "Gerando sugestões de subtarefas com IA..."
         :: match suggested with
            | Rejected e => [failed e]
            | Resolved response =>
                let subtasks := SubtaskSuggestionsModal.subtasks response in
                if Nat.ltb 0 (length subtasks) then
                  ShowSuccess (pretty (length subtasks)
                                 ++ " sugestões de subtarefas geradas!")
                    :: match Await.for_await answer 0
                               (List.map (subtask_call taskId) subtasks) with
                       | (made, None) =>
                           (made ++ [ShowSuccess "Subtarefas criadas com sucesso!";
                                     OnCreated taskId; OnClose])%list
                       | (made, Some e) => (made ++ [failed e])%list
                       end
                else [ShowInfo "Nenhuma sugestão de subtarefa foi gerada"]
            end,
       false)
  end.


End TaskCreateModal.

(** ** components/ApplyAISuggestionsModal.tsx: [loadSuggestions] *)

Module ApplyAISuggestionsModal.
Import Js TaskStore.

(** The results of the two analyses; the numeric scores that the modal
    only displays are kept as text. *)
Record SentimentAnalysis := {
  sentiment_priority : string;
  sentiment_scores : string;
}.

Record DurationEstimate := {
  estimated_minutes : Z;
  duration_confidence : string;
}.

Record AISuggestions := {
  sentiment : option SentimentAnalysis;
  duration : option DurationEstimate;
  subtasks : list SubtaskSuggestionsModal.SubtaskSuggestion;
}.

Record SelectedSuggestions := {
  selected_priority : bool;
  selected_estimatedDuration : bool;
  selected_subtasks : list bool;
}.

Record State := {
  loading : bool;
  applying : bool;
  error : option string;
  provider : string;
  suggestions : AISuggestions;
  selected : SelectedSuggestions;
}.

Definition mounted : State :=
  {| loading := true; applying := false; error := None; provider := "";
     suggestions := {| sentiment := None; duration := None; subtasks := [] |};
     selected := {| selected_priority := true; selected_estimatedDuration := true;
                    selected_subtasks := [] |} |}.

(** [promise.catch(() => fallback)] *)
Definition catch {A E : Type} (p : settled A E) (fallback : A) : A :=
  match p with
  | Resolved a => a
  | Rejected _ => fallback
  end.

Definition loadSuggestions
    (sentimentCall : settled SentimentAnalysis ApiError)
    (durationCall : settled DurationEstimate ApiError)
    (subtasksCall : settled SubtaskSuggestionsModal.Suggested ApiError)
    (st : State) : State :=
  let sentimentResult := catch (E := ApiError)
                           match sentimentCall with
                           | Resolved a => Resolved (Some a)
                           | Rejected e => Rejected e
                           end None in
  let durationResult := catch (E := ApiError)
                          match durationCall with
                          | Resolved a => Resolved (Some a)
                          | Rejected e => Rejected e
                          end None in
  let subtasksResult :=
    catch subtasksCall
          {| SubtaskSuggestionsModal.subtasks := [];
             SubtaskSuggestionsModal.provider := "unknown" |} in
  {| loading := false; applying := applying st; error := None;
     provider := SubtaskSuggestionsModal.provider subtasksResult;
     suggestions :=
       {| sentiment := sentimentResult; duration := durationResult;
          subtasks := SubtaskSuggestionsModal.subtasks subtasksResult |};
     selected :=
       {| selected_priority := bool_decide (sentimentResult <> None);
          selected_estimatedDuration := bool_decide (durationResult <> None);
          selected_subtasks :=
            List.map (fun _ => true) (SubtaskSuggestionsModal.subtasks subtasksResult) |} |}.

(** [prev.subtasks.map((val, i) => (i === index ? !val : val))] *)
Definition toggleSubtask (index : nat) (st : State) : State :=
  {| loading := loading st; applying := applying st; error := error st;
     provider := provider st; suggestions := suggestions st;
     selected :=
       {| selected_priority := selected_priority (selected st);
          selected_estimatedDuration := selected_estimatedDuration (selected st);
          selected_subtasks := alter negb index (selected_subtasks (selected st)) |} |}.

(** [suggestions.subtasks.filter((_, index) => selected.subtasks[index])] *)
Fixpoint selectedSubtasks (subtasks : list SubtaskSuggestionsModal.SubtaskSuggestion)
    (flags : list bool) : list SubtaskSuggestionsModal.SubtaskSuggestion :=
  match subtasks, flags with
  | subtask :: subtasks, flag :: flags =>
      if flag then subtask :: selectedSubtasks subtasks flags
      else selectedSubtasks subtasks flags
  | _, _ => []
  end.

(** The [disabled] attribute of the Apply button, the only caller of
    [handleApply]. *)
Definition apply_disabled (st : State) : bool :=
  loading st || applying st
  || (negb (selected_priority (selected st))
      && negb (selected_estimatedDuration (selected st))
      && negb (existsb (fun flag : bool => flag) (selected_subtasks (selected st)))).

(** The checkboxes of the modal, with the value that the change event
    carries. *)
Inductive Checkbox :=
| PriorityBox (checked : bool)
| DurationBox (checked : bool)
| SubtaskBox (index : nat).

(** Whether a checkbox is on the page: the body of the modal is rendered
    under [!loading && !error], the priority box under
    [suggestions.sentiment], the duration box under [suggestions.duration],
    and one box per element of [suggestions.subtasks]. *)
Definition rendered (box : Checkbox) (st : State) : bool :=
  negb (loading st)
  && negb match error st with
          | Some text => truthy_string text
          | None => false
          end
  && match box with
     | PriorityBox _ => bool_decide (sentiment (suggestions st) <> None)
     | DurationBox _ => bool_decide (duration (suggestions st) <> None)
     | SubtaskBox index => Nat.ltb index (length (subtasks (suggestions st)))
     end.

(** The [onChange] of a checkbox; a box that is not on the page receives
    no event. *)
Definition change (box : Checkbox) (st : State) : State :=
  if rendered box st then
    match box with
    | PriorityBox checked =>
        {| loading := loading st; applying := applying st; error := error st;
           provider := provider st; suggestions := suggestions st;
           selected :=
             {| selected_priority := checked;
                selected_estimatedDuration := selected_estimatedDuration (selected st);
                selected_subtasks := selected_subtasks (selected st) |} |}
    | DurationBox checked =>
        {| loading := loading st; applying := applying st; error := error st;
           provider := provider st; suggestions := suggestions st;
           selected :=
             {| selected_priority := selected_priority (selected st);
                selected_estimatedDuration := checked;
                selected_subtasks := selected_subtasks (selected st) |} |}
    | SubtaskBox index => toggleSubtask index st
    end
  else st.

(** What holds of the modal once the suggestions are loaded: a flag is
    only set for a suggestion that exists. *)
Definition consistent (st : State) : Prop :=
  (selected_priority (selected st) = true -> sentiment (suggestions st) <> None)
  /\ (selected_estimatedDuration (selected st) = true ->
      duration (suggestions st) <> None)
  /\ length (selected_subtasks (selected st)) = length (subtasks (suggestions st)).

(** What [handleApply] does that can be seen from outside, in order. *)
Record Updates := {
  update_priority : option (val string);
  update_estimated_duration : option Z;
}.

Inductive Effect :=
| UpdateTask (taskId : string) (updates : Updates)
| CreateSubtask (taskId title description : string) (estimated_duration : Z)
| ShowSuccess (text : string)
| ShowError (text : string)
| OnApplied
| OnClose.

Definition priorityMap : list (string * string) :=
  [ ("low", "low"); ("medium", "medium"); ("high", "high"); ("urgent", "urgent") ].

Section HandleApply.

(** [String.prototype.toLowerCase] is left to the engine. *)
Variable toLowerCase : string -> string.

(** The [updates] object that the two [if]s fill. *)
Definition updates_of (st : State) : Updates :=
  {| update_priority :=
       match sentiment (suggestions st) with
       | Some analysis =>
           if selected_priority (selected st)
           then Some (or_else truthy_string
                        (get priorityMap (toLowerCase (sentiment_priority analysis)))
                        (Prim "medium"))
           else None
       | None => None
       end;
     update_estimated_duration :=
       match duration (suggestions st) with
       | Some estimate =>
           if selected_estimatedDuration (selected st)
           then Some (estimated_minutes estimate)
           else None
       | None => None
       end |}.

(** [Object.keys(updates).length > 0] *)
Definition has_keys (updates : Updates) : bool :=
  match update_priority updates, update_estimated_duration updates with
  | None, None => false
  | _, _ => true
  end.

Definition subtask_call (taskId : string)
    (subtask : SubtaskSuggestionsModal.SubtaskSuggestion) : Effect :=
  CreateSubtask taskId
    (SubtaskSuggestionsModal.suggestion_title subtask)
    (SubtaskSuggestionsModal.suggestion_description subtask)
    (SubtaskSuggestionsModal.suggestion_estimated_duration subtask).

(** The requests of [handleApply] in the order in which it awaits them. *)
Definition requests (taskId : string) (st : State) : list Effect :=
  ((if has_keys (updates_of st) then [UpdateTask taskId (updates_of st)] else [])
     ++ List.map (subtask_call taskId)
          (selectedSubtasks (subtasks (suggestions st))
             (selected_subtasks (selected st))))%list.

(** [handleApply]; [answer k] is how the [k]-th request that it makes
    settles. *)
Definition handleApply (taskId : string) (answer : nat -> settled unit ApiError)
    (st : State) : list Effect * State :=
  let finished :=
    {| loading := loading st; applying := false; error := error st;
       provider := provider st; suggestions := suggestions st;
       selected := selected st |} in
  match Await.for_await answer 0 (requests taskId st) with
  | (made, None) =>
      ((made ++ [ShowSuccess "Sugestões aplicadas com sucesso!"; OnApplied; OnClose])%list,
       finished)
  | (made, Some _) =>
      ((made ++ [ShowError "Falha ao aplicar sugestões"])%list, finished)
  end.

End HandleApply.

End ApplyAISuggestionsModal.

(** ** The alias classes, as the specification lists them *)

Module Aliases.
Import Js TaskStore.

Inductive LogicalStatus := Todo | InProgress | Done | Cancelled.
Inductive LogicalPriority := Low | Medium | High | Urgent.

#[global] Instance LogicalStatus_eq_dec : EqDecision LogicalStatus.
Proof. solve_decision. Defined.
#[global] Instance LogicalPriority_eq_dec : EqDecision LogicalPriority.
Proof. solve_decision. Defined.

(** todo = a_fazer = pending, in_progress = em_progresso, done = concluida,
    cancelled = cancelada. *)
Definition status_aliases (c : LogicalStatus) : list string :=
  match c with
  | Todo => ["todo"; "a_fazer"; "pending"]
  | InProgress => ["in_progress"; "em_progresso"]
  | Done => ["done"; "concluida"]
  | Cancelled => ["cancelled"; "cancelada"]
  end.

(** low = baixa, medium = media, high = alta, urgent = urgente. *)
Definition priority_aliases (c : LogicalPriority) : list string :=
  match c with
  | Low => ["low"; "baixa"]
  | Medium => ["medium"; "media"]
  | High => ["high"; "alta"]
  | Urgent => ["urgent"; "urgente"]
  end.

(** The predicate the store exports for each class. *)
Definition status_predicate (c : LogicalStatus) : val string -> bool :=
  match c with
  | Todo => isStatusTodo
  | InProgress => isStatusInProgress
  | Done => isStatusDone
  | Cancelled => isStatusCancelled
  end.

Definition priority_predicate (c : LogicalPriority) : val string -> bool :=
  match c with
  | Low => isPriorityLow
  | Medium => isPriorityMedium
  | High => isPriorityHigh
  | Urgent => isPriorityUrgent
  end.

End Aliases.

(** ** Sample data for the worked examples *)

Module Samples.
Import TaskStore.

(** A task as the server serializes it, with the three fields that vary. *)
Definition task (task_id task_status task_priority : string) : Task :=
  {| id := task_id; user_id := "u1"; project_id := None; parent_task_id := None;
     title := "Pay rent"; description := None;
     status := task_status; priority := task_priority;
     due_date := None; estimated_duration := None; actual_duration := None;
     completed_at := None; tags := []; metadata := "{}";
     natural_language_input := None; gpt_response := None;
     created_at := Some "2024-05-01T12:00:00Z";
     updated_at := Some "2024-05-01T12:00:00Z" |}.

(** A session: log in, mount, the socket opens, the first fetch returns
    one task. *)
Definition session : list WebSocketService.Event :=
  [ WebSocketService.AuthConnect "tok"; WebSocketService.AppAuthenticated;
    WebSocketService.SocketOpened 0;
    WebSocketService.TasksFetched
      (Js.Resolved {| response_tasks := [task "1" "todo" "medium"];
                      response_total := 1 |}) ].


(** A server error without detail, as axios reports it. *)
Definition server_error : TaskStore.ApiError :=
  {| TaskStore.response_status := Some 500; TaskStore.response_detail := None;
     TaskStore.message := "Request failed with status code 500" |}.

(** A chat endpoint that deletes every task, whatever it is asked. *)
Definition destructive_endpoint : ChatAssistant.Endpoint :=
  fun _ _ =>
    (Js.Resolved {| ChatAssistant.success := true;
                    ChatAssistant.response_message := "done";
                    ChatAssistant.task := None |}, []).

End Samples.

(* ===================================================================== *)
(** * Properties *)
(* ===================================================================== *)

Section AliasFacts.
Import Js TaskStore Aliases.

(** Case analysis on a string against every literal it is compared with. *)
Ltac split_on s :=
  repeat match goal with
         | |- context [String.eqb s ?k] =>
             destruct (String.eqb_spec s k);
             [ try congruence; subst s; vm_compute; try reflexivity | ]
         end.

Lemma inherited_not_own {A : Type} (literal : list (string * A)) (k : string) :
  forallb (fun kv => match fst kv with
                     | String c _ => negb (Ascii.eqb c "f") && negb (Ascii.eqb c "[")
                     | EmptyString => true
                     end) literal = true ->
  own literal (inherited_to_string k) = None.
Proof.
  intros Hkeys. induction literal as [|[k' v] rest IH]; [reflexivity|].
  cbn in Hkeys. apply andb_prop in Hkeys as [Hk Hrest].
  cbn [own]. rewrite (IH Hrest).
  replace (String.eqb (inherited_to_string k) k') with false; [reflexivity|].
  symmetry. unfold inherited_to_string.
  destruct k' as [|c k']; [destruct (String.eqb k "__proto__"); reflexivity|].
  cbn in Hk. apply andb_prop in Hk as [Hf Hb].
  destruct (String.eqb k "__proto__"); cbv [append]; cbn [String.eqb].
  - rewrite Ascii.eqb_sym. destruct (Ascii.eqb c "["); [discriminate|reflexivity].
  - rewrite Ascii.eqb_sym. destruct (Ascii.eqb c "f"); [discriminate|reflexivity].
Qed.

Lemma inherited_not_inherited (k : string) :
  existsb (String.eqb (inherited_to_string k)) object_prototype_keys = false.
Proof.
  unfold inherited_to_string.
  destruct (String.eqb k "__proto__"); cbv [append]; reflexivity.
Qed.

Lemma get_inherited_to_string {A : Type} (literal : list (string * A)) (k : string) :
  forallb (fun kv => match fst kv with
                     | String c _ => negb (Ascii.eqb c "f") && negb (Ascii.eqb c "[")
                     | EmptyString => true
                     end) literal = true ->
  get literal (inherited_to_string k) = None.
Proof.
  intros H. unfold get.
  rewrite (inherited_not_own literal k H), inherited_not_inherited. reflexivity.
Qed.

Lemma normalizeStatus_inherited (k : string) :
  normalizeStatus (Inherited k) = Inherited k.
Proof.
  unfold normalizeStatus. cbn [to_key].
  rewrite get_inherited_to_string; reflexivity.
Qed.

Lemma normalizePriority_inherited (k : string) :
  normalizePriority (Inherited k) = Inherited k.
Proof.
  unfold normalizePriority. cbn [to_key].
  rewrite get_inherited_to_string; reflexivity.
Qed.

(** A string is sent to the alias of the mapping, to an inherited member,
    or to itself. *)
Lemma normalizeStatus_prim (s : string) :
  normalizeStatus (Prim s) =
    if String.eqb s "todo" then Prim "a_fazer"
    else if String.eqb s "pending" then Prim "a_fazer"
    else if String.eqb s "in_progress" then Prim "em_progresso"
    else if String.eqb s "done" then Prim "concluida"
    else if String.eqb s "cancelled" then Prim "cancelada"
    else if existsb (String.eqb s) object_prototype_keys then Inherited s
    else Prim s.
Proof.
  unfold normalizeStatus, or_else, get. cbn [to_key own status_mapping].
  split_on s.
  destruct (existsb (String.eqb s) object_prototype_keys); reflexivity.
Qed.

Lemma normalizePriority_prim (s : string) :
  normalizePriority (Prim s) =
    if String.eqb s "low" then Prim "baixa"
    else if String.eqb s "medium" then Prim "media"
    else if String.eqb s "high" then Prim "alta"
    else if String.eqb s "urgent" then Prim "urgente"
    else if existsb (String.eqb s) object_prototype_keys then Inherited s
    else Prim s.
Proof.
  unfold normalizePriority, or_else, get. cbn [to_key own priority_mapping].
  split_on s.
  destruct (existsb (String.eqb s) object_prototype_keys); reflexivity.
Qed.

Lemma predicates_prim (s : string) :
  isStatusDone (Prim s) = isStatusDone (normalizeStatus (Prim s))
  /\ isStatusTodo (Prim s) = isStatusTodo (normalizeStatus (Prim s))
  /\ isStatusInProgress (Prim s) = isStatusInProgress (normalizeStatus (Prim s))
  /\ isStatusCancelled (Prim s) = isStatusCancelled (normalizeStatus (Prim s))
  /\ isPriorityLow (Prim s) = isPriorityLow (normalizePriority (Prim s))
  /\ isPriorityMedium (Prim s) = isPriorityMedium (normalizePriority (Prim s))
  /\ isPriorityHigh (Prim s) = isPriorityHigh (normalizePriority (Prim s))
  /\ isPriorityUrgent (Prim s) = isPriorityUrgent (normalizePriority (Prim s)).
Proof.
  rewrite normalizeStatus_prim, normalizePriority_prim.
  unfold isStatusDone, isStatusTodo, isStatusInProgress, isStatusCancelled,
    isPriorityLow, isPriorityMedium, isPriorityHigh, isPriorityUrgent.
  cbn [strict_eq].
  repeat split; split_on s;
    destruct (existsb (String.eqb s) object_prototype_keys);
    cbn [strict_eq]; split_on s; reflexivity.
Qed.

(** C9: [normalizeStatus] and [normalizePriority] are idempotent, and the
    eight class predicates give the same answer before and after
    normalization, on every value the functions can be handed (every
    string, and the inherited members a lookup can return). *)
Theorem C9_normalize_idempotent_predicates_invariant (v : val string) :
  normalizeStatus (normalizeStatus v) = normalizeStatus v
  /\ normalizePriority (normalizePriority v) = normalizePriority v
  /\ isStatusDone v = isStatusDone (normalizeStatus v)
  /\ isStatusTodo v = isStatusTodo (normalizeStatus v)
  /\ isStatusInProgress v = isStatusInProgress (normalizeStatus v)
  /\ isStatusCancelled v = isStatusCancelled (normalizeStatus v)
  /\ isPriorityLow v = isPriorityLow (normalizePriority v)
  /\ isPriorityMedium v = isPriorityMedium (normalizePriority v)
  /\ isPriorityHigh v = isPriorityHigh (normalizePriority v)
  /\ isPriorityUrgent v = isPriorityUrgent (normalizePriority v).
Proof.
  destruct v as [s|k].
  - split; [|split; [|apply predicates_prim]].
    + rewrite (normalizeStatus_prim s). split_on s.
      destruct (existsb (String.eqb s) object_prototype_keys) eqn:E.
      * apply normalizeStatus_inherited.
      * rewrite normalizeStatus_prim, E. split_on s. reflexivity.
    + rewrite (normalizePriority_prim s). split_on s.
      destruct (existsb (String.eqb s) object_prototype_keys) eqn:E.
      * apply normalizePriority_inherited.
      * rewrite normalizePriority_prim, E. split_on s. reflexivity.
  - rewrite !normalizeStatus_inherited, !normalizePriority_inherited.
    repeat split.
Qed.

(** C4: two aliases of one logical status are told apart by none of the
    four status predicates, and the predicate of their class accepts both;
    likewise for two aliases of one logical priority. *)
Theorem C4_alias_predicates_agree
    (c : LogicalStatus) (s1 s2 : string) (p : LogicalPriority) (q1 q2 : string)
    (Hs1 : In s1 (status_aliases c)) (Hs2 : In s2 (status_aliases c))
    (Hq1 : In q1 (priority_aliases p)) (Hq2 : In q2 (priority_aliases p)) :
  (forall c', status_predicate c' (Prim s1) = status_predicate c' (Prim s2))
  /\ status_predicate c (Prim s1) = true
  /\ status_predicate c (Prim s2) = true
  /\ (forall p', priority_predicate p' (Prim q1) = priority_predicate p' (Prim q2))
  /\ priority_predicate p (Prim q1) = true
  /\ priority_predicate p (Prim q2) = true.
Proof.
  assert (Hs : forall s, In s (status_aliases c) ->
               forall c', status_predicate c' (Prim s) = bool_decide (c' = c)).
  { intros s Hs c'. destruct c; cbn in Hs; intuition (subst; destruct c'; reflexivity). }
  assert (Hq : forall q, In q (priority_aliases p) ->
               forall p', priority_predicate p' (Prim q) = bool_decide (p' = p)).
  { intros q Hq p'. destruct p; cbn in Hq; intuition (subst; destruct p'; reflexivity). }
  repeat split.
  - intros c'. rewrite (Hs s1 Hs1), (Hs s2 Hs2). reflexivity.
  - rewrite (Hs s1 Hs1). apply bool_decide_eq_true. reflexivity.
  - rewrite (Hs s2 Hs2). apply bool_decide_eq_true. reflexivity.
  - intros p'. rewrite (Hq q1 Hq1), (Hq q2 Hq2). reflexivity.
  - rewrite (Hq q1 Hq1). apply bool_decide_eq_true. reflexivity.
  - rewrite (Hq q2 Hq2). apply bool_decide_eq_true. reflexivity.
Qed.

Lemma C4_alias_predicates_agree_witness :
  (forall c', status_predicate c' (Prim "done") = status_predicate c' (Prim "concluida"))
  /\ isStatusDone (Prim "done") = true
  /\ isStatusDone (Prim "concluida") = true
  /\ (forall p', priority_predicate p' (Prim "urgent")
                 = priority_predicate p' (Prim "urgente"))
  /\ isPriorityUrgent (Prim "urgent") = true
  /\ isPriorityUrgent (Prim "urgente") = true.
Proof.
  apply (C4_alias_predicates_agree Done "done" "concluida" Urgent "urgent" "urgente");
    cbn; auto.
Defined.

End AliasFacts.

Section ViewFacts.
Import Js TaskStore.

Lemma count_pointwise (p q : Task -> bool) (l l' : list Task) :
  Forall2 (fun t t' => p t = q t') l l' ->
  length (List.filter p l) = length (List.filter q l').
Proof.
  induction 1 as [|t t' l l' Hhd _ IH]; [reflexivity|].
  cbn [List.filter]. rewrite Hhd. destruct (q t'); cbn [length]; congruence.
Qed.

(** The counters of the list view do go through the class predicates:
    two task lists that differ only in which alias each task stores get
    the same four tab counts. *)
Lemma ListView_counts_alias_invariant (l l' : list Task) :
  Forall2 (fun t t' => exists c, In (status t) (Aliases.status_aliases c)
                                 /\ In (status t') (Aliases.status_aliases c)) l l' ->
  ListView.todoCount l = ListView.todoCount l'
  /\ ListView.inProgressCount l = ListView.inProgressCount l'
  /\ ListView.doneCount l = ListView.doneCount l'
  /\ ListView.cancelledCount l = ListView.cancelledCount l'.
Proof.
  intros H.
  assert (Hp : forall c', Forall2 (fun t t' =>
             Aliases.status_predicate c' (Prim (status t))
             = Aliases.status_predicate c' (Prim (status t'))) l l').
  { intros c'. eapply Forall2_impl; [exact H|].
    intros t t' (c & Ht & Ht').
    destruct c; cbn in Ht, Ht'; intuition (subst; try contradiction);
      repeat match goal with H : _ = status _ |- _ => rewrite <- H end;
      destruct c'; reflexivity. }
  unfold ListView.todoCount, ListView.inProgressCount, ListView.doneCount,
    ListView.cancelledCount, ListView.count.
  repeat split; f_equal.
  - exact (count_pointwise _ _ _ _ (Hp Aliases.Todo)).
  - exact (count_pointwise _ _ _ _ (Hp Aliases.InProgress)).
  - exact (count_pointwise _ _ _ _ (Hp Aliases.Done)).
  - exact (count_pointwise _ _ _ _ (Hp Aliases.Cancelled)).
Qed.

(** C1: the progress panel and the sort key compare raw strings.  A task
    stored as [concluida] with priority [media] is counted by neither
    [completed] nor [medium], where the same task stored as [done] and
    [medium] is; the list view counts both, and [priorityValue] ranks
    [urgente] as 0 against 4 for [urgent]. *)
Theorem C1_raw_comparisons_split_aliases :
  ProgressStats.completed [Samples.task "1" "concluida" "media"] = 0
  /\ ProgressStats.completed [Samples.task "1" "done" "medium"] = 1
  /\ ListView.doneCount [Samples.task "1" "concluida" "media"] = 1
  /\ ListView.doneCount [Samples.task "1" "done" "medium"] = 1
  /\ ProgressStats.medium [Samples.task "1" "a_fazer" "media"] = 0
  /\ ProgressStats.medium [Samples.task "1" "todo" "medium"] = 1
  /\ ProgressStats.urgent [Samples.task "1" "concluida" "urgent"] = 1
  /\ ProgressStats.urgent [Samples.task "1" "done" "urgent"] = 0
  /\ ListView.priorityValue "urgente" = Prim 0
  /\ ListView.priorityValue "urgent" = Prim 4.
Proof. repeat split. Qed.

End ViewFacts.

Section StoreFacts.
Import Js TaskStore.

Lemma lookup_map_replace (task : Task) (key : string) (l : list Task) (i : nat) :
  List.map (fun t => if String.eqb (id t) key then task else t) l !! i
  = (fun t => if String.eqb (id t) key then task else t) <$> l !! i.
Proof. apply list_lookup_fmap. Qed.

Lemma map_replace_absent (task : Task) (key : string) (l : list Task) :
  (forall t, In t l -> id t <> key) ->
  List.map (fun t => if String.eqb (id t) key then task else t) l = l.
Proof.
  induction l as [|t l IH]; intros Habsent; [reflexivity|].
  cbn [List.map]. rewrite IH by (intros t' Ht'; apply Habsent; right; exact Ht').
  destruct (String.eqb_spec (id t) key) as [Heq|_]; [|reflexivity].
  exfalso. apply (Habsent t); [left; reflexivity | exact Heq].
Qed.

(** C2, as the code has it: [task_updated] replaces, position by position,
    every stored task whose id is the payload's and keeps the others; when
    no stored task has that id the store is left as it was, and the payload
    is not added.  The handler is total: no input makes it throw. *)
Theorem C2_task_updated_replaces_never_adds (task : Task) (st : TaskState) :
  let st' := on_task_updated task st in
  length (tasks st') = length (tasks st)
  /\ (forall i t, tasks st !! i = Some t -> id t = id task ->
                  tasks st' !! i = Some task)
  /\ (forall i t, tasks st !! i = Some t -> id t <> id task ->
                  tasks st' !! i = Some t)
  /\ ((forall t, In t (tasks st) -> id t <> id task) -> st' = st)
  /\ total st' = total st /\ isLoading st' = isLoading st /\ error st' = error st.
Proof.
  cbn zeta. unfold on_task_updated, set_tasks. cbn [tasks total isLoading error].
  split; [apply length_map|].
  split.
  { intros i t Hi Hid. rewrite lookup_map_replace, Hi. cbn.
    rewrite Hid, String.eqb_refl. reflexivity. }
  split.
  { intros i t Hi Hid. rewrite lookup_map_replace, Hi. cbn.
    destruct (String.eqb_spec (id t) (id task)); [contradiction|reflexivity]. }
  split; [|repeat split].
  intros Habsent. rewrite map_replace_absent by exact Habsent.
  destruct st; reflexivity.
Qed.

Lemma C2_task_updated_replaces_never_adds_witness :
  let stored := Samples.task "1" "todo" "medium" in
  let payload := Samples.task "1" "done" "medium" in
  let st := {| tasks := [stored; Samples.task "2" "todo" "low"]; total := 2;
               isLoading := false; error := None |} in
  tasks (on_task_updated payload st) !! 0%nat = Some payload
  /\ tasks (on_task_updated payload st) !! 1%nat = Some (Samples.task "2" "todo" "low").
Proof.
  cbn zeta.
  pose proof (C2_task_updated_replaces_never_adds
                (Samples.task "1" "done" "medium")
                {| tasks := [Samples.task "1" "todo" "medium";
                             Samples.task "2" "todo" "low"];
                   total := 2; isLoading := false; error := None |})
    as (_ & Hsame & Hother & _).
  split.
  - apply (Hsame 0%nat (Samples.task "1" "todo" "medium")); reflexivity.
  - apply (Hother 1%nat (Samples.task "2" "todo" "low")); [reflexivity|].
    cbn. discriminate.
Defined.

(** C10: when the API call of a store action is rejected, [tasks] and
    [total] are what they were before the action started; the action ends
    with [isLoading] false and [error] set to the detail of the response,
    or to its fixed fallback text. *)
Theorem C10_rejected_call_keeps_tasks_and_total
    (st : TaskState) (e : ApiError) (taskId : string) :
  let after_fetch := fst (fetchTasks st (Rejected e)) in
  let after_create := fst (createTask st (Rejected e)) in
  let after_structured := fst (createTaskStructured st (Rejected e)) in
  let after_update := fst (updateTask taskId st (Rejected e)) in
  let after_delete := fst (deleteTask taskId st (Rejected e)) in
  Forall (fun st' => tasks st' = tasks st /\ total st' = total st
                     /\ isLoading st' = false)
         [after_fetch; after_create; after_structured; after_update; after_delete]
  /\ error after_fetch = Some (or_string (response_detail e) "Failed to fetch tasks")
  /\ error after_create = Some (or_string (response_detail e) "Failed to create task")
  /\ error after_structured
     = Some (or_string (response_detail e) "Failed to create task")
  /\ error after_update = Some (or_string (response_detail e) "Failed to update task")
  /\ error after_delete = Some (or_string (response_detail e) "Failed to delete task")
  /\ tasks (set_loading st) = tasks st /\ total (set_loading st) = total st.
Proof.
  cbn zeta. split; [|repeat split].
  repeat (constructor; [repeat split|]). constructor.
Qed.

End StoreFacts.

Section WebSocketFacts.
Import Js TaskStore WebSocketService.

(** C2, as the specification words it, fails: a [task_updated] frame for
    id 2 reaches a store that holds only id 1, and the store still holds
    only the task with id 1 afterwards. *)
Lemma C2_unknown_id_is_not_added :
  let payload := Samples.task "2" "todo" "low" in
  let before := run initial_world Samples.session in
  let after := step before (SocketMessage 0 (Some {| event := "task_updated";
                                                     data := payload |})) in
  tasks (store before) = [Samples.task "1" "todo" "medium"]
  /\ tasks (store after) = [Samples.task "1" "todo" "medium"]
  /\ ~ In payload (tasks (store after)).
Proof.
  cbn zeta. split; [vm_compute; reflexivity|]. split; [vm_compute; reflexivity|].
  replace (tasks (store _)) with [Samples.task "1" "todo" "medium"]
    by (vm_compute; reflexivity).
  intros [H|[]]. discriminate H.
Qed.

(** C8, as the specification words it, fails: the socket closes, the timer
    fires, the new socket opens, and the only task request ever made is
    the one of the initial mount; no fetch is in flight either. *)
Lemma C8_reconnect_without_refetch :
  let w := run initial_world (Samples.session ++ [SocketClosed 0; TimerFired 1; SocketOpened 1]) in
  (readyState <$> sockets w !! 0%nat) = Some CLOSED
  /\ (readyState <$> sockets w !! 1%nat) = Some OPEN
  /\ ws (service w) = Some 1%nat
  /\ requests w = [ApiService.getTasks_config]
  /\ isLoading (store w) = false.
Proof. cbn zeta. repeat split; vm_compute; reflexivity. Qed.

Lemma onopen_frame (w : World) :
  requests (onopen w) = requests w /\ store (onopen w) = store w
  /\ sockets (onopen w) = sockets w.
Proof.
  unfold onopen. cbn. destruct (reconnectTimer (service w)); repeat split.
Qed.

(** C8, as the code has it.  A socket that opens, for the first time or
    after a disconnect, starts no request and leaves the task store as it
    is.  A socket that closes while no reconnect timer is recorded
    schedules one timeout of 5000 ms carrying the token of that socket;
    when it fires with no open socket, a new socket is created for that
    token and becomes the current one. *)
Theorem C8_reconnect_fixed_interval_no_refetch
    (w : World) (i : nat) (s : Socket)
    (Hsocket : sockets w !! i = Some s) :
  (requests (step w (SocketOpened i)) = requests w
   /\ store (step w (SocketOpened i)) = store w)
  /\ (reconnectTimer (service w) = None ->
      let closed := step w (SocketClosed i) in
      let h := next_timer w in
      reconnectTimer (service closed) = Some h
      /\ timers closed = <[ h := {| delay := 5000;
                                    reconnect_token := socket_token s |} ]> (timers w)
      /\ requests closed = requests w
      /\ (ws_is_open closed = false ->
          let retried := step closed (TimerFired h) in
          sockets retried
          = (sockets closed
               ++ [ {| socket_url := WS_URL ++ "/ws?token=" ++ socket_token s;
                       socket_token := socket_token s;
                       readyState := CONNECTING |} ])%list
          /\ ws (service retried) = Some (length (sockets closed))
          /\ timers retried !! h = None
          /\ requests retried = requests w)).
Proof.
  split.
  { cbn [step]. rewrite Hsocket.
    destruct (onopen_frame (set_readyState i OPEN w)) as (Hr & Hs & _).
    rewrite Hr, Hs. split; reflexivity. }
  intros Htimer. cbn zeta.
  assert (Hclosed : step w (SocketClosed i)
                    = set_reconnectTimer (Some (next_timer w))
                        (snd (setTimeout {| delay := reconnectInterval;
                                            reconnect_token := socket_token s |}
                                (log "WebSocket disconnected"
                                     (set_readyState i CLOSED w))))).
  { cbn [step]. rewrite Hsocket. unfold onclose, scheduleReconnect.
    cbn [log set_readyState service]. rewrite Htimer. reflexivity. }
  rewrite Hclosed.
  split; [reflexivity|]. split; [reflexivity|]. split; [reflexivity|].
  intros Hopen.
  cbn [step set_reconnectTimer set_service setTimeout snd log set_readyState timers
         service next_timer sockets console store requests ws listeners].
  rewrite lookup_insert_eq.
  unfold reconnect_callback, connect.
  replace (ws_is_open _) with false.
  cbn. repeat split.
  apply lookup_delete_eq.
Qed.

Lemma C8_reconnect_fixed_interval_no_refetch_witness :
  let w := run initial_world Samples.session in
  requests (step w (SocketOpened 0)) = requests w
  /\ reconnectTimer (service (step w (SocketClosed 0))) = Some 1%positive.
Proof.
  cbn zeta.
  destruct (C8_reconnect_fixed_interval_no_refetch
              (run initial_world Samples.session) 0%nat
              {| socket_url := "ws://localhost:8000/ws?token=tok";
                 socket_token := "tok"; readyState := OPEN |})
    as [[Hrequests _] Hclose].
  - vm_compute; reflexivity.
  - split; [exact Hrequests|].
    apply Hclose. vm_compute; reflexivity.
Defined.

(** The handle of a timer that has fired stays in [reconnectTimer] until a
    socket opens: a reconnect attempt that closes without opening leaves
    no timeout pending. *)
Example fired_handle_stays_recorded :
  let w := run initial_world
               (Samples.session ++ [SocketClosed 0; TimerFired 1; SocketClosed 1]) in
  reconnectTimer (service w) = Some 1%positive /\ timers w = ∅.
Proof. cbn zeta. split; vm_compute; reflexivity. Qed.

End WebSocketFacts.

Section ApiFacts.
Import Http.

Lemma retry_request_interceptor (b : Browser) (c : Config) :
  _retry (request_interceptor b c) = _retry c.
Proof. unfold request_interceptor. destruct (getItem_truthy b "access_token"); reflexivity. Qed.

Lemma attempts_send_request (c : Config) (b : Browser) :
  attempts (send (SentRequest c) b) = S (attempts b).
Proof.
  unfold attempts, send. cbn [sent].
  rewrite List.filter_app, length_app. cbn. lia.
Qed.

Lemma attempts_send_refresh (t : string) (b : Browser) :
  attempts (send (SentRefresh t) b) = attempts b.
Proof.
  unfold attempts, send. cbn [sent].
  rewrite List.filter_app, length_app. cbn. lia.
Qed.

(** A request that carries the [_retry] flag goes on the wire once and its
    answer is handed to the caller as it is. *)
Lemma api_retried (replies : list Reply) (b : Browser) (c : Config) :
  _retry c = true ->
  ApiService.api replies b c
  = let c1 := request_interceptor b c in
    (match replies with
     | [] => Pending
     | Reply2xx data :: _ => Fulfilled data
     | r :: _ => Failed (error_of c1 r)
     end, send (SentRequest c1) b).
Proof.
  intros Hretry. pose proof (retry_request_interceptor b c) as Hc1.
  rewrite Hretry in Hc1.
  destruct replies as [|[data|st d|] rest]; cbn [ApiService.api]; try reflexivity.
  rewrite Hc1, andb_false_r. reflexivity.
Qed.

Lemma api_attempts (replies : list Reply) (b : Browser) (c : Config) :
  (attempts b < attempts (snd (ApiService.api replies b c)) <= attempts b + 2)%nat.
Proof.
  destruct (_retry c) eqn:Hretry.
  { rewrite api_retried by exact Hretry. cbn [snd].
    rewrite attempts_send_request. lia. }
  pose proof (attempts_send_request (request_interceptor b c) b) as H1.
  destruct replies as [|r rest]; [cbn [ApiService.api snd]; lia|].
  cbn [ApiService.api].
  destruct r as [data|st d|]; cbn [snd]; [lia| |cbn [andb status_is error_of status snd]; lia].
  destruct (status_is 401 _ && negb _); [|cbn [snd]; lia].
  destruct (getItem_truthy _ "refresh_token") as [tok|]; [|cbn [snd]; lia].
  pose proof (attempts_send_refresh tok (send (SentRequest (request_interceptor b c)) b))
    as H2.
  destruct rest as [|[data|st' d'|] rest']; cbn [snd]; try lia.
  - rewrite api_retried by (cbn; reflexivity). cbn [snd].
    rewrite attempts_send_request.
    change (attempts (setItem ?k ?v ?x)) with (attempts x).
    change (attempts (setItem ?k ?v ?x)) with (attempts x). lia.
  - change (attempts (navigate ?h ?x)) with (attempts x).
    change (attempts (removeItem ?k ?x)) with (attempts x).
    change (attempts (removeItem ?k ?x)) with (attempts x). lia.
  - change (attempts (navigate ?h ?x)) with (attempts x).
    change (attempts (removeItem ?k ?x)) with (attempts x).
    change (attempts (removeItem ?k ?x)) with (attempts x). lia.
Qed.

(** After a successful refresh the request interceptor finds the token
    that was just stored, which is the one already put in the header. *)
Lemma request_interceptor_refreshed (b : Browser) (c : Config) (data : Data) :
  request_interceptor
    (setItem "refresh_token" (refresh_token data)
             (setItem "access_token" (access_token data) b))
    (with_authorization (bearer (access_token data)) (mark_retry c))
  = {| method := method c; url := url c;
       authorization := Some (bearer (access_token data)); _retry := true |}.
Proof.
  unfold request_interceptor, getItem_truthy, setItem. cbn [localStorage].
  rewrite lookup_insert_ne by discriminate. rewrite lookup_insert_eq.
  destruct (Js.truthy_string _); reflexivity.
Qed.

(** C3, as the code has it, for a request of [ApiService] that is answered
    401 and does not carry the retry flag yet.  The request goes on the
    wire at most twice.  With no refresh token stored, the 401 is handed
    to the caller and nothing else is sent.  With one stored, one refresh
    call is made; if it succeeds, both new tokens are stored and the
    request is sent once more with the new access token, and whatever
    answers that second attempt is final; if it fails, both tokens are
    removed, the location becomes [/login], and the caller gets the error
    of the refresh call. *)
Theorem C3_one_refresh_one_retry
    (b : Browser) (c : Config) (d401 : option string) (rest : list Reply)
    (Hfresh : _retry c = false) :
  let c1 := request_interceptor b c in
  let b1 := send (SentRequest c1) b in
  let result := ApiService.api (ReplyStatus 401 d401 :: rest) b c in
  (attempts (snd result) <= attempts b + 2)%nat
  /\ (getItem_truthy b "refresh_token" = None ->
      result = (Failed (error_of (mark_retry c1) (ReplyStatus 401 d401)), b1))
  /\ (forall tok data rest',
        getItem_truthy b "refresh_token" = Some tok ->
        rest = Reply2xx data :: rest' ->
        let c2 := {| method := method c; url := url c;
                     authorization := Some (bearer (access_token data));
                     _retry := true |} in
        sent (snd result)
        = (sent b ++ [SentRequest c1; SentRefresh tok; SentRequest c2])%list
        /\ localStorage (snd result)
           = <[ "refresh_token" := default "undefined" (refresh_token data) ]>
               (<[ "access_token" := default "undefined" (access_token data) ]>
                  (localStorage b))
        /\ location (snd result) = location b
        /\ fst result = match rest' with
                        | [] => Pending
                        | Reply2xx answer :: _ => Fulfilled answer
                        | r :: _ => Failed (error_of c2 r)
                        end)
  /\ (forall tok r rest',
        getItem_truthy b "refresh_token" = Some tok ->
        rest = r :: rest' ->
        (forall data, r <> Reply2xx data) ->
        sent (snd result) = (sent b ++ [SentRequest c1; SentRefresh tok])%list
        /\ localStorage (snd result)
           = delete "refresh_token" (delete "access_token" (localStorage b))
        /\ location (snd result) = "/login"
        /\ exists e, fst result = Failed e /\ url (config e) = "/api/auth/refresh").
Proof.
  cbn zeta. split; [apply api_attempts|].
  pose proof (retry_request_interceptor b c) as Hc1. rewrite Hfresh in Hc1.
  assert (Hlocal : forall key s, getItem_truthy (send s b) key = getItem_truthy b key)
    by reflexivity.
  cbn [ApiService.api]. rewrite Hc1. cbn [status_is error_of status Z.eqb Pos.eqb andb negb].
  rewrite Hlocal.
  split; [intros ->; reflexivity|].
  split.
  - intros tok data rest' -> ->.
    rewrite api_retried by reflexivity. cbn zeta.
    rewrite request_interceptor_refreshed.
    cbn [fst snd sent send setItem localStorage location method url].
    rewrite <- !app_assoc. cbn [app].
    repeat split.
    + unfold request_interceptor. destruct (getItem_truthy b "access_token"); reflexivity.
    + unfold request_interceptor. destruct (getItem_truthy b "access_token"); reflexivity.
  - intros tok r rest' -> -> Hfail.
    destruct r as [data|st d|]; [destruct (Hfail data); reflexivity| |];
      cbn [fst snd sent send removeItem navigate localStorage location];
      rewrite <- !app_assoc; cbn [app]; repeat split;
      eexists; split; reflexivity.
Qed.

Lemma C3_one_refresh_one_retry_witness :
  let b := {| localStorage := {[ "access_token" := "old"; "refresh_token" := "r1" ]};
              location := "/"; sent := [] |} in
  let fresh := {| access_token := Some "new"; refresh_token := Some "r2"; body := "" |} in
  let answer := {| access_token := None; refresh_token := None; body := "{}" |} in
  let result := ApiService.api [ReplyStatus 401 None; Reply2xx fresh; Reply2xx answer]
                               b (ApiService.updateTask_config "1") in
  fst result = Fulfilled answer
  /\ attempts (snd result) = 2%nat
  /\ localStorage (snd result) !! "access_token" = Some "new".
Proof.
  cbn zeta.
  pose proof (C3_one_refresh_one_retry
                {| localStorage := {[ "access_token" := "old"; "refresh_token" := "r1" ]};
                   location := "/"; sent := [] |}
                (ApiService.updateTask_config "1") None
                [Reply2xx {| access_token := Some "new"; refresh_token := Some "r2";
                             body := "" |};
                 Reply2xx {| access_token := None; refresh_token := None;
                             body := "{}" |}]
                eq_refl) as (_ & _ & Hrefreshed & _).
  destruct (Hrefreshed "r1" _ _ eq_refl eq_refl) as (Hsent & Hstore & _ & Hanswer).
  split; [exact Hanswer|]. split.
  - unfold attempts. rewrite Hsent. reflexivity.
  - rewrite Hstore. reflexivity.
Defined.

(** C3, as the specification words it, fails: a login with wrong
    credentials is answered 401 while the storage holds no token.  The
    error reaches the caller after a single attempt, although the second
    answer of the network would have been a success; no refresh call is
    made and the location stays. *)
Lemma C3_unauthorized_without_refresh_token :
  let b := {| localStorage := ∅; location := "/"; sent := [] |} in
  let answer := {| access_token := Some "a1"; refresh_token := Some "r1"; body := "" |} in
  let result := ApiService.api
                  [ReplyStatus 401 (Some "Incorrect email or password"); Reply2xx answer]
                  b ApiService.login_config in
  attempts (snd result) = 1%nat
  /\ sent (snd result) = [SentRequest ApiService.login_config]
  /\ (exists e, fst result = Failed e /\ status e = Some 401)
  /\ location (snd result) = "/".
Proof.
  cbn zeta. split; [vm_compute; reflexivity|]. split; [vm_compute; reflexivity|].
  split; [eexists; split; vm_compute; reflexivity|].
  vm_compute; reflexivity.
Qed.

(** The client of the AI endpoints has no response interceptor: every
    request goes on the wire once, whatever the answer. *)
Lemma AiApi_single_attempt (replies : list Reply) (b : Browser) (c : Config) :
  attempts (snd (AiApi.apiClient replies b c)) = S (attempts b)
  /\ localStorage (snd (AiApi.apiClient replies b c)) = localStorage b.
Proof.
  unfold AiApi.apiClient.
  destruct replies as [|[data|st d|] rest]; cbn [snd];
    rewrite attempts_send_request; split; reflexivity.
Qed.

End ApiFacts.

Section BackendFacts.
Import Js TaskStore Backend.




Lemma updateTask_keeps_the_checks
    (refused : TaskUpdate -> bool) (report : Refusal -> ApiError)
    (now taskId : string) (u : TaskUpdate) (table : gmap string Task) :
  map_Forall (fun _ t => row_check t = true) table ->
  map_Forall (fun _ t => row_check t = true)
             (snd (Backend.updateTask refused report now taskId u table)).
Proof.
  intros Htable. unfold Backend.updateTask.
  destruct (refused u); [exact Htable|].
  destruct (table !! taskId) as [t|]; [|exact Htable].
  destruct (row_check (apply_update now u t)) eqn:Hchecked; [|exact Htable].
  cbn [snd]. apply map_Forall_insert_2; assumption.
Qed.



End BackendFacts.

Section ChatFacts.
Import Js TaskStore ChatAssistant.

(** C6: whatever the endpoint behind the chat actions would do, the
    [cancel] button does not reach it.  The tasks of the server, the list
    of calls, the window events and the loading flag are what they were,
    and the conversation gains exactly one assistant message, the
    acknowledgement of the cancellation. *)
Theorem C6_cancel_only_acknowledges
    (endpoint : Endpoint) (now : string) (button : ActionButton) (w : World)
    (Hcancel : action button = "cancel") :
  let w' := executeAction endpoint now button w in
  server_tasks w' = server_tasks w
  /\ calls w' = calls w
  /\ dispatched w' = dispatched w
  /\ loading w' = loading w
  /\ messages w' = (messages w ++ [reply "❌ Ação cancelada." now])%list.
Proof.
  cbn zeta. unfold executeAction. rewrite Hcancel. cbn [String.eqb].
  replace (String.eqb "cancel" "cancel") with true by reflexivity.
  repeat split.
Qed.

Lemma C6_cancel_only_acknowledges_witness :
  let w := {| messages := []; loading := false; dispatched := []; calls := [];
              server_tasks := [Samples.task "1" "todo" "medium"] |} in
  let button := {| label := "Cancelar"; action := "cancel";
                   data := Some {[ "task_id" := "1" ]} |} in
  let w' := executeAction Samples.destructive_endpoint "2024-05-02T09:00:00Z" button w in
  server_tasks w' = [Samples.task "1" "todo" "medium"]
  /\ calls w' = []
  /\ content <$> messages w' = ["❌ Ação cancelada."].
Proof.
  cbn zeta.
  destruct (C6_cancel_only_acknowledges
              Samples.destructive_endpoint "2024-05-02T09:00:00Z"
              {| label := "Cancelar"; action := "cancel";
                 data := Some {[ "task_id" := "1" ]} |}
              {| messages := []; loading := false; dispatched := []; calls := [];
                 server_tasks := [Samples.task "1" "todo" "medium"] |}
              eq_refl) as (Htasks & Hcalls & _ & _ & Hmessages).
  split; [exact Htasks|]. split; [exact Hcalls|].
  rewrite Hmessages. reflexivity.
Defined.

(** For contrast: any other action does reach the endpoint. *)
Example confirmed_action_reaches_endpoint :
  let w := {| messages := []; loading := false; dispatched := []; calls := [];
              server_tasks := [Samples.task "1" "todo" "medium"] |} in
  let button := {| label := "Excluir"; action := "delete";
                   data := Some {[ "task_id" := "1" ]} |} in
  let w' := executeAction Samples.destructive_endpoint "2024-05-02T09:00:00Z" button w in
  server_tasks w' = [] /\ length (calls w') = 1%nat
  /\ dispatched w' = ["tasksUpdated"].
Proof. cbn zeta. repeat split; vm_compute; reflexivity. Qed.

End ChatFacts.

Section SuggestionFacts.
Import Js TaskStore SubtaskSuggestionsModal.

(** C7: [loadSuggestions] always returns normally, sends the one
    suggestion request and leaves the task store as it is.  The modal
    shows the error panel, and holds an error, exactly when the
    suggestion call was rejected; an empty list of subtasks ends in the
    no-suggestions view with no error. *)
Theorem C7_empty_suggestions_not_an_error
    (result : settled Suggested ApiError) (w : World) :
  let w' := fst (loadSuggestions result w) in
  snd (loadSuggestions result w) = Returned tt
  /\ store w' = store w
  /\ calls w' = (calls w ++ [suggest_config])%list
  /\ ((exists text, render (modal w') = ErrorPanel text) <-> exists e, result = Rejected e)
  /\ (error (modal w') <> None <-> exists e, result = Rejected e)
  /\ (forall r, result = Resolved r -> subtasks r = [] ->
                render (modal w') = NoSuggestions /\ error (modal w') = None).
Proof.
  cbn zeta. split; [reflexivity|]. split; [reflexivity|]. split; [reflexivity|].
  destruct result as [r|e]; cbn [loadSuggestions fst modal].
  - split; [|split].
    + unfold render. cbn [isLoading error suggestions].
      split; [|intros [e He]; discriminate He].
      intros [text Htext]. destruct (length (subtasks r) =? 0)%nat; discriminate Htext.
    + cbn [error]. split; [intros H; contradiction H; reflexivity|].
      intros [e He]; discriminate He.
    + intros r' [= <-] Hempty. unfold render. cbn [isLoading error suggestions].
      rewrite Hempty. split; reflexivity.
  - split; [|split].
    + split; [intros _; exists e; reflexivity|].
      intros _. exists load_failed. reflexivity.
    + cbn [error]. split; [intros _; exists e; reflexivity|]. intros _. discriminate.
    + intros r [=].
Qed.

Lemma C7_empty_suggestions_not_an_error_witness :
  let created := Samples.task "1" "todo" "medium" in
  let w := {| modal := mounted;
              store := {| tasks := [created]; total := 1;
                          TaskStore.isLoading := false; TaskStore.error := None |};
              calls := [] |} in
  let w' := fst (loadSuggestions (Resolved {| subtasks := []; provider := "unknown" |}) w) in
  render (modal w') = NoSuggestions /\ error (modal w') = None
  /\ tasks (store w') = [created].
Proof.
  cbn zeta.
  pose proof (C7_empty_suggestions_not_an_error
                (Resolved {| subtasks := []; provider := "unknown" |})
                {| modal := mounted;
                   store := {| tasks := [Samples.task "1" "todo" "medium"]; total := 1;
                               TaskStore.isLoading := false;
                               TaskStore.error := None |};
                   calls := [] |}) as (_ & Hstore & _ & _ & _ & Hempty).
  destruct (Hempty _ eq_refl eq_refl) as [Hview Herror].
  split; [exact Hview|]. split; [exact Herror|].
  rewrite Hstore. reflexivity.
Defined.

End SuggestionFacts.

Section StoreEventFacts.
Import Js TaskStore.

Lemma filter_other_ids_In (key : string) (l : list Task) (t : Task) :
  In t (List.filter (fun t => negb (String.eqb (id t) key)) l)
  <-> In t l /\ id t <> key.
Proof.
  rewrite List.filter_In. split; intros [Hin Hid]; split; try exact Hin.
  - intros Heq. rewrite Heq, String.eqb_refl in Hid. discriminate Hid.
  - destruct (String.eqb_spec (id t) key); [contradiction|reflexivity].
Qed.

Lemma filter_other_ids_absent (key : string) (l : list Task) :
  (forall t, In t l -> id t <> key) ->
  List.filter (fun t => negb (String.eqb (id t) key)) l = l.
Proof.
  induction l as [|t l IH]; intros Habsent; [reflexivity|].
  cbn [List.filter].
  destruct (String.eqb_spec (id t) key) as [Heq|_].
  - exfalso. apply (Habsent t); [left; reflexivity|exact Heq].
  - cbn [negb]. rewrite IH; [reflexivity|].
    intros t' Ht'. apply Habsent. right. exact Ht'.
Qed.

Lemma filter_sublist {A : Type} (p : A -> bool) (l : list A) :
  sublist (List.filter p l) l.
Proof.
  induction l as [|x l IH]; [constructor|].
  cbn [List.filter]. destruct (p x); [apply sublist_skip|apply sublist_cons]; exact IH.
Qed.

(** A resolved [deleteTask], and the [task_deleted] event, remove exactly
    the tasks with the given id: the remaining ones keep their order, no
    task with that id is left, an id that is not stored changes nothing,
    and [total] is not decremented. *)
Theorem deleteTask_removes_exactly_that_id (taskId : string) (st : TaskState) (data : Task) :
  let deleted := fst (deleteTask taskId st (Resolved tt)) in
  let pushed := on_task_deleted data st in
  (forall t, In t (tasks deleted) <-> In t (tasks st) /\ id t <> taskId)
  /\ (forall t, In t (tasks pushed) <-> In t (tasks st) /\ id t <> id data)
  /\ sublist (tasks deleted) (tasks st)
  /\ sublist (tasks pushed) (tasks st)
  /\ ((forall t, In t (tasks st) -> id t <> taskId) -> tasks deleted = tasks st)
  /\ total deleted = total st
  /\ total pushed = total st
  /\ snd (deleteTask taskId st (Resolved tt)) = Returned tt.
Proof.
  cbn zeta. cbn [deleteTask deleteTask_settled set_loading set_tasks_loaded fst snd tasks
                   total on_task_deleted set_tasks].
  split; [intros t; apply filter_other_ids_In|].
  split; [intros t; apply filter_other_ids_In|].
  split; [apply filter_sublist|]. split; [apply filter_sublist|].
  split; [apply filter_other_ids_absent|]. repeat split.
Qed.

Lemma deleteTask_removes_exactly_that_id_witness :
  let st := {| tasks := [Samples.task "1" "todo" "low"; Samples.task "2" "done" "high";
                         Samples.task "3" "todo" "low"];
               total := 3; isLoading := false; error := None |} in
  tasks (fst (deleteTask "9" st (Resolved tt))) = tasks st
  /\ ~ In (Samples.task "2" "done" "high") (tasks (fst (deleteTask "2" st (Resolved tt)))).
Proof.
  cbn zeta. split.
  - pose proof (deleteTask_removes_exactly_that_id "9"
                  {| tasks := [Samples.task "1" "todo" "low"; Samples.task "2" "done" "high";
                               Samples.task "3" "todo" "low"];
                     total := 3; isLoading := false; error := None |}
                  (Samples.task "9" "todo" "low")) as (_ & _ & _ & _ & Habsent & _).
    apply Habsent. intros t [<-|[<-|[<-|[]]]]; discriminate.
  - pose proof (deleteTask_removes_exactly_that_id "2"
                  {| tasks := [Samples.task "1" "todo" "low"; Samples.task "2" "done" "high";
                               Samples.task "3" "todo" "low"];
                     total := 3; isLoading := false; error := None |}
                  (Samples.task "2" "todo" "low")) as (Hin & _).
    intros H. apply Hin in H as [_ Hid]. apply Hid. reflexivity.
Defined.

Lemma map_replace_idempotent (task : Task) (l : list Task) :
  let f := fun t => if String.eqb (id t) (id task) then task else t in
  List.map f (List.map f l) = List.map f l.
Proof.
  cbn zeta. rewrite List.map_map. apply List.map_ext. intros t.
  destruct (String.eqb_spec (id t) (id task)) as [_|Hne].
  - rewrite String.eqb_refl. reflexivity.
  - destruct (String.eqb_spec (id t) (id task)); [contradiction|reflexivity].
Qed.

Lemma filter_idempotent {A : Type} (p : A -> bool) (l : list A) :
  List.filter p (List.filter p l) = List.filter p l.
Proof.
  induction l as [|x l IH]; [reflexivity|].
  cbn [List.filter]. destruct (p x) eqn:Hp; [|exact IH].
  cbn [List.filter]. rewrite Hp, IH. reflexivity.
Qed.

(** Of the three pushed events, [task_updated] and [task_deleted] can be
    delivered twice without effect, and [task_created] cannot: each delivery
    adds one more copy, also of the task that a resolved [createTask] has
    just put in the list. *)
Theorem pushed_events_repeated (task : Task) (st : TaskState) :
  on_task_updated task (on_task_updated task st) = on_task_updated task st
  /\ on_task_deleted task (on_task_deleted task st) = on_task_deleted task st
  /\ tasks (on_task_created task (on_task_created task st))
     = (tasks st ++ [task; task])%list
  /\ tasks (on_task_created task (fst (createTask st (Resolved task))))
     = (tasks st ++ [task; task])%list.
Proof.
  unfold on_task_updated, on_task_deleted, on_task_created, set_tasks.
  cbn [tasks total isLoading error].
  split; [rewrite (map_replace_idempotent task); reflexivity|].
  split; [rewrite filter_idempotent; reflexivity|].
  split; [rewrite <- app_assoc; reflexivity|].
  cbn. rewrite <- app_assoc. reflexivity.
Qed.

(** [fetchTasks] never throws: a rejected call only sets [error].  The
    four other actions throw exactly when their call is rejected, with the
    error they received.  A resolved [fetchTasks] replaces both [tasks] and
    [total] by the response, whatever the store held. *)
Theorem fetchTasks_swallows_rejection_others_rethrow
    (st : TaskState) (e : ApiError) (taskId : string)
    (r : TasksResponse) (task : Task) :
  snd (fetchTasks st (Rejected e)) = Returned tt
  /\ snd (fetchTasks st (Resolved r)) = Returned tt
  /\ snd (createTask st (Rejected e)) = Thrown e
  /\ snd (createTaskStructured st (Rejected e)) = Thrown e
  /\ snd (updateTask taskId st (Rejected e)) = Thrown e
  /\ snd (deleteTask taskId st (Rejected e)) = Thrown e
  /\ snd (updateTask taskId st (Resolved task)) = Returned tt
  /\ fst (fetchTasks st (Resolved r))
     = {| tasks := response_tasks r; total := response_total r;
          isLoading := false; error := None |}.
Proof. repeat split. Qed.

End StoreEventFacts.

Section ApiMoreFacts.
Import Http.

Lemma lookup_param_if_truthy_ne (key : string) (value : option string)
    (params : gmap string ApiService.Param) (k : string) :
  key <> k -> ApiService.param_if_truthy key value params !! k = params !! k.
Proof.
  intros Hk. unfold ApiService.param_if_truthy. destruct value as [s|]; [|reflexivity].
  destruct (Js.truthy_string s); [|reflexivity]. apply lookup_insert_ne. exact Hk.
Qed.

Lemma lookup_param_if_defined_ne (key : string) (value : option Z)
    (params : gmap string ApiService.Param) (k : string) :
  key <> k -> ApiService.param_if_defined key value params !! k = params !! k.
Proof.
  intros Hk. unfold ApiService.param_if_defined. destruct value as [n|]; [|reflexivity].
  apply lookup_insert_ne. exact Hk.
Qed.

Lemma lookup_param_if_defined_eq (key : string) (value : option Z)
    (params : gmap string ApiService.Param) :
  ApiService.param_if_defined key value params !! key
  = match value with
    | Some n => Some (ApiService.PNumber n)
    | None => params !! key
    end.
Proof.
  unfold ApiService.param_if_defined. destruct value as [n|]; [|reflexivity].
  apply lookup_insert_eq.
Qed.

Lemma no_empty_string_truthy (key : string) (value : option string)
    (params : gmap string ApiService.Param) :
  ApiService.no_empty_string params ->
  ApiService.no_empty_string (ApiService.param_if_truthy key value params).
Proof.
  intros Hparams k s. unfold ApiService.param_if_truthy.
  destruct value as [v|]; [|apply Hparams].
  destruct (Js.truthy_string v) eqn:Hv; [|apply Hparams].
  destruct (decide (key = k)) as [->|Hk].
  - rewrite lookup_insert_eq. intros [= <-] ->. discriminate Hv.
  - rewrite lookup_insert_ne by exact Hk. apply Hparams.
Qed.

Lemma no_empty_string_defined (key : string) (value : option Z)
    (params : gmap string ApiService.Param) :
  ApiService.no_empty_string params ->
  ApiService.no_empty_string (ApiService.param_if_defined key value params).
Proof.
  intros Hparams k s. unfold ApiService.param_if_defined.
  destruct value as [n|]; [|apply Hparams].
  destruct (decide (key = k)) as [->|Hk].
  - rewrite lookup_insert_eq. discriminate.
  - rewrite lookup_insert_ne by exact Hk. apply Hparams.
Qed.

(** Every task request that [fetchTasks] makes carries a [limit], and never
    0: a missing limit and a limit of 0 both become 100.  An [offset] of 0
    is sent as it is.  No string parameter is ever sent empty: an empty
    status filter, project, sort key or query is left out. *)
Theorem fetchTasks_always_sends_a_limit (options : option TaskStore.FetchOptions) :
  let params := ApiService.getTasks_params (Some (TaskStore.fetchTasks_request options)) in
  let requested := TaskStore.opt_limit (default TaskStore.no_options options) in
  (exists n, params !! "limit" = Some (ApiService.PNumber n) /\ n <> 0
             /\ (requested = Some n
                 \/ n = 100 /\ (requested = None \/ requested = Some 0)))
  /\ params !! "offset"
     = ApiService.PNumber <$> TaskStore.opt_offset (default TaskStore.no_options options)
  /\ (forall k s, params !! k = Some (ApiService.PString s) -> s <> "").
Proof.
  cbn zeta. unfold ApiService.getTasks_params.
  change (default TaskStore.no_options (Some ?x)) with x.
  set (o := default TaskStore.no_options options).
  split; [|split].
  - rewrite !lookup_param_if_truthy_ne by discriminate.
    rewrite lookup_param_if_defined_ne by discriminate.
    rewrite lookup_param_if_defined_eq.
    cbn [TaskStore.fetchTasks_request TaskStore.opt_limit]. fold o.
    destruct (TaskStore.opt_limit o) as [n|].
    + unfold Js.truthy_number. destruct (Z.eqb_spec n 0) as [->|Hn]; cbn [negb].
      * exists 100. split; [reflexivity|]. split; [discriminate|].
        right. split; [reflexivity|right; reflexivity].
      * exists n. split; [reflexivity|]. split; [exact Hn|left; reflexivity].
    + exists 100. split; [reflexivity|]. split; [discriminate|].
      right. split; [reflexivity|left; reflexivity].
  - rewrite !lookup_param_if_truthy_ne by discriminate.
    rewrite lookup_param_if_defined_eq.
    cbn [TaskStore.fetchTasks_request TaskStore.opt_offset]. fold o.
    destruct (TaskStore.opt_offset o); [reflexivity|].
    rewrite lookup_param_if_defined_ne by discriminate.
    rewrite !lookup_param_if_truthy_ne by discriminate.
    apply lookup_empty.
  - repeat first [apply no_empty_string_truthy | apply no_empty_string_defined].
    intros k s. rewrite lookup_empty. discriminate.
Qed.

Lemma getItem_logout (b : Browser) (key : string) :
  key = "access_token" \/ key = "refresh_token" ->
  getItem_truthy (ApiService.logout b) key = None.
Proof.
  unfold getItem_truthy, ApiService.logout, removeItem. cbn [localStorage].
  intros [->| ->].
  - rewrite lookup_delete_ne by discriminate. rewrite lookup_delete_eq. reflexivity.
  - rewrite lookup_delete_eq. reflexivity.
Qed.

(** A login that is answered with a token pair stores it, and from then on
    the request interceptor puts that access token on every request.  After
    [logout] both tokens are gone: requests go out as they were built, and
    a 401 is then handed to the caller without any refresh call. *)
Theorem login_then_logout_tokens
    (b : Browser) (data : Data) (rest : list Reply) (c : Config)
    (a r : string) (detail : option string) (later : list Reply)
    (Haccess : access_token data = Some a) (Hnonempty : a <> "")
    (Hrefresh : refresh_token data = Some r) :
  let logged_in := snd (ApiService.login (Reply2xx data :: rest) b) in
  let logged_out := ApiService.logout logged_in in
  fst (ApiService.login (Reply2xx data :: rest) b) = Fulfilled data
  /\ localStorage logged_in !! "access_token" = Some a
  /\ localStorage logged_in !! "refresh_token" = Some r
  /\ authorization (request_interceptor logged_in c) = Some ("Bearer " ++ a)
  /\ localStorage logged_out !! "access_token" = None
  /\ localStorage logged_out !! "refresh_token" = None
  /\ request_interceptor logged_out c = c
  /\ (_retry c = false ->
      ApiService.api (ReplyStatus 401 detail :: later) logged_out c
      = (Failed (error_of (mark_retry c) (ReplyStatus 401 detail)),
         send (SentRequest c) logged_out)).
Proof.
  cbn zeta. cbn [ApiService.login ApiService.api fst snd].
  split; [reflexivity|].
  split.
  { cbn [setItem localStorage]. rewrite lookup_insert_ne by discriminate.
    rewrite lookup_insert_eq, Haccess. reflexivity. }
  split.
  { cbn [setItem localStorage]. rewrite lookup_insert_eq, Hrefresh. reflexivity. }
  split.
  { unfold request_interceptor, getItem_truthy. cbn [setItem localStorage].
    rewrite lookup_insert_ne by discriminate. rewrite lookup_insert_eq, Haccess.
    cbv [from_option id]. unfold Js.truthy_string.
    destruct (String.eqb_spec a ""); [contradiction|reflexivity]. }
  set (logged_in := setItem _ _ _).
  assert (Hout : forall key, key = "access_token" \/ key = "refresh_token" ->
                   getItem_truthy (ApiService.logout logged_in) key = None)
    by apply getItem_logout.
  split.
  { cbn [ApiService.logout removeItem localStorage].
    rewrite lookup_delete_ne by discriminate. apply lookup_delete_eq. }
  split; [apply lookup_delete_eq|].
  assert (Hsame : request_interceptor (ApiService.logout logged_in) c = c).
  { unfold request_interceptor. rewrite Hout by (left; reflexivity). reflexivity. }
  split; [exact Hsame|].
  intros Hfresh. rewrite Hsame, Hfresh.
  cbn [status_is error_of status Z.eqb Pos.eqb andb negb].
  change (getItem_truthy (send ?s ?x) ?k) with (getItem_truthy x k).
  rewrite Hout by (right; reflexivity). reflexivity.
Qed.

Lemma login_then_logout_tokens_witness :
  let b := {| localStorage := ∅; location := "/login"; sent := [] |} in
  let data := {| access_token := Some "a1"; refresh_token := Some "r1"; body := "" |} in
  let logged_in := snd (ApiService.login [Reply2xx data] b) in
  authorization (request_interceptor logged_in ApiService.getTasks_config)
  = Some "Bearer a1"
  /\ request_interceptor (ApiService.logout logged_in) ApiService.getTasks_config
     = ApiService.getTasks_config.
Proof.
  cbn zeta.
  pose proof (login_then_logout_tokens
                {| localStorage := ∅; location := "/login"; sent := [] |}
                {| access_token := Some "a1"; refresh_token := Some "r1"; body := "" |}
                [] ApiService.getTasks_config "a1" "r1" None []
                eq_refl ltac:(discriminate) eq_refl)
    as (_ & _ & _ & Hheader & _ & _ & Hplain & _).
  split; [exact Hheader|exact Hplain].
Defined.

(** Only a 401 on a request without the retry flag starts the refresh
    flow.  Any other failure (another status, no response at all, or a 401
    on a request that was already retried) is handed to the caller after
    one attempt: no refresh call is made, and the storage and the location
    stay as they are. *)
Theorem only_unretried_401_refreshes
    (b : Browser) (c : Config) (r : Reply) (rest : list Reply)
    (Hfailure : forall data, r <> Reply2xx data)
    (Hother : status_is 401 (error_of c r) = false \/ _retry c = true) :
  let c1 := request_interceptor b c in
  ApiService.api (r :: rest) b c = (Failed (error_of c1 r), send (SentRequest c1) b)
  /\ localStorage (snd (ApiService.api (r :: rest) b c)) = localStorage b
  /\ location (snd (ApiService.api (r :: rest) b c)) = location b
  /\ attempts (snd (ApiService.api (r :: rest) b c)) = S (attempts b).
Proof.
  cbn zeta.
  assert (Hmain : ApiService.api (r :: rest) b c
                  = (Failed (error_of (request_interceptor b c) r),
                     send (SentRequest (request_interceptor b c)) b)).
  { destruct r as [data|st d|]; [destruct (Hfailure data); reflexivity| |reflexivity].
    cbn [ApiService.api]. rewrite retry_request_interceptor.
    replace (status_is 401 (error_of (request_interceptor b c) (ReplyStatus st d)))
      with (status_is 401 (error_of c (ReplyStatus st d))) by reflexivity.
    destruct Hother as [-> | ->]; [reflexivity|].
    rewrite andb_false_r. reflexivity. }
  rewrite Hmain. cbn [snd]. rewrite attempts_send_request. repeat split.
Qed.

Lemma only_unretried_401_refreshes_witness :
  let b := {| localStorage := {[ "access_token" := "a1"; "refresh_token" := "r1" ]};
              location := "/"; sent := [] |} in
  let result := ApiService.api [ReplyStatus 500 None] b ApiService.getTasks_config in
  attempts (snd result) = 1%nat /\ localStorage (snd result) = localStorage b.
Proof.
  cbn zeta.
  pose proof (only_unretried_401_refreshes
                {| localStorage := {[ "access_token" := "a1"; "refresh_token" := "r1" ]};
                   location := "/"; sent := [] |}
                ApiService.getTasks_config (ReplyStatus 500 None) []
                ltac:(discriminate) ltac:(left; reflexivity))
    as (_ & Hstore & _ & Hattempts).
  split; [exact Hattempts|exact Hstore].
Defined.

End ApiMoreFacts.

Section WebSocketMoreFacts.
Import Js TaskStore WebSocketService.

Lemma pending_is_recorded_step (w : World) (e : Event) :
  pending_is_recorded w -> pending_is_recorded (step w e).
Proof.
  intros Hw. destruct e as [token| |response|i|i|i|i frame|h|]; cbn [step].
  - unfold connect. destruct (ws_is_open w); [exact Hw|]. exact Hw.
  - exact Hw.
  - exact Hw.
  - destruct (sockets w !! i); [|exact Hw].
    unfold onopen. cbn [log set_readyState service].
    destruct (reconnectTimer (service w)) as [h|] eqn:Hh; [|exact Hw].
    intros h' t. cbn [set_reconnectTimer set_service clearTimeout timers service].
    intros Hpending. destruct (decide (h = h')) as [->|Hne].
    + rewrite lookup_delete_eq in Hpending. discriminate Hpending.
    + rewrite lookup_delete_ne in Hpending by exact Hne.
      destruct (Hw h' t Hpending) as [Hrec _]. congruence.
  - destruct (sockets w !! i) as [s|]; [|exact Hw].
    unfold onclose, scheduleReconnect. cbn [log set_readyState service].
    destruct (reconnectTimer (service w)) as [h|] eqn:Hh; [exact Hw|].
    intros h' t. cbn. intros Hpending.
    destruct (decide (next_timer w = h')) as [<-|Hne].
    + rewrite lookup_insert_eq in Hpending. injection Hpending as <-.
      split; reflexivity.
    + rewrite lookup_insert_ne in Hpending by exact Hne.
      destruct (Hw h' t Hpending) as [Hrec _]. congruence.
  - destruct (sockets w !! i); exact Hw.
  - destruct (sockets w !! i); [|exact Hw].
    unfold onmessage. destruct frame as [m|]; [|exact Hw].
    destruct (listeners (service w) !! event m); exact Hw.
  - destruct (timers w !! h) as [t0|]; [|exact Hw].
    unfold reconnect_callback, connect.
    assert (Hcleared : pending_is_recorded (clearTimeout h w)).
    { intros h' t. cbn [clearTimeout timers service]. intros Hpending.
      destruct (decide (h = h')) as [->|Hne].
      - rewrite lookup_delete_eq in Hpending. discriminate Hpending.
      - rewrite lookup_delete_ne in Hpending by exact Hne. exact (Hw h' t Hpending). }
    destruct (ws_is_open _); exact Hcleared.
  - unfold disconnect.
    destruct (reconnectTimer (service w)) as [h|] eqn:Hh.
    + assert (Hempty : forall h' t, delete h (timers w) !! h' = Some t -> False).
      { intros h' t Hpending. destruct (decide (h = h')) as [->|Hne].
        - rewrite lookup_delete_eq in Hpending. discriminate Hpending.
        - rewrite lookup_delete_ne in Hpending by exact Hne.
          destruct (Hw h' t Hpending) as [Hrec _]. congruence. }
      cbn [set_reconnectTimer set_service clearTimeout service ws].
      destruct (ws (service w)); intros h' t Hpending; cbn in Hpending;
        destruct (Hempty h' t Hpending).
    + destruct (ws (service w)); intros h' t Hpending; cbn in Hpending;
        destruct (Hw h' t Hpending) as [Hrec _]; congruence.
Qed.

(** Whatever happens to the client, at most one reconnect timeout is
    pending at any time; it is the one recorded in [reconnectTimer], and
    its delay is the fixed interval. *)
Theorem at_most_one_pending_reconnect (events : list Event) :
  let w := run initial_world events in
  pending_is_recorded w
  /\ (forall h1 t1 h2 t2, timers w !! h1 = Some t1 -> timers w !! h2 = Some t2 ->
                          h1 = h2 /\ delay t1 = 5000).
Proof.
  cbn zeta.
  assert (Hinitial : pending_is_recorded initial_world).
  { intros h t Hpending. cbn in Hpending. rewrite lookup_empty in Hpending.
    discriminate Hpending. }
  assert (Hinv : pending_is_recorded (run initial_world events)).
  { unfold run. revert Hinitial. generalize initial_world.
    induction events as [|e events IH]; intros w Hw; [exact Hw|].
    cbn [fold_left]. apply IH. apply pending_is_recorded_step. exact Hw. }
  split; [exact Hinv|].
  intros h1 t1 h2 t2 H1 H2.
  destruct (Hinv h1 t1 H1) as [Hr1 Hd1]. destruct (Hinv h2 t2 H2) as [Hr2 _].
  split; [congruence|exact Hd1].
Qed.

Lemma ws_is_open_connecting (token : string) (w : World) :
  ws_is_open w = false -> ws_is_open (connect token w) = false.
Proof.
  intros Hopen. unfold connect. rewrite Hopen. unfold ws_is_open.
  cbn [service ws sockets]. rewrite lookup_app_r by reflexivity.
  rewrite Nat.sub_diag. reflexivity.
Qed.

(** [connect] does nothing while the current socket is open.  Otherwise it
    creates one socket in state CONNECTING and makes it the current one,
    without closing or touching the sockets that exist; called again before
    that socket has opened, it creates a second one beside it. *)
Theorem connect_adds_a_socket_unless_open (token : string) (w : World) :
  let fresh := {| socket_url := WS_URL ++ "/ws?token=" ++ token;
                  socket_token := token; readyState := CONNECTING |} in
  (ws_is_open w = true -> connect token w = w)
  /\ (ws_is_open w = false ->
      sockets (connect token w) = (sockets w ++ [fresh])%list
      /\ ws (service (connect token w)) = Some (length (sockets w))
      /\ sockets (connect token (connect token w)) = (sockets w ++ [fresh; fresh])%list)
  /\ (forall i s, sockets w !! i = Some s -> sockets (connect token w) !! i = Some s)
  /\ listeners (service (connect token w)) = listeners (service w)
  /\ reconnectTimer (service (connect token w)) = reconnectTimer (service w)
  /\ timers (connect token w) = timers w
  /\ store (connect token w) = store w.
Proof.
  cbn zeta. split; [intros Hopen; unfold connect; rewrite Hopen; reflexivity|].
  split.
  { intros Hopen. pose proof (ws_is_open_connecting token w Hopen) as Hstill.
    split; [unfold connect; rewrite Hopen; reflexivity|].
    split; [unfold connect; rewrite Hopen; reflexivity|].
    unfold connect at 1. rewrite Hstill.
    unfold connect. rewrite Hopen. cbn [sockets].
    rewrite <- app_assoc. reflexivity. }
  split.
  { intros i s Hi. unfold connect. destruct (ws_is_open w); [exact Hi|].
    cbn [sockets]. apply lookup_app_l_Some. exact Hi. }
  unfold connect. destruct (ws_is_open w); repeat split.
Qed.

Lemma connect_adds_a_socket_unless_open_witness :
  length (sockets (connect "tok" (connect "tok" initial_world))) = 2%nat
  /\ connect "tok" (run initial_world Samples.session) = run initial_world Samples.session.
Proof.
  pose proof (connect_adds_a_socket_unless_open "tok" initial_world)
    as (_ & Hclosed & _).
  destruct (Hclosed eq_refl) as (_ & _ & Htwice).
  split; [rewrite Htwice; reflexivity|].
  pose proof (connect_adds_a_socket_unless_open "tok" (run initial_world Samples.session))
    as (Hopen & _).
  apply Hopen. vm_compute; reflexivity.
Defined.



Lemma setupWebSocket_listeners (w : World) (k : string) :
  listeners (service (setupWebSocket w)) !! k
  = if String.eqb k "task_deleted"
    then Some (default [] (listeners (service w) !! k) ++ [on_task_deleted])%list
    else if String.eqb k "task_updated"
    then Some (default [] (listeners (service w) !! k) ++ [on_task_updated])%list
    else if String.eqb k "task_created"
    then Some (default [] (listeners (service w) !! k) ++ [on_task_created])%list
    else listeners (service w) !! k.
Proof.
  unfold setupWebSocket, on. cbn [set_service service listeners ws reconnectTimer].
  destruct (String.eqb_spec k "task_deleted") as [->|Hd].
  { rewrite lookup_insert_eq. rewrite !lookup_insert_ne by discriminate. reflexivity. }
  rewrite lookup_insert_ne by congruence.
  destruct (String.eqb_spec k "task_updated") as [->|Hu].
  { rewrite lookup_insert_eq. rewrite !lookup_insert_ne by discriminate. reflexivity. }
  rewrite lookup_insert_ne by congruence.
  destruct (String.eqb_spec k "task_created") as [->|Hc].
  { rewrite lookup_insert_eq. reflexivity. }
  rewrite lookup_insert_ne by congruence. reflexivity.
Qed.

Lemma setupWebSocket_store (n : nat) (w : World) :
  store (Nat.iter n setupWebSocket w) = store w.
Proof. induction n as [|n IH]; [reflexivity|exact IH]. Qed.

Lemma created_listeners_after (n : nat) (w : World) :
  listeners (service w) = ∅ ->
  default [] (listeners (service (Nat.iter n setupWebSocket w)) !! "task_created")
  = repeat on_task_created n.
Proof.
  intros Hnone. induction n as [|n IH].
  - cbn. rewrite Hnone, lookup_empty. reflexivity.
  - cbn [Nat.iter nat_rect]. rewrite setupWebSocket_listeners. cbn [String.eqb].
    replace (String.eqb "task_created" "task_deleted") with false by reflexivity.
    replace (String.eqb "task_created" "task_updated") with false by reflexivity.
    replace (String.eqb "task_created" "task_created") with true by reflexivity.
    cbn [from_option Datatypes.id]. unfold Nat.iter in IH. rewrite IH.
    symmetry. apply List.repeat_cons.
Qed.

Lemma other_listeners_after (n : nat) (w : World) (k : string) :
  listeners (service w) = ∅ ->
  k <> "task_created" -> k <> "task_updated" -> k <> "task_deleted" ->
  listeners (service (Nat.iter n setupWebSocket w)) !! k = None.
Proof.
  intros Hnone Hc Hu Hd. induction n as [|n IH].
  - cbn. rewrite Hnone. apply lookup_empty.
  - cbn [Nat.iter nat_rect]. rewrite setupWebSocket_listeners.
    destruct (String.eqb_spec k "task_deleted"); [contradiction|].
    destruct (String.eqb_spec k "task_updated"); [contradiction|].
    destruct (String.eqb_spec k "task_created"); [contradiction|].
    exact IH.
Qed.

Lemma fold_created (task : Task) (n : nat) (st : TaskState) :
  tasks (fold_left (fun st callback => callback task st) (repeat on_task_created n) st)
  = (tasks st ++ repeat task n)%list.
Proof.
  revert st. induction n as [|n IH]; intros st; cbn [repeat fold_left].
  - rewrite app_nil_r. reflexivity.
  - rewrite IH. cbn. rewrite <- app_assoc. reflexivity.
Qed.

(** [on] never recognizes a callback it already holds, and nothing calls
    [off]: after [setupWebSocket] has run [n] times on a service without
    listeners, one [task_created] frame appends the task [n] times.  Run
    once, a frame reaches exactly the callback of its event; a frame with
    any other event name changes nothing, and a frame that does not parse
    only writes to the console. *)
Theorem every_setup_adds_a_listener
    (n : nat) (w : World) (task : Task)
    (Hnone : listeners (service w) = ∅) :
  let ready := Nat.iter n setupWebSocket w in
  let frame ev := Some {| event := ev; data := task |} in
  tasks (store (onmessage (frame "task_created") ready))
  = (tasks (store w) ++ repeat task n)%list
  /\ store (onmessage (frame "task_updated") (setupWebSocket w))
     = on_task_updated task (store w)
  /\ store (onmessage (frame "task_deleted") (setupWebSocket w))
     = on_task_deleted task (store w)
  /\ (forall ev, ev <> "task_created" -> ev <> "task_updated" -> ev <> "task_deleted" ->
                 onmessage (frame ev) ready = ready)
  /\ store (onmessage None ready) = store w.
Proof.
  cbn zeta. split.
  { pose proof (created_listeners_after n w Hnone) as Hcreated.
    unfold onmessage. cbn [event data].
    destruct (listeners (service (Nat.iter n setupWebSocket w)) !! "task_created")
      as [callbacks|] eqn:Hl; cbn [from_option Datatypes.id] in Hcreated.
    - cbn [set_store store]. rewrite Hcreated, fold_created, setupWebSocket_store.
      reflexivity.
    - rewrite setupWebSocket_store. destruct n; [|discriminate Hcreated].
      cbn. rewrite app_nil_r. reflexivity. }
  split.
  { unfold onmessage. cbn [event data]. rewrite setupWebSocket_listeners.
    rewrite Hnone, lookup_empty. reflexivity. }
  split.
  { unfold onmessage. cbn [event data]. rewrite setupWebSocket_listeners.
    rewrite Hnone, lookup_empty. reflexivity. }
  split.
  { intros ev Hc Hu Hd. unfold onmessage. cbn [event data].
    pose proof (other_listeners_after n w ev Hnone Hc Hu Hd) as Hev.
    unfold Callback in *. rewrite Hev. reflexivity. }
  cbn [onmessage log store]. apply setupWebSocket_store.
Qed.

Lemma every_setup_adds_a_listener_witness :
  let task := Samples.task "7" "todo" "low" in
  tasks (store (onmessage (Some {| event := "task_created"; data := task |})
                          (setupWebSocket (setupWebSocket initial_world))))
  = [task; task].
Proof.
  cbn zeta.
  pose proof (every_setup_adds_a_listener 2 initial_world (Samples.task "7" "todo" "low")
                eq_refl) as (Hcreated & _).
  exact Hcreated.
Defined.

End WebSocketMoreFacts.

Section ViewMoreFacts.
Import Js TaskStore.

Lemma count_cons (p : Task -> bool) (t : Task) (l : list Task) :
  ProgressStats.count p (t :: l) = (if p t then 1 else 0) + ProgressStats.count p l.
Proof.
  unfold ProgressStats.count. cbn [List.filter].
  destruct (p t); cbn [length]; lia.
Qed.

Lemma english_status_indicator (s : string) :
  (if String.eqb s "done" then 1 else 0)
  + (if String.eqb s "in_progress" then 1 else 0)
  + (if String.eqb s "todo" then 1 else 0)
  + (if String.eqb s "cancelled" then 1 else 0)
  = if existsb (String.eqb s) ["done"; "in_progress"; "todo"; "cancelled"] then 1 else 0.
Proof.
  cbn [existsb].
  repeat match goal with
         | |- context [String.eqb s ?k] =>
             destruct (String.eqb_spec s k); [subst s; reflexivity|]
         end.
  reflexivity.
Qed.

Lemma english_priority_indicator (s : string) (b : bool) :
  (if String.eqb s "urgent" && b then 1 else 0)
  + (if String.eqb s "high" && b then 1 else 0)
  + (if String.eqb s "medium" && b then 1 else 0)
  + (if String.eqb s "low" && b then 1 else 0)
  = if existsb (String.eqb s) ["urgent"; "high"; "medium"; "low"] && b then 1 else 0.
Proof.
  cbn [existsb].
  repeat match goal with
         | |- context [String.eqb s ?k] =>
             destruct (String.eqb_spec s k); [subst s; destruct b; reflexivity|]
         end.
  reflexivity.
Qed.

(** The four status counters of the progress panel add up to the number
    of tasks whose stored status is one of [done], [in_progress], [todo],
    [cancelled]: a task stored as [pending] or under a Portuguese alias is
    in [total] and in none of them.  Likewise the four priority counters
    add up to the open tasks with an English priority. *)
Theorem progress_counters_cover_english_values_only (tasks : list Task) :
  ProgressStats.completed tasks + ProgressStats.inProgress tasks
  + ProgressStats.todo tasks + ProgressStats.cancelled tasks
  = ProgressStats.count
      (fun t => existsb (String.eqb (status t)) ["done"; "in_progress"; "todo"; "cancelled"])
      tasks
  /\ ProgressStats.completed tasks + ProgressStats.inProgress tasks
     + ProgressStats.todo tasks + ProgressStats.cancelled tasks
     <= ProgressStats.total tasks
  /\ ProgressStats.urgent tasks + ProgressStats.high tasks
     + ProgressStats.medium tasks + ProgressStats.low tasks
     = ProgressStats.count
         (fun t => existsb (String.eqb (priority t)) ["urgent"; "high"; "medium"; "low"]
                   && ProgressStats.open_task t)
         tasks.
Proof.
  unfold ProgressStats.completed, ProgressStats.inProgress, ProgressStats.todo,
    ProgressStats.cancelled, ProgressStats.urgent, ProgressStats.high,
    ProgressStats.medium, ProgressStats.low, ProgressStats.total.
  induction tasks as [|t tasks (IHs & IHle & IHp)].
  - unfold ProgressStats.count. cbn [List.filter length Z.of_nat]. lia.
  - rewrite !count_cons.
    pose proof (english_status_indicator (status t)) as Hs.
    pose proof (english_priority_indicator (priority t) (ProgressStats.open_task t)) as Hp.
    split; [lia|]. split; [|lia].
    cbn [length]. rewrite Nat2Z.inj_succ.
    destruct (existsb (String.eqb (status t)) ["done"; "in_progress"; "todo"; "cancelled"]);
      lia.
Qed.

Lemma firstn_plus {A : Type} (a b : nat) (l : list A) :
  firstn (a + b) l = (firstn a l ++ firstn b (skipn a l))%list.
Proof.
  revert l. induction a as [|a IH]; intros l; [reflexivity|].
  destruct l as [|x l]; [cbn; rewrite firstn_nil; reflexivity|].
  cbn. rewrite IH. reflexivity.
Qed.

Lemma chunks_concat {A : Type} (l : list A) (m : nat) :
  concat (List.map (fun i => firstn 8 (skipn (8 * i) l)) (seq 0 m)) = firstn (8 * m) l.
Proof.
  induction m as [|m IH]; [reflexivity|].
  rewrite seq_S, List.map_app, concat_app, IH. cbn [List.map concat Nat.add].
  rewrite app_nil_r. replace (8 * S m)%nat with (8 * m + 8)%nat by lia.
  symmetry. apply firstn_plus.
Qed.

Lemma page_chunk (l : list Task) (i : nat) :
  ListView.page (Z.of_nat (S i)) l = firstn 8 (skipn (8 * i) l).
Proof.
  unfold ListView.page, ListView.slice, ListView.itemsPerPage.
  replace (Z.of_nat (S i) - 1) with (Z.of_nat i) by lia.
  destruct (Z.ltb_spec (Z.of_nat i * 8) 0); [lia|].
  destruct (Z.ltb_spec (Z.of_nat (S i) * 8) 0); [lia|].
  destruct (Z.le_gt_cases (Z.of_nat (length l)) (Z.of_nat i * 8)) as [Hbeyond|Hinside].
  - rewrite !Z.min_r by lia.
    rewrite !(skipn_all2 l) by lia. rewrite !firstn_nil. reflexivity.
  - rewrite (Z.min_l (Z.of_nat i * 8)) by lia.
    replace (Z.to_nat (Z.of_nat i * 8)) with (8 * i)%nat by lia.
    destruct (Z.le_gt_cases (Z.of_nat (S i) * 8) (Z.of_nat (length l))) as [Hfull|Hlast].
    + rewrite Z.min_l by lia. f_equal. lia.
    + rewrite Z.min_r by lia.
      rewrite (firstn_all2 (n := 8)) by (rewrite length_skipn; lia).
      apply firstn_all2. rewrite length_skipn. lia.
Qed.

Lemma totalPages_bounds (l : list Task) :
  8 * (ListView.totalPages l - 1) < Z.of_nat (length l) <= 8 * ListView.totalPages l
  \/ (length l = 0%nat /\ ListView.totalPages l = 0).
Proof.
  unfold ListView.totalPages, ListView.itemsPerPage.
  pose proof (Z.div_mod (- Z.of_nat (length l)) 8 ltac:(lia)) as Hdiv.
  pose proof (Z.mod_pos_bound (- Z.of_nat (length l)) 8 ltac:(lia)) as Hmod.
  destruct (length l) as [|n]; [right; split; reflexivity|left; lia].
Qed.

(** The pages of the list view cut the filtered list into consecutive
    runs: put one after the other, pages 1 to [totalPages] give back the
    list; each of them holds between 1 and 8 tasks; a page beyond the last
    is empty.  From a page in range, the two pager buttons stay in range. *)
Theorem pages_partition_the_filtered_list (l : list Task) :
  let last := ListView.totalPages l in
  let pages := List.map (fun i => ListView.page (Z.of_nat (S i)) l)
                        (seq 0 (Z.to_nat last)) in
  concat pages = l
  /\ Forall (fun shown => (1 <= length shown <= 8)%nat) pages
  /\ (forall p, last < p -> ListView.page p l = [])
  /\ (forall p, 1 <= p <= last ->
                1 <= ListView.previousPage p <= last
                /\ 1 <= ListView.nextPage l p <= last
                /\ (p < last -> ListView.nextPage l p = p + 1)
                /\ (1 < p -> ListView.previousPage p = p - 1)).
Proof.
  cbn zeta. pose proof (totalPages_bounds l) as Hbounds.
  split.
  { rewrite (List.map_ext _ _ (page_chunk l)), chunks_concat.
    apply firstn_all2. lia. }
  split.
  { apply List.Forall_forall. intros shown Hshown.
    apply List.in_map_iff in Hshown as (i & <- & Hi). apply in_seq in Hi.
    rewrite page_chunk, length_firstn, length_skipn. lia. }
  split.
  { intros p Hp.
    replace p with (Z.of_nat (S (Z.to_nat (p - 1)))) by lia.
    rewrite page_chunk. rewrite skipn_all2 by lia. reflexivity. }
  intros p Hp. unfold ListView.previousPage, ListView.nextPage. lia.
Qed.

End ViewMoreFacts.

Section BoardFacts.
Import Js TaskStore.

Ltac cases_on s :=
  repeat match goal with
         | |- context [String.eqb s ?k] =>
             destruct (String.eqb_spec s k);
             [ try congruence; subst s; vm_compute; try reflexivity; try discriminate | ]
         end.

(** No string is in two status classes. *)
Lemma status_classes_disjoint (s : string) :
  isStatusTodo (Prim s) && isStatusInProgress (Prim s) = false
  /\ isStatusTodo (Prim s) && isStatusDone (Prim s) = false
  /\ isStatusInProgress (Prim s) && isStatusDone (Prim s) = false
  /\ isStatusCancelled (Prim s) && isStatusTodo (Prim s) = false
  /\ isStatusCancelled (Prim s) && isStatusInProgress (Prim s) = false
  /\ isStatusCancelled (Prim s) && isStatusDone (Prim s) = false.
Proof.
  unfold isStatusTodo, isStatusInProgress, isStatusDone, isStatusCancelled, strict_eq.
  repeat split; cases_on s; reflexivity.
Qed.

(** The three columns of the board are runs of the task list that share
    no task: a task is in at most one column; a cancelled task, and a task
    whose status belongs to no class, is in none. *)
Theorem kanban_columns_are_disjoint (tasks : list Task) (t : Task) :
  let c := KanbanView.columns_of tasks in
  sublist (KanbanView.todo c) tasks
  /\ sublist (KanbanView.in_progress c) tasks
  /\ sublist (KanbanView.done c) tasks
  /\ ~ (In t (KanbanView.todo c) /\ In t (KanbanView.in_progress c))
  /\ ~ (In t (KanbanView.todo c) /\ In t (KanbanView.done c))
  /\ ~ (In t (KanbanView.in_progress c) /\ In t (KanbanView.done c))
  /\ (isStatusCancelled (Prim (status t)) = true
      \/ (isStatusTodo (Prim (status t)) = false
          /\ isStatusInProgress (Prim (status t)) = false
          /\ isStatusDone (Prim (status t)) = false) ->
      ~ In t (KanbanView.todo c) /\ ~ In t (KanbanView.in_progress c)
      /\ ~ In t (KanbanView.done c))
  /\ (length (KanbanView.todo c) + length (KanbanView.in_progress c)
      + length (KanbanView.done c) <= length tasks)%nat.
Proof.
  cbn zeta. unfold KanbanView.columns_of.
  cbn [KanbanView.todo KanbanView.in_progress KanbanView.done].
  pose proof (status_classes_disjoint (status t)) as (Hti & Htd & Hid & Hct & Hci & Hcd).
  split; [apply filter_sublist|]. split; [apply filter_sublist|].
  split; [apply filter_sublist|].
  rewrite !List.filter_In.
  split; [intros [[_ H1] [_ H2]]; rewrite H1, H2 in Hti; discriminate|].
  split; [intros [[_ H1] [_ H2]]; rewrite H1, H2 in Htd; discriminate|].
  split; [intros [[_ H1] [_ H2]]; rewrite H1, H2 in Hid; discriminate|].
  split.
  { intros [Hc|(H1 & H2 & H3)].
    - rewrite Hc in *. cbn in Hct, Hci, Hcd.
      repeat split; intros [_ H]; congruence.
    - repeat split; intros [_ H]; congruence. }
  induction tasks as [|x tasks IH]; [cbn; lia|].
  cbn [List.filter length].
  pose proof (status_classes_disjoint (status x)) as (Gti & Gtd & Gid & _).
  destruct (isStatusTodo (Prim (status x))), (isStatusInProgress (Prim (status x))),
    (isStatusDone (Prim (status x))); try discriminate; cbn [length]; lia.
Qed.

Lemma kanban_columns_are_disjoint_witness :
  let cancelled := Samples.task "3" "cancelada" "low" in
  let c := KanbanView.columns_of
             [Samples.task "1" "a_fazer" "low"; Samples.task "2" "done" "low"; cancelled] in
  ~ In cancelled (KanbanView.todo c) /\ ~ In cancelled (KanbanView.in_progress c)
  /\ ~ In cancelled (KanbanView.done c).
Proof.
  cbn zeta.
  pose proof (kanban_columns_are_disjoint
                [Samples.task "1" "a_fazer" "low"; Samples.task "2" "done" "low";
                 Samples.task "3" "cancelada" "low"]
                (Samples.task "3" "cancelada" "low"))
    as (_ & _ & _ & _ & _ & _ & Hnone & _).
  apply Hnone. left. reflexivity.
Defined.

Lemma newStatus_is_a_column (columns : KanbanView.Columns) (overId target : string) :
  KanbanView.newStatus columns overId = Some target ->
  In target ["todo"; "in_progress"; "done"].
Proof.
  unfold KanbanView.newStatus.
  destruct (String.eqb_spec overId "todo") as [->|_];
    [intros [= <-]; left; reflexivity|].
  destruct (String.eqb_spec overId "in_progress") as [->|_];
    [intros [= <-]; right; left; reflexivity|].
  destruct (String.eqb_spec overId "done") as [->|_];
    [intros [= <-]; right; right; left; reflexivity|].
  cbn [orb KanbanView.entries List.find snd].
  repeat match goal with
         | |- context [if existsb ?p ?l then _ else _] => destruct (existsb p l)
         end; cbn; intros [= <-]; auto.
Qed.

(** The status that the end of a drag sends to the server is always one of
    [todo], [in_progress], [done], for the task that was dragged, which is
    in the list and whose stored status is another string.  No update is
    sent for a drop outside every column and card, nor for a task that is
    not in the list. *)
Theorem kanban_drop_sends_a_column_key
    (tasks : list Task) (columns : KanbanView.Columns)
    (activeId : string) (over : option string) (taskId target : string)
    (Hsent : KanbanView.handleDragEnd tasks columns activeId over = Some (taskId, target)) :
  taskId = activeId
  /\ In target ["todo"; "in_progress"; "done"]
  /\ (exists overId, over = Some overId)
  /\ exists t, In t tasks /\ id t = activeId /\ status t <> target.
Proof.
  unfold KanbanView.handleDragEnd in Hsent.
  destruct over as [overId|]; [|discriminate Hsent].
  destruct (KanbanView.newStatus columns overId) as [st|] eqn:Hnew; [|discriminate Hsent].
  destruct (truthy_string st); [|discriminate Hsent].
  destruct (List.find _ tasks) as [current|] eqn:Hfind; [|discriminate Hsent].
  destruct (String.eqb_spec (status current) st) as [|Hne]; [discriminate Hsent|].
  injection Hsent as <- <-.
  apply List.find_some in Hfind as [Hin Hid]. apply String.eqb_eq in Hid.
  split; [reflexivity|]. split; [exact (newStatus_is_a_column _ _ _ Hnew)|].
  split; [eexists; reflexivity|]. exists current. auto.
Qed.

Lemma kanban_drop_sends_a_column_key_witness :
  let tasks := [Samples.task "1" "a_fazer" "low"; Samples.task "2" "concluida" "low"] in
  KanbanView.handleDragEnd tasks (KanbanView.columns_of tasks) "1" (Some "2")
  = Some ("1", "done")
  /\ In "done" ["todo"; "in_progress"; "done"].
Proof.
  cbn zeta.
  assert (Hsent : KanbanView.handleDragEnd
                    [Samples.task "1" "a_fazer" "low"; Samples.task "2" "concluida" "low"]
                    (KanbanView.columns_of
                       [Samples.task "1" "a_fazer" "low";
                        Samples.task "2" "concluida" "low"])
                    "1" (Some "2") = Some ("1", "done")) by (vm_compute; reflexivity).
  split; [exact Hsent|].
  exact (proj1 (proj2 (kanban_drop_sends_a_column_key _ _ _ _ _ _ Hsent))).
Defined.

(** The card shows one badge per class: two aliases of a status get the
    same status badge, two aliases of a priority the same priority badge;
    a string outside every class is shown as it is stored. *)
Theorem task_card_badges_follow_the_class
    (c : Aliases.LogicalStatus) (s1 s2 : string)
    (p : Aliases.LogicalPriority) (q1 q2 : string)
    (Hs1 : In s1 (Aliases.status_aliases c)) (Hs2 : In s2 (Aliases.status_aliases c))
    (Hq1 : In q1 (Aliases.priority_aliases p)) (Hq2 : In q2 (Aliases.priority_aliases p)) :
  TaskCard.getStatusConfig s1 = TaskCard.getStatusConfig s2
  /\ TaskCard.getPriorityConfig q1 = TaskCard.getPriorityConfig q2
  /\ (forall other, (forall c', ~ In other (Aliases.status_aliases c')) ->
                    TaskCard.label (TaskCard.getStatusConfig other) = other)
  /\ (forall other, (forall p', ~ In other (Aliases.priority_aliases p')) ->
                    TaskCard.label (TaskCard.getPriorityConfig other) = other).
Proof.
  split.
  { destruct c; cbn in Hs1, Hs2; intuition (subst; reflexivity). }
  split.
  { destruct p; cbn in Hq1, Hq2; intuition (subst; reflexivity). }
  split.
  - intros other Hother.
    unfold TaskCard.getStatusConfig, isStatusTodo, isStatusInProgress, isStatusDone,
      isStatusCancelled, strict_eq.
    repeat match goal with
           | |- context [String.eqb other ?k] =>
               destruct (String.eqb_spec other k);
               [ exfalso; subst other;
                 first [ apply (Hother Aliases.Todo); cbn; tauto
                       | apply (Hother Aliases.InProgress); cbn; tauto
                       | apply (Hother Aliases.Done); cbn; tauto
                       | apply (Hother Aliases.Cancelled); cbn; tauto ] | ]
           end.
    reflexivity.
  - intros other Hother.
    unfold TaskCard.getPriorityConfig, isPriorityLow, isPriorityMedium, isPriorityHigh,
      isPriorityUrgent, strict_eq.
    repeat match goal with
           | |- context [String.eqb other ?k] =>
               destruct (String.eqb_spec other k);
               [ exfalso; subst other;
                 first [ apply (Hother Aliases.Low); cbn; tauto
                       | apply (Hother Aliases.Medium); cbn; tauto
                       | apply (Hother Aliases.High); cbn; tauto
                       | apply (Hother Aliases.Urgent); cbn; tauto ] | ]
           end.
    reflexivity.
Qed.

Lemma task_card_badges_follow_the_class_witness :
  TaskCard.getStatusConfig "todo" = TaskCard.getStatusConfig "pending"
  /\ TaskCard.getPriorityConfig "high" = TaskCard.getPriorityConfig "alta"
  /\ TaskCard.label (TaskCard.getStatusConfig "archived") = "archived".
Proof.
  pose proof (task_card_badges_follow_the_class
                Aliases.Todo "todo" "pending" Aliases.High "high" "alta"
                ltac:(cbn; tauto) ltac:(cbn; tauto) ltac:(cbn; tauto) ltac:(cbn; tauto))
    as (Hstatus & Hpriority & Hother & _).
  split; [exact Hstatus|]. split; [exact Hpriority|].
  apply Hother. intros c'. destruct c'; cbn; intuition discriminate.
Defined.

Lemma ListView_counts_alias_invariant_witness :
  ListView.doneCount [Samples.task "1" "done" "low"; Samples.task "2" "a_fazer" "low"]
  = ListView.doneCount [Samples.task "1" "concluida" "low"; Samples.task "2" "todo" "low"].
Proof.
  apply (ListView_counts_alias_invariant
           [Samples.task "1" "done" "low"; Samples.task "2" "a_fazer" "low"]
           [Samples.task "1" "concluida" "low"; Samples.task "2" "todo" "low"]).
  repeat constructor.
  - exists Aliases.Done. cbn. tauto.
  - exists Aliases.Todo. cbn. tauto.
Defined.

End BoardFacts.

Section FocusFacts.
Import Js TaskStore FocusMode.

Lemma ticks_running (n : nat) (md : Mode) :
  forall m s, 0 <= m -> 0 <= s <= 59 -> Z.of_nat n <= 60 * m + s ->
    ticks n {| pomodoroMinutes := m; pomodoroSeconds := s;
               isPomodoroRunning := true; pomodoroMode := md |}
    = {| pomodoroMinutes := (60 * m + s - Z.of_nat n) / 60;
         pomodoroSeconds := (60 * m + s - Z.of_nat n) mod 60;
         isPomodoroRunning := true; pomodoroMode := md |}.
Proof.
  induction n as [|n IH]; intros m s Hm Hs Hn.
  - cbn [ticks]. rewrite Z.sub_0_r.
    replace (60 * m + s) with (s + m * 60) by lia.
    rewrite Z.div_add, Z.mod_add by lia.
    rewrite Z.div_small, Z.mod_small by lia. f_equal; lia.
  - cbn [ticks]. unfold tick.
    cbn [isPomodoroRunning pomodoroSeconds pomodoroMinutes pomodoroMode].
    destruct (Z.eqb_spec s 0) as [->|Hs0].
    + destruct (Z.eqb_spec m 0) as [->|Hm0]; [lia|].
      cbn [fst]. rewrite IH by lia. f_equal; f_equal; lia.
    + cbn [fst]. rewrite IH by lia. f_equal; f_equal; lia.
Qed.

(** A running timer that shows [m] minutes and [s] seconds reaches 0:00
    after exactly [60 m + s] ticks, still running and silent all the way.
    The next tick plays the sound, stops the timer and switches between
    work and break, with 5 minutes for a break and 25 for work.  A timer
    that is not running does not move. *)
Theorem pomodoro_counts_down_then_switches
    (m s : Z) (md : Mode) (Hm : 0 <= m) (Hs : 0 <= s <= 59) :
  let start := {| pomodoroMinutes := m; pomodoroSeconds := s;
                  isPomodoroRunning := true; pomodoroMode := md |} in
  let zero := {| pomodoroMinutes := 0; pomodoroSeconds := 0;
                 isPomodoroRunning := true; pomodoroMode := md |} in
  ticks (Z.to_nat (60 * m + s)) start = zero
  /\ (forall k, (k < Z.to_nat (60 * m + s))%nat ->
                snd (tick (ticks k start)) = false
                /\ isPomodoroRunning (ticks k start) = true)
  /\ tick zero
     = ({| pomodoroMinutes := match md with work => 5 | rest => 25 end;
           pomodoroSeconds := 0; isPomodoroRunning := false;
           pomodoroMode := match md with work => rest | rest => work end |}, true)
  /\ (forall p, isPomodoroRunning p = false -> tick p = (p, false)).
Proof.
  cbn zeta. split.
  { rewrite ticks_running by lia. rewrite Z2Nat.id by lia. rewrite Z.sub_diag.
    reflexivity. }
  split.
  { intros k Hk. rewrite ticks_running by lia.
    set (left := 60 * m + s - Z.of_nat k).
    assert (Hleft : 0 < left) by (unfold left; lia).
    pose proof (Z.div_mod left 60 ltac:(lia)) as Hdiv.
    pose proof (Z.mod_pos_bound left 60 ltac:(lia)) as Hmod.
    split; [|reflexivity].
    unfold tick. cbn [isPomodoroRunning pomodoroSeconds pomodoroMinutes].
    destruct (Z.eqb_spec (left mod 60) 0) as [H0|_]; [|reflexivity].
    destruct (Z.eqb_spec (left / 60) 0) as [H1|_]; [lia|reflexivity]. }
  split; [reflexivity|].
  intros p Hp. unfold tick. rewrite Hp. reflexivity.
Qed.

Lemma pomodoro_counts_down_then_switches_witness :
  ticks 1500 {| pomodoroMinutes := 25; pomodoroSeconds := 0;
                isPomodoroRunning := true; pomodoroMode := work |}
  = {| pomodoroMinutes := 0; pomodoroSeconds := 0;
       isPomodoroRunning := true; pomodoroMode := work |}.
Proof.
  exact (proj1 (pomodoro_counts_down_then_switches 25 0 work ltac:(lia) ltac:(lia))).
Defined.

Lemma focus_after_completion (cid : string) (updated : Task) (l : list Task) :
  id updated = cid -> status updated = "done" ->
  focusTasks (List.map (fun t => if String.eqb (id t) cid then updated else t) l)
  = List.filter (fun t => negb (String.eqb (id t) cid)) (focusTasks l).
Proof.
  intros Hid Hdone. unfold focusTasks.
  induction l as [|t l IH]; [reflexivity|].
  cbn [List.map List.filter].
  destruct (String.eqb_spec (id t) cid) as [Heq|Hne].
  - rewrite Hdone. cbn [String.eqb negb andb].
    replace (String.eqb "done" "done") with true by reflexivity. cbn [negb andb].
    rewrite IH.
    destruct (negb (String.eqb (status t) "done")
              && negb (String.eqb (status t) "cancelled")); [|reflexivity].
    cbn [List.filter]. rewrite Heq, String.eqb_refl. reflexivity.
  - rewrite IH.
    destruct (negb (String.eqb (status t) "done")
              && negb (String.eqb (status t) "cancelled")); [|reflexivity].
    cbn [List.filter].
    destruct (String.eqb_spec (id t) cid); [contradiction|reflexivity].
Qed.

Lemma filter_out_unique_id (l : list Task) (i : nat) (current : Task) :
  NoDup (List.map id l) -> l !! i = Some current ->
  List.filter (fun t => negb (String.eqb (id t) (id current))) l = delete i l.
Proof.
  revert i. induction l as [|t l IH]; intros i Hnodup Hi; [discriminate Hi|].
  apply NoDup_cons in Hnodup as [Hfresh Hnodup]. cbn [List.filter].
  destruct i as [|i].
  - injection Hi as ->. rewrite String.eqb_refl. cbn [negb delete].
    apply filter_other_ids_absent. intros t Ht Heq. apply Hfresh.
    rewrite <- Heq. apply list_elem_of_In, List.in_map, Ht.
  - cbn in Hi.
    destruct (String.eqb_spec (id t) (id current)) as [Heq|_].
    + exfalso. apply Hfresh. rewrite Heq. apply list_elem_of_In, List.in_map.
      apply list_elem_of_In. eapply list_elem_of_lookup_2. exact Hi.
    + cbn [negb]. change (delete (S i) (t :: l)) with (t :: delete i l).
      f_equal. apply IH; assumption.
Qed.

(** Completing the task in focus when the server answers with status
    [done]: the task leaves the focus list, which moves every later task
    one place up, and the handler still advances the index it was created
    with.  The task shown next is therefore the one that was two places
    further, and the one in between is passed over. *)
Theorem completing_a_task_skips_the_next
    (st : TaskState) (i : nat) (current updated : Task)
    (Hunique : NoDup (List.map id (focusTasks (tasks st))))
    (Hcurrent : focusTasks (tasks st) !! i = Some current)
    (Hnotlast : (S i < length (focusTasks (tasks st)))%nat)
    (Hid : id updated = id current) (Hdone : status updated = "done") :
  let result := handleCompleteTask st (Z.of_nat i) (Resolved updated) in
  let st' := fst (fst result) in
  let index' := snd (fst result) in
  index' = Z.of_nat i + 1
  /\ focusTasks (tasks st') = delete i (focusTasks (tasks st))
  /\ focusTasks (tasks st') !! i = focusTasks (tasks st) !! S i
  /\ currentTask (tasks st') index' = focusTasks (tasks st) !! S (S i).
Proof.
  cbn zeta. unfold handleCompleteTask, currentTask.
  destruct (Z.ltb_spec (Z.of_nat i) 0); [lia|].
  rewrite Nat2Z.id, Hcurrent.
  cbn [updateTask updateTask_settled set_loading set_tasks_loaded fst snd tasks].
  assert (Hfocus : focusTasks
                     (List.map (fun task => if String.eqb (id task) (id current)
                                            then updated else task) (tasks st))
                   = delete i (focusTasks (tasks st))).
  { rewrite (focus_after_completion (id current) updated) by assumption.
    apply filter_out_unique_id; assumption. }
  assert (Hnext : handleNextTask (tasks st) (Z.of_nat i) = Z.of_nat i + 1).
  { unfold handleNextTask.
    destruct (Z.ltb_spec (Z.of_nat i) (Z.of_nat (length (focusTasks (tasks st))) - 1));
      [reflexivity|lia]. }
  rewrite Hnext, Hfocus.
  split; [reflexivity|]. split; [reflexivity|].
  split; [apply list_lookup_delete_ge; lia|].
  destruct (Z.ltb_spec (Z.of_nat i + 1) 0); [lia|].
  replace (Z.to_nat (Z.of_nat i + 1)) with (S i) by lia.
  apply list_lookup_delete_ge. lia.
Qed.

Lemma completing_a_task_skips_the_next_witness :
  let a := Samples.task "1" "todo" "low" in
  let b := Samples.task "2" "todo" "low" in
  let c := Samples.task "3" "todo" "low" in
  let st := {| tasks := [a; b; c]; total := 3; isLoading := false; error := None |} in
  let result := handleCompleteTask st 0 (Resolved (Samples.task "1" "done" "low")) in
  currentTask (tasks (fst (fst result))) (snd (fst result)) = Some c.
Proof.
  cbn zeta.
  pose proof (completing_a_task_skips_the_next
                {| tasks := [Samples.task "1" "todo" "low"; Samples.task "2" "todo" "low";
                             Samples.task "3" "todo" "low"];
                   total := 3; isLoading := false; error := None |}
                0%nat (Samples.task "1" "todo" "low") (Samples.task "1" "done" "low")
                ltac:(apply (bool_decide_unpack _); vm_compute; reflexivity)
                eq_refl ltac:(cbn; lia) eq_refl eq_refl)
    as (_ & _ & _ & Hshown).
  exact Hshown.
Defined.

End FocusFacts.

Section AuthFacts.
Import Js TaskStore Http.

(** [checkAuth] makes no request without a stored access token.  With
    one, a failed call (for any reason, a failed refresh included) ends
    with both tokens removed and the user signed out; a successful call
    signs the user in and connects the socket with the token that was read
    before the call, also when the refresh flow has replaced it since. *)
Theorem checkAuth_outcomes (replies : list Reply) (b : Browser) (st : AuthStore.AuthState) :
  let result := AuthStore.checkAuth replies b st in
  let st' := fst (fst result) in
  let b' := snd (fst result) in
  let connected := snd result in
  (getItem_truthy b "access_token" = None ->
     b' = b /\ connected = None
     /\ AuthStore.isAuthenticated st' = false /\ AuthStore.user st' = None)
  /\ (forall token e,
        getItem_truthy b "access_token" = Some token ->
        fst (ApiService.api replies b ApiService.me_config) = Failed e ->
        AuthStore.isAuthenticated st' = false /\ AuthStore.user st' = None
        /\ connected = None
        /\ localStorage b' !! "access_token" = None
        /\ localStorage b' !! "refresh_token" = None)
  /\ (forall token data,
        getItem_truthy b "access_token" = Some token ->
        fst (ApiService.api replies b ApiService.me_config) = Fulfilled data ->
        AuthStore.isAuthenticated st' = true
        /\ AuthStore.user st' = Some (body data)
        /\ connected = Some token
        /\ b' = snd (ApiService.api replies b ApiService.me_config)).
Proof.
  cbn zeta. unfold AuthStore.checkAuth.
  destruct (getItem_truthy b "access_token") as [token|].
  - destruct (ApiService.api replies b ApiService.me_config) as [[data|e|] b1];
      cbn [fst snd AuthStore.isAuthenticated AuthStore.user].
    + split; [discriminate|]. split; [discriminate|].
      intros ? ? [= <-] [= <-]; repeat split.
    + split; [discriminate|].
      split; [|discriminate].
      intros ? ? _ _. split; [reflexivity|]. split; [reflexivity|].
      split; [reflexivity|].
      cbn [ApiService.logout removeItem localStorage]. split.
      * rewrite lookup_delete_ne by discriminate. apply lookup_delete_eq.
      * apply lookup_delete_eq.
    + split; [discriminate|]. split; discriminate.
  - cbn [fst snd AuthStore.isAuthenticated AuthStore.user].
    split; [intros _; repeat split|].
    split; discriminate.
Qed.

Lemma checkAuth_outcomes_witness :
  let b := {| localStorage := {[ "access_token" := "a0"; "refresh_token" := "r0" ]};
              location := "/"; sent := [] |} in
  let fresh := {| access_token := Some "a1"; refresh_token := Some "r1"; body := "" |} in
  let me := {| access_token := None; refresh_token := None; body := "{user}" |} in
  let result := AuthStore.checkAuth [ReplyStatus 401 None; Reply2xx fresh; Reply2xx me]
                                    b AuthStore.initial in
  snd result = Some "a0"
  /\ localStorage (snd (fst result)) !! "access_token" = Some "a1".
Proof.
  cbn zeta.
  pose proof (checkAuth_outcomes
                [ReplyStatus 401 None;
                 Reply2xx {| access_token := Some "a1"; refresh_token := Some "r1";
                             body := "" |};
                 Reply2xx {| access_token := None; refresh_token := None;
                             body := "{user}" |}]
                {| localStorage := {[ "access_token" := "a0"; "refresh_token" := "r0" ]};
                   location := "/"; sent := [] |}
                AuthStore.initial) as (_ & _ & Hok).
  destruct (Hok "a0" {| access_token := None; refresh_token := None; body := "{user}" |})
    as (_ & _ & Hconnected & Hbrowser);
    [vm_compute; reflexivity | vm_compute; reflexivity |].
  split; [exact Hconnected|].
  rewrite Hbrowser. vm_compute. reflexivity.
Defined.

Lemma truthy_not_empty (s : string) : truthy_string s = true -> s <> "".
Proof. unfold truthy_string. destruct (String.eqb_spec s ""); [discriminate|auto]. Qed.

(** The error texts of the login form and of the chat are never empty.
    The login form ignores the detail of the server for the statuses 401,
    422 and 429; the chat shows the detail of the server whenever there is
    one, whatever the status, so that its text for the status 400 only
    appears without a detail. *)
Theorem error_texts_are_never_empty (e : ApiError) :
  AuthStore.login_errorMessage e <> ""
  /\ ChatAssistant.sendMessage_errorText e <> ""
  /\ (response_status e = Some 401 ->
      AuthStore.login_errorMessage e
      = "Email ou senha incorretos. Verifique suas credenciais.")
  /\ (response_status e = Some 422 ->
      AuthStore.login_errorMessage e
      = "Dados inválidos. Verifique o formato do email e senha.")
  /\ (response_status e = Some 429 ->
      AuthStore.login_errorMessage e
      = "Muitas tentativas de login. Aguarde alguns minutos.")
  /\ (forall d, response_detail e = Some d -> d <> "" ->
                ChatAssistant.sendMessage_errorText e = d)
  /\ (response_status e = Some 400 ->
      ChatAssistant.sendMessage_errorText e
      = "Requisição inválida. Verifique suas configurações."
      \/ Some (ChatAssistant.sendMessage_errorText e) = response_detail e).
Proof.
  split.
  { unfold AuthStore.login_errorMessage.
    repeat case_bool_decide; try discriminate.
    destruct (truthy_string (default "" (response_detail e))) eqn:Hd;
      [apply truthy_not_empty; exact Hd|].
    destruct (String.eqb (message e) "Network Error"); discriminate. }
  split.
  { unfold ChatAssistant.sendMessage_errorText.
    destruct (truthy_string (default "" (response_detail e))) eqn:Hd;
      [apply truthy_not_empty; exact Hd|].
    repeat case_bool_decide; try discriminate.
    - unfold or_string. destruct (response_detail e) as [d|]; [|discriminate].
      cbn in Hd. rewrite Hd. discriminate.
    - destruct (truthy_string (message e)); [|discriminate].
      cbv [append]. discriminate. }
  split.
  { intros H. unfold AuthStore.login_errorMessage.
    rewrite bool_decide_eq_true_2 by exact H. reflexivity. }
  split.
  { intros H. unfold AuthStore.login_errorMessage.
    rewrite (bool_decide_eq_false_2 (response_status e = Some 401))
      by (rewrite H; discriminate).
    rewrite bool_decide_eq_true_2 by exact H. reflexivity. }
  split.
  { intros H. unfold AuthStore.login_errorMessage.
    rewrite (bool_decide_eq_false_2 (response_status e = Some 401))
      by (rewrite H; discriminate).
    rewrite (bool_decide_eq_false_2 (response_status e = Some 422))
      by (rewrite H; discriminate).
    rewrite bool_decide_eq_true_2 by exact H. reflexivity. }
  split.
  { intros d Hd Hne. unfold ChatAssistant.sendMessage_errorText. rewrite Hd.
    cbn [default from_option Datatypes.id]. unfold truthy_string.
    destruct (String.eqb_spec d ""); [contradiction|reflexivity]. }
  intros H. unfold ChatAssistant.sendMessage_errorText.
  destruct (truthy_string (default "" (response_detail e))) eqn:Hd.
  - right. destruct (response_detail e) as [d|]; [reflexivity|discriminate Hd].
  - left. rewrite (bool_decide_eq_false_2 (response_status e = Some 401))
      by (rewrite H; discriminate).
    rewrite bool_decide_eq_true_2 by exact H.
    unfold or_string. destruct (response_detail e) as [d|]; [|reflexivity].
    cbn in Hd. rewrite Hd. reflexivity.
Qed.

Lemma error_texts_are_never_empty_witness :
  let e := {| response_status := Some 429; response_detail := Some "Rate limit exceeded";
              message := "Request failed with status code 429" |} in
  AuthStore.login_errorMessage e = "Muitas tentativas de login. Aguarde alguns minutos."
  /\ ChatAssistant.sendMessage_errorText e = "Rate limit exceeded".
Proof.
  cbn zeta.
  pose proof (error_texts_are_never_empty
                {| response_status := Some 429; response_detail := Some "Rate limit exceeded";
                   message := "Request failed with status code 429" |})
    as (_ & _ & _ & _ & Hlogin & Hchat & _).
  split; [apply Hlogin; reflexivity|].
  apply Hchat; [reflexivity|discriminate].
Defined.

End AuthFacts.

Section ChatMoreFacts.
Import Js TaskStore ChatAssistant.

(** Every chat action other than [cancel] makes exactly one call, with the
    action of the button and the [task_id] of its data, and the tasks of
    the server are whatever that call leaves.  Whether the call resolves
    or is rejected, exactly one assistant message is added and [loading]
    ends false; the [tasksUpdated] event is dispatched exactly when the
    call resolves. *)
Theorem executeAction_calls_once_and_always_answers
    (endpoint : Endpoint) (now : string) (button : ActionButton) (w : World)
    (Hother : action button <> "cancel") :
  let request := {| request_action := action button;
                    task_id := data button ≫= (fun d => d !! "task_id");
                    task_data := data button |} in
  let w' := executeAction endpoint now button w in
  calls w' = (calls w ++ [request])%list
  /\ server_tasks w' = snd (endpoint request (server_tasks w))
  /\ loading w' = false
  /\ (exists m, messages w' = (messages w ++ [m])%list /\ role m = assistant
                /\ timestamp m = now)
  /\ (forall r, fst (endpoint request (server_tasks w)) = Resolved r ->
                dispatched w' = (dispatched w ++ ["tasksUpdated"])%list
                /\ content <$> last (messages w') = Some (response_message r))
  /\ (forall e, fst (endpoint request (server_tasks w)) = Rejected e ->
                dispatched w' = dispatched w).
Proof.
  cbn zeta. unfold executeAction.
  destruct (String.eqb_spec (action button) "cancel") as [|_]; [contradiction|].
  unfold executeChatAction. cbn [setLoading server_tasks].
  destruct (endpoint _ (server_tasks w)) as [[r|e] stored]; cbn.
  - split; [reflexivity|]. split; [reflexivity|]. split; [reflexivity|].
    split; [eexists; split; [reflexivity|split; reflexivity]|].
    split; [|intros ? [=]].
    intros ? [= <-]. split; [reflexivity|]. rewrite last_snoc. reflexivity.
  - split; [reflexivity|]. split; [reflexivity|]. split; [reflexivity|].
    split; [eexists; split; [reflexivity|split; reflexivity]|].
    split; [intros ? [=]|]. intros ? _. reflexivity.
Qed.

Lemma executeAction_calls_once_and_always_answers_witness :
  let w := {| messages := []; loading := false; dispatched := []; calls := [];
              server_tasks := [Samples.task "1" "todo" "medium"] |} in
  let button := {| label := "Excluir"; action := "delete";
                   data := Some {[ "task_id" := "1" ]} |} in
  let w' := executeAction Samples.destructive_endpoint "2024-05-02T09:00:00Z" button w in
  task_id <$> calls w' = [Some "1"] /\ loading w' = false.
Proof.
  cbn zeta.
  pose proof (executeAction_calls_once_and_always_answers
                Samples.destructive_endpoint "2024-05-02T09:00:00Z"
                {| label := "Excluir"; action := "delete";
                   data := Some {[ "task_id" := "1" ]} |}
                {| messages := []; loading := false; dispatched := []; calls := [];
                   server_tasks := [Samples.task "1" "todo" "medium"] |}
                ltac:(discriminate)) as (Hcalls & _ & Hloading & _).
  split; [rewrite Hcalls; vm_compute; reflexivity|exact Hloading].
Defined.

End ChatMoreFacts.

Section SelectionFacts.
Import Js TaskStore SubtaskSuggestionsModal.

Lemma start_requests_in_range (taskId : string) (suggested : list SubtaskSuggestion)
    (selected : list nat) :
  (forall i, In i selected -> (i < length suggested)%nat) ->
  snd (start_requests taskId suggested selected) = true
  /\ length (fst (start_requests taskId suggested selected)) = length selected
  /\ Forall (fun r => parent r = taskId /\ body_status r = "todo"
                      /\ body_priority r = "medium"
                      /\ exists subtask, In subtask suggested
                                         /\ body_title r = suggestion_title subtask)
            (fst (start_requests taskId suggested selected)).
Proof.
  induction selected as [|i selected IH]; intros Hrange.
  - repeat split. constructor.
  - cbn [start_requests].
    destruct (suggested !! i) as [subtask|] eqn:Hi.
    + destruct IH as (Hfinished & Hlength & Hall);
        [intros j Hj; apply Hrange; right; exact Hj|].
      destruct (start_requests taskId suggested selected) as [started finished].
      cbn [fst snd length] in *. split; [exact Hfinished|]. split; [lia|].
      constructor; [|exact Hall]. cbn. repeat split.
      exists subtask. split; [|reflexivity].
      apply list_elem_of_In. eapply list_elem_of_lookup_2. exact Hi.
    + exfalso. apply lookup_ge_None in Hi.
      pose proof (Hrange i ltac:(left; reflexivity)). lia.
Qed.



(** Creating the selected subtasks: with nothing selected the modal closes
    without a call.  Otherwise one call is started per selected index, each
    for a listed suggestion, under the given task, with status [todo] and
    priority [medium]; when all succeed the parent is told and the modal
    closes; when one fails the modal stays open with the error text.  The
    creating flag ends false either way. *)
Theorem handleCreateSubtasks_one_call_per_selection
    (taskId : string) (created : settled unit ApiError) (st : State)
    (Hst : well_selected st) :
  let result := handleCreateSubtasks taskId created st in
  let st' := fst (fst result) in
  let started := snd (fst result) in
  let called := snd result in
  (selectedSubtasks st = [] -> result = (st, [], [OnClose]))
  /\ length started = length (selectedSubtasks st)
  /\ Forall (fun r => parent r = taskId /\ body_status r = "todo"
                      /\ body_priority r = "medium"
                      /\ exists subtask, In subtask (suggestions st)
                                         /\ body_title r = suggestion_title subtask)
            started
  /\ (selectedSubtasks st <> [] ->
      isCreating st' = false
      /\ ((exists u, created = Resolved u) ->
          called = [OnSubtasksCreated; OnClose] /\ error st' = error st)
      /\ ((exists e, created = Rejected e) ->
          called = [] /\ error st' = Some create_failed)).
Proof.
  cbn zeta. unfold handleCreateSubtasks. destruct Hst as [_ Hrange].
  destruct (selectedSubtasks st) as [|i selected] eqn:Hsel.
  - cbn. split; [reflexivity|]. split; [reflexivity|]. split; [constructor|].
    intros H. contradiction H. reflexivity.
  - cbn [length Nat.eqb].
    pose proof (start_requests_in_range taskId (suggestions st) (i :: selected) Hrange)
      as (Hfinished & Hlength & Hall).
    destruct (start_requests taskId (suggestions st) (i :: selected))
      as [started finished].
    cbn [fst snd] in *. subst finished.
    split; [discriminate|]. split; [exact Hlength|]. split; [exact Hall|].
    intros _. split; [reflexivity|].
    split; intros [x ->]; cbn; split; reflexivity.
Qed.

Lemma handleCreateSubtasks_one_call_per_selection_witness :
  let one := {| suggestion_title := "Book room"; suggestion_description := "";
                suggestion_estimated_duration := 15 |} in
  let st := {| suggestions := [one; one]; selectedSubtasks := [1]%nat;
               isLoading := false; isCreating := false; error := None |} in
  length (snd (fst (handleCreateSubtasks "42" (Resolved tt) st))) = 1%nat.
Proof.
  cbn zeta.
  pose proof (handleCreateSubtasks_one_call_per_selection "42" (Resolved tt)
                {| suggestions := [ {| suggestion_title := "Book room";
                                       suggestion_description := "";
                                       suggestion_estimated_duration := 15 |};
                                    {| suggestion_title := "Book room";
                                       suggestion_description := "";
                                       suggestion_estimated_duration := 15 |} ];
                   selectedSubtasks := [1]%nat;
                   isLoading := false; isCreating := false; error := None |})
    as Hcreate.
  destruct Hcreate as (_ & Hlength & _).
  - split; cbn; [apply (bool_decide_unpack _); vm_compute; reflexivity|].
    intros j [<-|[]]; lia.
  - exact Hlength.
Defined.

End SelectionFacts.

Section AwaitFacts.
Import Js.


Lemma for_await_stops {A E : Type} (answer : nat -> settled unit E) (xs : list A) :
  forall k n e,
    (n < length xs)%nat ->
    answer (k + n)%nat = Rejected e ->
    (forall i, (i < n)%nat -> exists u, answer (k + i)%nat = Resolved u) ->
    Await.for_await answer k xs = (take (S n) xs, Some e).
Proof.
  induction xs as [|x xs IH]; intros k n e Hn Hrej Hbefore; cbn [length] in Hn; [lia|].
  cbn [Await.for_await]. destruct n as [|n].
  - rewrite Nat.add_0_r in Hrej. rewrite Hrej. reflexivity.
  - destruct (Hbefore 0%nat) as [u Hu]; [lia|].
    rewrite Nat.add_0_r in Hu. rewrite Hu.
    rewrite (IH (S k) n e); [reflexivity|lia| |].
    + rewrite <- Hrej. f_equal. lia.
    + intros i Hi. destruct (Hbefore (S i)) as [v Hv]; [lia|].
      exists v. rewrite <- Hv. f_equal. lia.
Qed.



End AwaitFacts.

Section CreateModalFacts.
Import Js TaskStore TaskCreateModal.

Lemma subtask_calls_are_calls (taskId : string)
    (subtasks : list SubtaskSuggestionsModal.SubtaskSuggestion) (effect : Effect) :
  In effect (List.map (subtask_call taskId) subtasks) ->
  exists title description estimated_duration,
    effect = CreateSubtask taskId title description estimated_duration
    /\ estimated_duration <> 0.
Proof.
  intros Hin. apply in_map_iff in Hin as (subtask & <- & _).
  unfold subtask_call. do 3 eexists. split; [reflexivity|].
  unfold truthy_number.
  destruct (Z.eqb_spec (SubtaskSuggestionsModal.suggestion_estimated_duration subtask) 0);
    cbn [negb]; [discriminate|assumption].
Qed.


(** TaskCreateModal, [handleGetAISuggestions]: the suggested subtasks are
    created one after the other in the order of the suggestions.  When the
    request for suggestion [n] is rejected, the ones before it have been
    created and stay so, the ones after it are never sent, the error toast
    follows, and neither [onCreated] nor [onClose] is called. *)
Theorem suggested_subtasks_are_created_until_one_fails
    (taskId : string) (response : SubtaskSuggestionsModal.Suggested)
    (answer : nat -> settled unit ApiError) (n : nat) (e : ApiError)
    (loadingAISuggestions : bool)
    (Hn : (n < length (SubtaskSuggestionsModal.subtasks response))%nat)
    (Hrejected : answer n = Rejected e)
    (Hbefore : forall i, (i < n)%nat -> exists u, answer i = Resolved u) :
  let effects :=
    fst (handleGetAISuggestions (Some taskId) (Resolved response) answer
           loadingAISuggestions) in
  effects
    = (ShowInfo "Gerando sugestões de subtarefas com IA..."
         :: ShowSuccess (pretty (length (SubtaskSuggestionsModal.subtasks response))
                           ++ " sugestões de subtarefas geradas!")
         :: List.map (subtask_call taskId)
              (take (S n) (SubtaskSuggestionsModal.subtasks response))
         ++ [ShowError (or_string (response_detail e) "Falha ao obter sugestões de IA")])%list
  /\ ~ In (OnCreated taskId) effects
  /\ ~ In OnClose effects.
Proof.
  intros effects.
  assert (Heffects : effects
    = (ShowInfo "Gerando sugestões de subtarefas com IA..."
         :: ShowSuccess (pretty (length (SubtaskSuggestionsModal.subtasks response))
                           ++ " sugestões de subtarefas geradas!")
         :: List.map (subtask_call taskId)
              (take (S n) (SubtaskSuggestionsModal.subtasks response))
         ++ [ShowError (or_string (response_detail e) "Falha ao obter sugestões de IA")])%list).
  { subst effects. unfold handleGetAISuggestions. cbn [fst].
    destruct (Nat.ltb_spec 0 (length (SubtaskSuggestionsModal.subtasks response)));
      [|lia].
    rewrite (for_await_stops answer _ 0%nat n e).
    - rewrite <- (List.firstn_map (subtask_call taskId)). reflexivity.
    - rewrite length_map. exact Hn.
    - exact Hrejected.
    - exact Hbefore. }
  split; [exact Heffects|].
  assert (Hnone : forall effect, In effect effects -> is_create effect = false ->
                    exists text, effect = ShowInfo text \/ effect = ShowSuccess text
                                 \/ effect = ShowError text).
  { intros effect Hin Hnot. rewrite Heffects in Hin.
    destruct Hin as [<-|[<-|Hin]]; [eexists; eauto..|].
    apply in_app_or in Hin as [Hin|[<-|[]]]; [|eexists; eauto].
    apply subtask_calls_are_calls in Hin as (t & d & m & -> & _). discriminate. }
  split; intros Hin; apply Hnone in Hin as [text [H|[H|H]]]; try discriminate;
    reflexivity.
Qed.

Lemma suggested_subtasks_are_created_until_one_fails_witness :
  let two :=
    {| SubtaskSuggestionsModal.subtasks :=
         [ {| SubtaskSuggestionsModal.suggestion_title := "Book room";
              SubtaskSuggestionsModal.suggestion_description := "";
              SubtaskSuggestionsModal.suggestion_estimated_duration := 0 |};
           {| SubtaskSuggestionsModal.suggestion_title := "Send agenda";
              SubtaskSuggestionsModal.suggestion_description := "";
              SubtaskSuggestionsModal.suggestion_estimated_duration := 15 |} ];
       SubtaskSuggestionsModal.provider := "gpt4" |} in
  let down := {| response_status := Some 500; response_detail := None;
                 message := "Request failed with status code 500" |} in
  fst (handleGetAISuggestions (Some "t1") (Resolved two) (fun _ => Rejected down) true)
  = [ ShowInfo "Gerando sugestões de subtarefas com IA...";
      ShowSuccess "2 sugestões de subtarefas geradas!";
      CreateSubtask "t1" "Book room" "" 30;
      ShowError "Falha ao obter sugestões de IA" ].
Proof.
  intros two down.
  exact (proj1 (suggested_subtasks_are_created_until_one_fails
                  "t1" two (fun _ => Rejected down) 0 down true
                  ltac:(cbn; lia) eq_refl ltac:(intros i Hi; lia))).
Defined.



End CreateModalFacts.

Section ApplyModalFacts.
Import Js TaskStore ApplyAISuggestionsModal.

Lemma selectedSubtasks_all (subtasks : list SubtaskSuggestionsModal.SubtaskSuggestion) :
  selectedSubtasks subtasks (List.map (fun _ => true) subtasks) = subtasks.
Proof.
  induction subtasks as [|subtask subtasks IH]; cbn; [reflexivity|].
  rewrite IH. reflexivity.
Qed.

Lemma toggles_keep_suggestions (indices : list nat) (st : State) :
  suggestions (foldr toggleSubtask st indices) = suggestions st
  /\ error (foldr toggleSubtask st indices) = error st
  /\ length (selected_subtasks (selected (foldr toggleSubtask st indices)))
     = length (selected_subtasks (selected st)).
Proof.
  induction indices as [|index indices IH]; cbn [foldr]; [auto|].
  destruct IH as (Hs & He & Hl).
  destruct (foldr toggleSubtask st indices) as [l a e p s [sp sd flags]].
  cbn in *. rewrite length_alter. auto.
Qed.

(** ApplyAISuggestionsModal, [loadSuggestions] and [toggleSubtask]: every
    AI call has its own fallback, so whatever the three calls do the modal
    shows no error; a rejected subtask call leaves no suggestion and the
    provider "unknown"; and after loading and any number of toggles the
    selection has exactly one flag per suggestion, all of them set while
    nothing has been toggled. *)
Theorem loaded_selection_has_a_flag_per_suggestion
    (sentimentCall : settled SentimentAnalysis ApiError)
    (durationCall : settled DurationEstimate ApiError)
    (subtasksCall : settled SubtaskSuggestionsModal.Suggested ApiError)
    (indices : list nat) (st : State) :
  let loaded := loadSuggestions sentimentCall durationCall subtasksCall st in
  let toggled := foldr toggleSubtask loaded indices in
  error toggled = None
  /\ loading loaded = false
  /\ length (selected_subtasks (selected toggled))
     = length (subtasks (suggestions toggled))
  /\ selectedSubtasks (subtasks (suggestions loaded))
       (selected_subtasks (selected loaded))
     = subtasks (suggestions loaded)
  /\ (forall e, subtasksCall = Rejected e ->
        subtasks (suggestions loaded) = [] /\ provider loaded = "unknown").
Proof.
  intros loaded toggled.
  destruct (toggles_keep_suggestions indices loaded) as (Hs & He & Hl).
  fold toggled in Hs, He, Hl.
  split; [rewrite He; reflexivity|].
  split; [reflexivity|].
  split; [rewrite Hl, Hs; subst loaded; cbn; apply length_map|].
  split; [subst loaded; cbn; apply selectedSubtasks_all|].
  intros e ->. split; reflexivity.
Qed.

(** ApplyAISuggestionsModal, [handleApply]: the requests are awaited one
    after the other, the task update (when there is something to update)
    before the subtasks.  When request [n] is rejected, the ones before it
    have been applied and stay so, the ones after it are never sent, and
    the modal shows the error toast without calling [onApplied] or
    [onClose]; [applying] is false again either way. *)
Theorem handleApply_stops_at_first_failure
    (toLowerCase : string -> string) (taskId : string)
    (answer : nat -> settled unit ApiError) (st : State) (n : nat) (e : ApiError)
    (Hn : (n < length (requests toLowerCase taskId st))%nat)
    (Hrejected : answer n = Rejected e)
    (Hbefore : forall i, (i < n)%nat -> exists u, answer i = Resolved u) :
  fst (handleApply toLowerCase taskId answer st)
    = (take (S n) (requests toLowerCase taskId st)
         ++ [ShowError "Falha ao aplicar sugestões"])%list
  /\ applying (snd (handleApply toLowerCase taskId answer st)) = false
  /\ (has_keys (updates_of toLowerCase st) = true ->
      head (fst (handleApply toLowerCase taskId answer st))
      = Some (UpdateTask taskId (updates_of toLowerCase st))).
Proof.
  unfold handleApply.
  rewrite (for_await_stops answer _ 0%nat n e Hn Hrejected Hbefore).
  cbn [fst snd applying]. repeat split.
  intros Hkeys. unfold requests. rewrite Hkeys. reflexivity.
Qed.

Lemma handleApply_stops_at_first_failure_witness :
  let st :=
    {| loading := false; applying := true; error := None; provider := "gpt4";
       suggestions :=
         {| sentiment := Some {| sentiment_priority := "HIGH";
                                 sentiment_scores := "" |};
            duration := None;
            subtasks := [ {| SubtaskSuggestionsModal.suggestion_title := "Book room";
                             SubtaskSuggestionsModal.suggestion_description := "";
                             SubtaskSuggestionsModal.suggestion_estimated_duration := 15 |} ] |};
       selected := {| selected_priority := true; selected_estimatedDuration := false;
                      selected_subtasks := [true] |} |} in
  let down := {| response_status := Some 500; response_detail := None;
                 message := "Request failed with status code 500" |} in
  fst (handleApply (fun _ => "high") "t1" (fun _ => Rejected down) st)
  = [ UpdateTask "t1" {| update_priority := Some (Prim "high");
                         update_estimated_duration := None |};
      ShowError "Falha ao aplicar sugestões" ].
Proof.
  intros st down.
  exact (proj1 (handleApply_stops_at_first_failure
                  (fun _ => "high") "t1" (fun _ => Rejected down) st 0 down
                  ltac:(cbn; lia) eq_refl ltac:(intros i Hi; lia))).
Defined.


Lemma change_keeps_consistent (box : Checkbox) (st : State) :
  consistent st ->
  consistent (change box st) /\ suggestions (change box st) = suggestions st.
Proof.
  intros (Hp & Hd & Hl). unfold change.
  destruct (rendered box st) eqn:Hrendered; [|repeat split; assumption].
  unfold rendered in Hrendered.
  apply andb_prop in Hrendered as [_ Hbox].
  destruct st as [l a e p s [sp sd flags]]. cbn in *.
  destruct box as [checked|checked|index]; cbn -[alter].
  - apply bool_decide_eq_true_1 in Hbox. repeat split; auto.
  - apply bool_decide_eq_true_1 in Hbox. repeat split; auto.
  - unfold toggleSubtask.
    cbn [selected selected_priority selected_estimatedDuration selected_subtasks
         suggestions].
    repeat split; cbn -[alter]; auto. rewrite length_alter. exact Hl.
Qed.

Lemma changes_keep_consistent (boxes : list Checkbox) :
  forall st, consistent st ->
    consistent (foldl (fun st box => change box st) st boxes)
    /\ suggestions (foldl (fun st box => change box st) st boxes) = suggestions st.
Proof.
  induction boxes as [|box boxes IH]; intros st Hst; cbn [foldl]; [auto|].
  destruct (change_keeps_consistent box st Hst) as [Hc Hs].
  destruct (IH _ Hc) as [Hc' Hs']. split; [exact Hc'|congruence].
Qed.

Lemma a_set_flag_selects_a_subtask
    (subtasks : list SubtaskSuggestionsModal.SubtaskSuggestion) :
  forall flags, length flags = length subtasks ->
    existsb (fun flag : bool => flag) flags = true ->
    selectedSubtasks subtasks flags <> [].
Proof.
  induction subtasks as [|subtask subtasks IH]; intros [|flag flags] Hl Hsome;
    cbn in *; try discriminate.
  destruct flag; [discriminate|]. apply IH; [lia|exact Hsome].
Qed.

Lemma nothing_to_change_without_suggestions (boxes : list Checkbox) :
  forall st,
    sentiment (suggestions st) = None -> duration (suggestions st) = None ->
    subtasks (suggestions st) = [] ->
    foldl (fun st box => change box st) st boxes = st.
Proof.
  induction boxes as [|box boxes IH]; intros st Hs Hd Hl; cbn [foldl]; [reflexivity|].
  assert (Hsame : change box st = st).
  { unfold change, rendered. rewrite Hs, Hd, Hl.
    destruct box; cbn; rewrite ?andb_false_r; reflexivity. }
  rewrite Hsame. apply IH; assumption.
Qed.

(** ApplyAISuggestionsModal, the Apply button and [handleApply]: after
    [loadSuggestions] and any changes of the checkboxes that are on the
    page, a flag is only set for a suggestion that exists, so an enabled
    Apply button always sends at least one request; and when all three AI
    calls were rejected no checkbox is on the page and the button stays
    disabled. *)
Theorem enabled_apply_sends_a_request
    (toLowerCase : string -> string) (taskId : string)
    (sentimentCall : settled SentimentAnalysis ApiError)
    (durationCall : settled DurationEstimate ApiError)
    (subtasksCall : settled SubtaskSuggestionsModal.Suggested ApiError)
    (boxes : list Checkbox) (st0 : State) :
  let loaded := loadSuggestions sentimentCall durationCall subtasksCall st0 in
  let st := foldl (fun st box => change box st) loaded boxes in
  consistent st
  /\ (apply_disabled st = false -> requests toLowerCase taskId st <> [])
  /\ (forall e1 e2 e3,
        sentimentCall = Rejected e1 -> durationCall = Rejected e2 ->
        subtasksCall = Rejected e3 ->
        st = loaded /\ apply_disabled st = true).
Proof.
  intros loaded st.
  assert (Hloaded : consistent loaded).
  { subst loaded. unfold consistent, loadSuggestions. cbn.
    split; [intros H; apply bool_decide_eq_true_1 in H; exact H|].
    split; [intros H; apply bool_decide_eq_true_1 in H; exact H|].
    apply length_map. }
  destruct (changes_keep_consistent boxes loaded Hloaded) as [Hst _].
  fold st in Hst. split; [exact Hst|]. split.
  - destruct Hst as (Hp & Hd & Hl). unfold apply_disabled. intros Henabled.
    apply orb_false_elim in Henabled as [_ Hnone].
    unfold requests, has_keys, updates_of. cbn [update_priority update_estimated_duration].
    destruct (selected_priority (selected st)) eqn:Hsp.
    { destruct (sentiment (suggestions st)); [|exfalso; apply Hp; reflexivity].
      discriminate. }
    destruct (selected_estimatedDuration (selected st)) eqn:Hsd.
    { destruct (duration (suggestions st)); [|exfalso; apply Hd; reflexivity].
      destruct (sentiment (suggestions st)); discriminate. }
    cbn [negb andb] in Hnone. apply negb_false_iff in Hnone.
    pose proof (a_set_flag_selects_a_subtask _ _ Hl Hnone) as Hselected.
    intros Hempty. apply app_eq_nil in Hempty as [_ Hempty].
    apply map_eq_nil in Hempty. contradiction.
  - intros e1 e2 e3 -> -> ->.
    assert (Hsame : st = loaded).
    { subst st. apply nothing_to_change_without_suggestions; reflexivity. }
    split; [exact Hsame|]. rewrite Hsame. subst loaded.
    unfold apply_disabled. cbn. apply orb_true_r.
Qed.

Lemma enabled_apply_sends_a_request_witness :
  let st :=
    foldl (fun st box => change box st)
      (loadSuggestions
         (Resolved {| sentiment_priority := "HIGH"; sentiment_scores := "" |})
         (Rejected Samples.server_error) (Rejected Samples.server_error) mounted)
      [DurationBox true; SubtaskBox 0] in
  apply_disabled st = false
  /\ requests (fun _ => "high") "t1" st
     = [ UpdateTask "t1" {| update_priority := Some (Prim "high");
                            update_estimated_duration := None |} ].
Proof.
  cbn zeta. split; [reflexivity|].
  pose proof (enabled_apply_sends_a_request
                (fun _ => "high") "t1"
                (Resolved {| sentiment_priority := "HIGH"; sentiment_scores := "" |})
                (Rejected Samples.server_error) (Rejected Samples.server_error)
                [DurationBox true; SubtaskBox 0] mounted) as (_ & Hsends & _).
  cbn zeta in Hsends. specialize (Hsends eq_refl).
  reflexivity.
Defined.

End ApplyModalFacts.
